(** * fx-gin-scaffold: user service, repositories and migration runner

    A shallow embedding of the Go sources

    - [internal/domain]    errors, the [User] entity, requests and responses,
    - [internal/repo]      the relational (GORM) and document (MongoDB)
                           implementations of [UserRepository],
    - [internal/service]   [userService] and [authService],
    - [internal/migration] the [Migrator],

    followed by the properties of these functions.

    Conventions.  A Go method that mutates its receiver or an argument
    returns the new value.  A Go pair [(v, err)] is a [result]; a lone
    [error] is an [option error] ([None] is [nil]).  Every operation that
    reads [time.Now()] takes the instant as an argument [now]; several reads
    inside one call are identified.  Strings are byte strings, as in Go. *)

From Stdlib Require Import ZArith String Ascii List Bool Lia.
From Stdlib Require Import Sorting.Sorted Sorting.Permutation.
From stdpp Require Import base strings gmap.
Import ListNotations.

Local Open Scope string_scope.

(* ================================================================== *)
(** * The Go packages [strings] and [time] *)
(* ================================================================== *)

(** The functions of package [strings] used by the program.  Go decodes its
    argument as UTF-8; the model follows Go on every ASCII string and leaves
    bytes above 127 alone. *)
Module gostrings.

(** ASCII white space: ['\t'], ['\n'], ['\v'], ['\f'], ['\r'], [' ']. *)
Definition isSpace (c : ascii) : bool :=
  let n := N_of_ascii c in
  (((9 <=? n) && (n <=? 13)) || (n =? 32))%N.

Fixpoint TrimLeft (s : string) : string :=
  match s with
  | EmptyString => EmptyString
  | String c r => if isSpace c then TrimLeft r else s
  end.

Fixpoint TrimRight (s : string) : string :=
  match s with
  | EmptyString => EmptyString
  | String c r =>
      match TrimRight r with
      | EmptyString => if isSpace c then EmptyString else String c EmptyString
      | r' => String c r'
      end
  end.

Definition TrimSpace (s : string) : string := TrimRight (TrimLeft s).

Definition toLowerByte (c : ascii) : ascii :=
  let n := N_of_ascii c in
  if ((65 <=? n) && (n <=? 90))%N then ascii_of_N (n + 32) else c.

Fixpoint ToLower (s : string) : string :=
  match s with
  | EmptyString => EmptyString
  | String c r => String (toLowerByte c) (ToLower r)
  end.

(** [Contains s substr]: [substr] occurs in [s]. *)
Fixpoint Contains (s substr : string) : bool :=
  String.prefix substr s ||
  match s with
  | EmptyString => false
  | String _ r => Contains r substr
  end.

(** [len(s)], a Go [int]. *)
Definition len (s : string) : Z := Z.of_nat (String.length s).

(** [s[n:]] for [0 <= n <= len(s)]. *)
Fixpoint drop (n : nat) (s : string) : string :=
  match n, s with
  | O, _ => s
  | S n', String _ r => drop n' r
  | S _, EmptyString => EmptyString
  end.

Definition HasPrefix (s prefix : string) : bool := String.prefix prefix s.

Definition TrimPrefix (s prefix : string) : string :=
  if HasPrefix s prefix then drop (String.length prefix) s else s.

(** [strings.CutPrefix]: the rest and whether the prefix was found. *)
Definition CutPrefix (s prefix : string) : string * bool :=
  if negb (HasPrefix s prefix) then (s, false)
  else (drop (String.length prefix) s, true).

End gostrings.

(** The arithmetic of Go's [int] and [int64], 64 bits in two's complement,
    and the result of a call that may panic. *)
Module goint.

Definition minInt : Z := (- 2 ^ 63)%Z.
Definition maxInt : Z := (2 ^ 63 - 1)%Z.

(** The value an operation leaves after overflow. *)
Definition wrap (z : Z) : Z := ((z + 2 ^ 63) mod 2 ^ 64 - 2 ^ 63)%Z.

Definition add (a b : Z) : Z := wrap (a + b).
Definition sub (a b : Z) : Z := wrap (a - b).
Definition mul (a b : Z) : Z := wrap (a * b).

(** A call that returns or panics. *)
Inductive exec (A : Type) :=
| Returned (a : A)
| Panicked (reason : string).
Arguments Returned {A} a.
Arguments Panicked {A} reason.

(** [a / b]: the quotient truncated toward zero; division by zero panics. *)
Definition div (a b : Z) : exec Z :=
  if (b =? 0)%Z then Panicked "runtime error: integer divide by zero"
  else Returned (wrap (Z.quot a b)).

End goint.

(** Package [time]: an instant is a number of nanoseconds since the Unix
    epoch, a [Duration] is a signed 64-bit number of nanoseconds. *)
Module time.

Definition Time := Z.
Definition Duration := Z.

Definition Nanosecond : Duration := 1%Z.
Definition Second : Duration := (1000000000 * Nanosecond)%Z.
Definition Minute : Duration := (60 * Second)%Z.
Definition Hour : Duration := (60 * Minute)%Z.

Definition minDuration : Duration := (- 2 ^ 63)%Z.
Definition maxDuration : Duration := (2 ^ 63 - 1)%Z.

(** [t.Sub(u)]: the difference, saturated to the range of [Duration]. *)
Definition Sub (t u : Time) : Duration :=
  let d := (t - u)%Z in
  if (d <? minDuration)%Z then minDuration
  else if (maxDuration <? d)%Z then maxDuration
  else d.

(** [time.Until(t)] is [t.Sub(time.Now())]. *)
Definition Until (now t : Time) : Duration := Sub t now.

(** Go's zero [time.Time], January 1 of year 1. *)
Definition zeroTime : Time := (-62135596800 * Second)%Z.

Definition Add (t : Time) (d : Duration) : Time := (t + d)%Z.

(** [t.Truncate(d)] for a positive [d] dividing the epoch offset. *)
Definition Truncate (t : Time) (d : Duration) : Time := (t - t mod d)%Z.

End time.

(* ================================================================== *)
(** * Package [domain] *)
(* ================================================================== *)

Module domain.

(** [type Error struct] *)
Record Error := { Code : string; Message : string; Details : string }.

Definition ErrCodeValidation := "VALIDATION_ERROR".
Definition ErrCodeInvalid := "INVALID_VALUE".
Definition ErrCodeUnauthorized := "UNAUTHORIZED".
Definition ErrCodeForbidden := "FORBIDDEN".
Definition ErrCodeInvalidToken := "INVALID_TOKEN".
Definition ErrCodeInvalidPassword := "INVALID_PASSWORD".
Definition ErrCodeNotFound := "NOT_FOUND".
Definition ErrCodeAlreadyExists := "ALREADY_EXISTS".
Definition ErrCodeInternal := "INTERNAL_ERROR".
Definition ErrCodeDatabase := "DATABASE_ERROR".

(** The package-level [*Error] variables.  Go compares them by address
    ([err == domain.ErrUserNotFound]), so they are kept apart from
    errors allocated by [NewError]. *)
Inductive ErrVar :=
| VarUserNotFound | VarUserExists | VarInvalidPassword | VarUnauthorized
| VarForbidden | VarInvalidToken | VarValidation | VarInternalServer.

(** Sentinel errors of the drivers. *)
Inductive LibVar := gorm_ErrRecordNotFound | mongo_ErrNoDocuments.

(** A value of the Go interface [error]. *)
Inductive error :=
| Var (v : ErrVar)                      (* one of the predefined errors *)
| Ptr (e : Error)                       (* a freshly allocated [*Error] *)
| Lib (v : LibVar)                      (* a sentinel of a driver *)
| Driver (msg : string)                 (* any other driver error *)
| WriteException (code : Z) (msg : string)  (* mongo.WriteException *)
| Errorf (msg : string) (cause : error).    (* fmt.Errorf("... %w", cause) *)

Definition ErrUserNotFound := Var VarUserNotFound.
Definition ErrUserExists := Var VarUserExists.
Definition ErrInvalidPassword := Var VarInvalidPassword.
Definition ErrUnauthorized := Var VarUnauthorized.
Definition ErrForbidden := Var VarForbidden.
Definition ErrInvalidToken := Var VarInvalidToken.
Definition ErrValidation := Var VarValidation.
Definition ErrInternalServer := Var VarInternalServer.

(** The struct a predefined error points to. *)
Definition deref (v : ErrVar) : Error :=
  match v with
  | VarUserNotFound => {| Code := ErrCodeNotFound; Message := "User not found"; Details := "" |}
  | VarUserExists => {| Code := ErrCodeAlreadyExists; Message := "User already exists"; Details := "" |}
  | VarInvalidPassword => {| Code := ErrCodeInvalidPassword; Message := "Invalid password"; Details := "" |}
  | VarUnauthorized => {| Code := ErrCodeUnauthorized; Message := "Unauthorized"; Details := "" |}
  | VarForbidden => {| Code := ErrCodeForbidden; Message := "Forbidden"; Details := "" |}
  | VarInvalidToken => {| Code := ErrCodeInvalidToken; Message := "Invalid token"; Details := "" |}
  | VarValidation => {| Code := ErrCodeValidation; Message := "Validation failed"; Details := "" |}
  | VarInternalServer => {| Code := ErrCodeInternal; Message := "Internal server error"; Details := "" |}
  end.

(** The type assertion of [err] to a pointer to [domain.Error]. *)
Definition asError (err : error) : option Error :=
  match err with
  | Var v => Some (deref v)
  | Ptr e => Some e
  | _ => None
  end.

(** The error kind: the [Code] of a domain error. *)
Definition codeOf (err : error) : option string :=
  match asError err with
  | Some e => Some (Code e)
  | None => None
  end.

(** [err.Error()] *)
Definition ErrorString (err : error) : string :=
  match err with
  | Var v => Message (deref v)
  | Ptr e => Message e
  | Lib gorm_ErrRecordNotFound => "record not found"
  | Lib mongo_ErrNoDocuments => "mongo: no documents in result"
  | Driver msg => msg
  | WriteException _ msg => msg
  | Errorf msg _ => msg
  end.

(** [err == v] for a predefined error [v]: equality of addresses. *)
Definition isVar (v : ErrVar) (err : error) : bool :=
  match err with
  | Var w =>
      match v, w with
      | VarUserNotFound, VarUserNotFound | VarUserExists, VarUserExists
      | VarInvalidPassword, VarInvalidPassword | VarUnauthorized, VarUnauthorized
      | VarForbidden, VarForbidden | VarInvalidToken, VarInvalidToken
      | VarValidation, VarValidation | VarInternalServer, VarInternalServer => true
      | _, _ => false
      end
  | _ => false
  end.

(** [err == v] for a sentinel [v] of a driver. *)
Definition isLib (v : LibVar) (err : error) : bool :=
  match err, v with
  | Lib gorm_ErrRecordNotFound, gorm_ErrRecordNotFound
  | Lib mongo_ErrNoDocuments, mongo_ErrNoDocuments => true
  | _, _ => false
  end.

(** [errors.Is(err, target)] for a driver sentinel: follows [%w] chains. *)
Fixpoint errorsIs (target : LibVar) (err : error) : bool :=
  match err with
  | Lib v =>
      match target, v with
      | gorm_ErrRecordNotFound, gorm_ErrRecordNotFound
      | mongo_ErrNoDocuments, mongo_ErrNoDocuments => true
      | _, _ => false
      end
  | Errorf _ cause => errorsIs target cause
  | _ => false
  end.

Definition NewError (code message : string) : error :=
  Ptr {| Code := code; Message := message; Details := "" |}.

Definition WrapError (err : error) (code message : string) : error :=
  Ptr {| Code := code; Message := message; Details := ErrorString err |}.

Definition ValidationError (field message : string) : error :=
  Ptr {| Code := ErrCodeValidation;
         Message := "Validation failed for field '" ++ field ++ "': " ++ message;
         Details := "field=" ++ field |}.

(** A Go result pair [(value, err)]. *)
Inductive result (A : Type) :=
| Ok (a : A)
| Err (e : error).
Arguments Ok {A} a.
Arguments Err {A} e.

(** A call that may end in a run-time panic instead of returning. *)
Inductive outcome (A : Type) :=
| Return (r : result A)
| Panic.
Arguments Return {A} r.
Arguments Panic {A}.

(** [type User struct] *)
Record User := {
  ID : Z;
  Email : string;
  Password : string;
  Name : string;
  Role : string;
  Active : bool;
  CreatedAt : time.Time;
  UpdatedAt : time.Time
}.

Record UserCreateRequest := {
  create_Email : string;
  create_Password : string;
  create_Name : string;
  create_Role : string
}.

Record UserLoginRequest := {
  login_Email : string;
  login_Password : string
}.

(** [type UserResponse struct]: no password field. *)
Record UserResponse := {
  resp_ID : Z;
  resp_Email : string;
  resp_Name : string;
  resp_Role : string;
  resp_Active : bool;
  resp_CreatedAt : time.Time;
  resp_UpdatedAt : time.Time
}.

Definition ToResponse (u : User) : UserResponse :=
  {| resp_ID := ID u; resp_Email := Email u; resp_Name := Name u;
     resp_Role := Role u; resp_Active := Active u;
     resp_CreatedAt := CreatedAt u; resp_UpdatedAt := UpdatedAt u |}.

(** Package [bcrypt], a black box. *)
Record Bcrypt := {
  GenerateFromPassword : string -> result string;
  CompareHashAndPassword : string -> string -> option error
}.

Definition set_ID (u : User) (id : Z) : User :=
  {| ID := id; Email := Email u; Password := Password u; Name := Name u;
     Role := Role u; Active := Active u; CreatedAt := CreatedAt u;
     UpdatedAt := UpdatedAt u |}.

Definition set_Name (u : User) (name : string) : User :=
  {| ID := ID u; Email := Email u; Password := Password u; Name := name;
     Role := Role u; Active := Active u; CreatedAt := CreatedAt u;
     UpdatedAt := UpdatedAt u |}.

Definition set_CreatedAt (u : User) (t : time.Time) : User :=
  {| ID := ID u; Email := Email u; Password := Password u; Name := Name u;
     Role := Role u; Active := Active u; CreatedAt := t;
     UpdatedAt := UpdatedAt u |}.

Definition set_UpdatedAt (u : User) (t : time.Time) : User :=
  {| ID := ID u; Email := Email u; Password := Password u; Name := Name u;
     Role := Role u; Active := Active u; CreatedAt := CreatedAt u;
     UpdatedAt := t |}.

Definition HashPassword (bc : Bcrypt) (u : User) : User * option error :=
  match GenerateFromPassword bc (Password u) with
  | Err err => (u, Some err)
  | Ok hashedPassword =>
      ({| ID := ID u; Email := Email u; Password := hashedPassword;
          Name := Name u; Role := Role u; Active := Active u;
          CreatedAt := CreatedAt u; UpdatedAt := UpdatedAt u |}, None)
  end.

Definition CheckPassword (bc : Bcrypt) (u : User) (password : string) : bool :=
  match CompareHashAndPassword bc (Password u) password with
  | None => true
  | Some _ => false
  end.

(** [type UserRepository interface], over a store of type [S]. *)
Record UserRepository (S : Type) := {
  Create : S -> time.Time -> User -> S * User * option error;
  GetByID : S -> Z -> result User;
  GetByEmail : S -> string -> result User;
  Update : S -> time.Time -> User -> S * User * option error;
  Delete : S -> Z -> S * option error;
  List : S -> Z -> Z -> result (list User * Z);
  Search : S -> string -> Z -> Z -> result (list User * Z)
}.
Arguments Create {S} _ _ _ _.
Arguments GetByID {S} _ _ _.
Arguments GetByEmail {S} _ _ _.
Arguments Update {S} _ _ _ _.
Arguments Delete {S} _ _ _.
Arguments List {S} _ _ _ _.
Arguments Search {S} _ _ _ _ _.

(** [type JWTClaims struct]; the embedded registered claims are pointers
    in Go, [None] is [nil]. *)
Record JWTClaims := {
  UserID : Z;
  claim_Email : string;
  claim_Role : string;
  ExpiresAt : option time.Time;
  IssuedAt : option time.Time;
  NotBefore : option time.Time;
  Issuer : string;
  Subject : string
}.

(** [type AuthService interface] *)
Record AuthService := {
  GenerateToken : time.Time -> User -> result string;
  ValidateToken : time.Time -> string -> result JWTClaims;
  RefreshToken : time.Time -> string -> outcome string
}.

(** [type UserUpdateRequest struct]: the fields are pointers, [None] is
    [nil]. *)
Record UserUpdateRequest := {
  update_Name : option string;
  update_Role : option string;
  update_Active : option bool
}.

Definition set_Role (u : User) (role : string) : User :=
  {| ID := ID u; Email := Email u; Password := Password u; Name := Name u;
     Role := role; Active := Active u; CreatedAt := CreatedAt u;
     UpdatedAt := UpdatedAt u |}.

Definition set_Active (u : User) (active : bool) : User :=
  {| ID := ID u; Email := Email u; Password := Password u; Name := Name u;
     Role := Role u; Active := active; CreatedAt := CreatedAt u;
     UpdatedAt := UpdatedAt u |}.

Definition IsAdmin (u : User) : bool := String.eqb (Role u) "admin".

(** [type PaginationRequest struct] and [type Meta struct] *)
Record PaginationRequest := { Page : Z; Limit : Z }.

Record Meta := {
  meta_Total : Z;
  meta_Offset : Z;
  meta_Limit : Z;
  meta_Page : Z;
  meta_Pages : Z
}.

Definition GetOffset (p : PaginationRequest) : Z :=
  goint.mul (goint.sub (Page p) 1) (Limit p).

Definition GetMeta (p : PaginationRequest) (total : Z) : goint.exec Meta :=
  match goint.div (goint.sub (goint.add total (Limit p)) 1) (Limit p) with
  | goint.Panicked reason => goint.Panicked reason
  | goint.Returned pages =>
      goint.Returned
        {| meta_Total := total; meta_Offset := GetOffset p; meta_Limit := Limit p;
           meta_Page := Page p; meta_Pages := pages |}
  end.

Definition StatusBadRequest : Z := 400.
Definition StatusUnauthorized : Z := 401.
Definition StatusForbidden : Z := 403.
Definition StatusNotFound : Z := 404.
Definition StatusConflict : Z := 409.
Definition StatusInternalServerError : Z := 500.

Definition HTTPStatusFromError (err : error) : Z :=
  match asError err with
  | Some domainErr =>
      let code := Code domainErr in
      if String.eqb code ErrCodeValidation || String.eqb code ErrCodeInvalid
      then StatusBadRequest
      else if String.eqb code ErrCodeUnauthorized || String.eqb code ErrCodeInvalidToken
              || String.eqb code ErrCodeInvalidPassword
      then StatusUnauthorized
      else if String.eqb code ErrCodeForbidden then StatusForbidden
      else if String.eqb code ErrCodeNotFound then StatusNotFound
      else if String.eqb code ErrCodeAlreadyExists then StatusConflict
      else StatusInternalServerError
  | None => StatusInternalServerError
  end.

End domain.


(* ================================================================== *)
(** * [sort.Slice] *)
(* ================================================================== *)

(** [sort.Slice(x, less)] returns a permutation of [x] that is ordered by
    [less].  The model is the insertion sort Go runs on short slices; it
    keeps equal elements in their order. *)
Module gosort.

Section Slice.
Context {A : Type} (less : A -> A -> bool).

Fixpoint insert (x : A) (l : list A) : list A :=
  match l with
  | [] => [x]
  | y :: r => if less y x then y :: insert x r else x :: y :: r
  end.

Definition Slice (l : list A) : list A := fold_right insert [] l.

(** [x] is not after [y]. *)
Definition ordered (x y : A) : Prop := less y x = false.

End Slice.

End gosort.

(* ================================================================== *)
(** * The library [gorm] *)
(* ================================================================== *)

Module gorm.
Import domain.

(** The conditions the repository puts on a statement. *)
Inductive Where :=
| All                                  (* no condition *)
| PrimaryKey (id : Z)                  (* First(&user, id), Delete(&User{}, id) *)
| EmailEq (email : string)             (* Where("email = ?", email) *)
| NameOrEmailILike (pattern : string). (* Where("name ILIKE ? OR email ILIKE ?", p, p) *)

(** What a finished statement leaves in [*gorm.DB]. *)
Record Result := { res_Error : option error; RowsAffected : Z }.

(** The statements of [*gorm.DB] the repository issues, over a database
    state [T].  [db_Find] is [Offset(o).Limit(l).Order("created_at DESC").Find]. *)
Record DB (T : Type) := {
  db_Create : T -> time.Time -> User -> T * User * Result;
  db_First : T -> Where -> result User;
  db_Save : T -> time.Time -> User -> T * User * Result;
  db_Delete : T -> Where -> T * Result;
  db_Count : T -> Where -> result Z;
  db_Find : T -> Where -> Z -> Z -> result (list User)
}.
Arguments db_Create {T} _ _ _ _.
Arguments db_First {T} _ _ _.
Arguments db_Save {T} _ _ _ _.
Arguments db_Delete {T} _ _ _.
Arguments db_Count {T} _ _ _.
Arguments db_Find {T} _ _ _ _ _.

End gorm.

(* ================================================================== *)
(** * The document store *)
(* ================================================================== *)

(** A model of the MongoDB driver as the repository uses it: BSON documents
    are finite maps from keys to values, a collection is a list of documents
    with a unique index on [email] (the one [NewUserMongoRepository] creates)
    and on [_id].  [fault] is a failure of the connection: when set, every
    operation reports it.  Regular expressions are the server's, a parameter.
    Pages follow the server for [0 <= skip] and [0 < limit]. *)
Module mongo.
Import domain.

(** [primitive.ObjectID]: twelve bytes, the first four the creation time in
    seconds; [oid_tail] stands for the other eight. *)
Record ObjectID := { oid_seconds : Z; oid_tail : Z }.

Definition NilObjectID : ObjectID := {| oid_seconds := 0; oid_tail := 0 |}.

Definition oid_eqb (a b : ObjectID) : bool :=
  ((oid_seconds a =? oid_seconds b) && (oid_tail a =? oid_tail b))%Z.

Definition IsZero (o : ObjectID) : bool := oid_eqb o NilObjectID.

(** [id.Timestamp().Unix()] *)
Definition TimestampUnix (o : ObjectID) : Z := oid_seconds o.

(** [primitive.NewObjectID()] at instant [now], the process counter at [serial]. *)
Definition NewObjectID (now : time.Time) (serial : Z) : ObjectID :=
  {| oid_seconds := ((now / time.Second) mod 2 ^ 32)%Z; oid_tail := (serial + 1)%Z |}.

Inductive Value :=
| VString (s : string)
| VBool (b : bool)
| VTime (t : time.Time)
| VObjectID (o : ObjectID)
| VRegex (pattern options : string).   (* primitive.Regex *)

Definition value_eqb (v w : Value) : bool :=
  match v, w with
  | VString a, VString b => String.eqb a b
  | VBool a, VBool b => Bool.eqb a b
  | VTime a, VTime b => (a =? b)%Z
  | VObjectID a, VObjectID b => oid_eqb a b
  | VRegex p o, VRegex q r => String.eqb p q && String.eqb o r
  | _, _ => false
  end.

(** [bson.M] *)
Abbreviation M := (gmap string Value).

(** Query filters: [FieldIs k v] is [bson.M{k: v}], [And] a [bson.M] with
    several keys, [Or a b] is [bson.M{"$or": []bson.M{a, b}}]. *)
Inductive Filter :=
| Any
| FieldIs (key : string) (v : Value)
| And (a b : Filter)
| Or (a b : Filter).

(** [options.Find()]: skip, limit and an optional sort key with its direction. *)
Record FindOptions := { Skip : Z; Limit : Z; Sort : option (string * Z) }.

Record Collection := {
  docs : list M;
  serial : Z;
  fault : option error
}.

Definition with_docs (c : Collection) (l : list M) (n : Z) : Collection :=
  {| docs := l; serial := n; fault := fault c |}.

Definition ErrNoDocuments : error := Lib mongo_ErrNoDocuments.

Definition duplicateKey (index : string) : error :=
  WriteException 11000 ("E11000 duplicate key error collection: users index: " ++ index).

(** [mongo.IsDuplicateKeyError] *)
Definition IsDuplicateKeyError (err : error) : bool :=
  match err with
  | WriteException code _ => ((code =? 11000) || (code =? 11001) || (code =? 12582))%Z
  | _ => false
  end.

Definition option_value_eqb (a b : option Value) : bool :=
  match a, b with
  | Some v, Some w => value_eqb v w
  | None, None => true
  | _, _ => false
  end.

(** Two documents collide on a unique index over [key]. *)
Definition collide (key : string) (d e : M) : bool :=
  option_value_eqb (d !! key) (e !! key).

Definition timeOf (d : M) (key : string) : Z :=
  match d !! key with
  | Some (VTime t) => t
  | _ => 0%Z
  end.

(** [a] comes before [b] under the sort [key, dir]. *)
Definition before (key : string) (dir : Z) (a b : M) : bool :=
  if (dir <? 0)%Z then (timeOf b key <? timeOf a key)%Z
  else (timeOf a key <? timeOf b key)%Z.

Definition sorted (o : FindOptions) (l : list M) : list M :=
  match Sort o with
  | Some (key, dir) => gosort.Slice (before key dir) l
  | None => l
  end.

Definition page (o : FindOptions) (l : list M) : list M :=
  firstn (Z.to_nat (Limit o)) (skipn (Z.to_nat (Skip o)) l).

(** [$set]: the keys of [set] are written, every other key is kept. *)
Definition applySet (set d : M) : M := set ∪ d.

Section Driver.
(** [regex pattern options subject]: the server's regular expressions. *)
Context (regex : string -> string -> string -> bool).

Definition fieldIs (d : M) (key : string) (v : Value) : bool :=
  match v with
  | VRegex pattern options =>
      match d !! key with
      | Some (VString s) => regex pattern options s
      | _ => false
      end
  | _ => option_value_eqb (d !! key) (Some v)
  end.

Fixpoint matches (f : Filter) (d : M) : bool :=
  match f with
  | Any => true
  | FieldIs key v => fieldIs d key v
  | And a b => matches a d && matches b d
  | Or a b => matches a d || matches b d
  end.

(** [InsertOne]: the result is the [InsertedID]. *)
Definition InsertOne (c : Collection) (now : time.Time) (d : M) : Collection * result Value :=
  match fault c with
  | Some err => (c, Err err)
  | None =>
      let id := match d !! "_id" with
                | Some v => v
                | None => VObjectID (NewObjectID now (serial c))
                end in
      let d' := <["_id" := id]> d in
      if existsb (collide "_id" d') (docs c) then (c, Err (duplicateKey "_id_"))
      else if existsb (collide "email" d') (docs c) then (c, Err (duplicateKey "email_1"))
      else (with_docs c (docs c ++ [d']) (serial c + 1), Ok id)
  end.

Definition FindOne (c : Collection) (f : Filter) : result M :=
  match fault c with
  | Some err => Err err
  | None =>
      match List.filter (matches f) (docs c) with
      | [] => Err ErrNoDocuments
      | d :: _ => Ok d
      end
  end.

(** The first document matching [f] updated by [$set], or nothing. *)
Fixpoint updateFirst (f : Filter) (set : M) (l : list M) : option (list M * M * list M) :=
  match l with
  | [] => None
  | d :: r =>
      if matches f d then Some ([], applySet set d, r)
      else match updateFirst f set r with
           | Some (pre, d', post) => Some (d :: pre, d', post)
           | None => None
           end
  end.

(** [UpdateOne(ctx, f, bson.M{"$set": set})]: the result is the [MatchedCount]. *)
Definition UpdateOne (c : Collection) (f : Filter) (set : M) : Collection * result Z :=
  match fault c with
  | Some err => (c, Err err)
  | None =>
      match updateFirst f set (docs c) with
      | None => (c, Ok 0%Z)
      | Some (pre, d', post) =>
          if existsb (collide "email" d') (pre ++ post) then (c, Err (duplicateKey "email_1"))
          else if existsb (collide "_id" d') (pre ++ post) then (c, Err (duplicateKey "_id_"))
          else (with_docs c (pre ++ d' :: post) (serial c), Ok 1%Z)
      end
  end.

Definition CountDocuments (c : Collection) (f : Filter) : result Z :=
  match fault c with
  | Some err => Err err
  | None => Ok (Z.of_nat (length (List.filter (matches f) (docs c))))
  end.

(** [Find] followed by [cursor.All]. *)
Definition Find (c : Collection) (f : Filter) (o : FindOptions) : result (list M) :=
  match fault c with
  | Some err => Err err
  | None => Ok (page o (sorted o (List.filter (matches f) (docs c))))
  end.

End Driver.

End mongo.

(* ================================================================== *)
(** * Package [repo] *)
(* ================================================================== *)

Module repo.
Import domain.

(** [isUniqueConstraintError] *)
Definition isUniqueConstraintError (err : option error) : bool :=
  match err with
  | None => false
  | Some e =>
      let errStr := gostrings.ToLower (ErrorString e) in
      if gostrings.Contains errStr "duplicate key"
         || gostrings.Contains errStr "violates unique constraint" then true
      else if gostrings.Contains errStr "unique constraint failed"
              || gostrings.Contains errStr "constraint failed: unique" then true
      else if gostrings.Contains errStr "duplicate entry" then true
      else false
  end.

(** ** [userGormRepository] *)
Section userGormRepository.
Context {T : Type} (db : gorm.DB T).

Definition gorm_Create (t : T) (now : time.Time) (user : User) : T * User * option error :=
  let '(t', user', res) := gorm.db_Create db t now user in
  match gorm.res_Error res with
  | Some err =>
      if isUniqueConstraintError (Some err) then (t', user', Some ErrUserExists)
      else (t', user', Some (WrapError err ErrCodeDatabase "Failed to create user"))
  | None => (t', user', None)
  end.

Definition gorm_GetByID (t : T) (id : Z) : result User :=
  match gorm.db_First db t (gorm.PrimaryKey id) with
  | Err err =>
      if errorsIs gorm_ErrRecordNotFound err then Err ErrUserNotFound
      else Err (WrapError err ErrCodeDatabase "Failed to get user by ID")
  | Ok user => Ok user
  end.

Definition gorm_GetByEmail (t : T) (email : string) : result User :=
  match gorm.db_First db t (gorm.EmailEq email) with
  | Err err =>
      if errorsIs gorm_ErrRecordNotFound err then Err ErrUserNotFound
      else Err (WrapError err ErrCodeDatabase "Failed to get user by email")
  | Ok user => Ok user
  end.

Definition gorm_Update (t : T) (now : time.Time) (user : User) : T * User * option error :=
  let '(t', user', result) := gorm.db_Save db t now user in
  match gorm.res_Error result with
  | Some err =>
      if isUniqueConstraintError (Some err) then (t', user', Some ErrUserExists)
      else (t', user', Some (WrapError err ErrCodeDatabase "Failed to update user"))
  | None =>
      if (gorm.RowsAffected result =? 0)%Z then (t', user', Some ErrUserNotFound)
      else (t', user', None)
  end.

Definition gorm_Delete (t : T) (id : Z) : T * option error :=
  let '(t', result) := gorm.db_Delete db t (gorm.PrimaryKey id) in
  match gorm.res_Error result with
  | Some err => (t', Some (WrapError err ErrCodeDatabase "Failed to delete user"))
  | None =>
      if (gorm.RowsAffected result =? 0)%Z then (t', Some ErrUserNotFound)
      else (t', None)
  end.

Definition gorm_List (t : T) (offset limit : Z) : result (list User * Z) :=
  match gorm.db_Count db t gorm.All with
  | Err err => Err (WrapError err ErrCodeDatabase "Failed to count users")
  | Ok total =>
      match gorm.db_Find db t gorm.All offset limit with
      | Err err => Err (WrapError err ErrCodeDatabase "Failed to list users")
      | Ok users => Ok (users, total)
      end
  end.

Definition gorm_Search (t : T) (query : string) (offset limit : Z) : result (list User * Z) :=
  let searchPattern := "%" ++ query ++ "%" in
  let queryBuilder := gorm.NameOrEmailILike searchPattern in
  match gorm.db_Count db t queryBuilder with
  | Err err => Err (WrapError err ErrCodeDatabase "Failed to count search results")
  | Ok total =>
      match gorm.db_Find db t queryBuilder offset limit with
      | Err err => Err (WrapError err ErrCodeDatabase "Failed to search users")
      | Ok users => Ok (users, total)
      end
  end.

(** [NewUserGormRepository] *)
Definition NewUserGormRepository : UserRepository T :=
  {| Create := gorm_Create; GetByID := gorm_GetByID; GetByEmail := gorm_GetByEmail;
     Update := gorm_Update; Delete := gorm_Delete; List := gorm_List;
     Search := gorm_Search |}.

End userGormRepository.

(** ** [userMongoRepository] *)

(** [type mongoUser struct] *)
Record mongoUser := {
  mu_ID : mongo.ObjectID;
  mu_Email : string;
  mu_Password : string;
  mu_Name : string;
  mu_Role : string;
  mu_Active : bool;
  mu_CreatedAt : time.Time;
  mu_UpdatedAt : time.Time
}.

(** [toDomainUser]: the identifier is the creation second of the [ObjectID]. *)
Definition toDomainUser (m : mongoUser) : User :=
  {| ID := mongo.TimestampUnix (mu_ID m);
     Email := mu_Email m; Password := mu_Password m; Name := mu_Name m;
     Role := mu_Role m; Active := mu_Active m;
     CreatedAt := mu_CreatedAt m; UpdatedAt := mu_UpdatedAt m |}.

(** [fromDomainUser]; [fresh] is what [primitive.NewObjectID()] returns. *)
Definition fromDomainUser (fresh : mongo.ObjectID) (user : User) : mongoUser :=
  {| mu_ID := if negb (ID user =? 0)%Z then fresh else mongo.NilObjectID;
     mu_Email := Email user; mu_Password := Password user; mu_Name := Name user;
     mu_Role := Role user; mu_Active := Active user;
     mu_CreatedAt := CreatedAt user; mu_UpdatedAt := UpdatedAt user |}.

(** The BSON encoding the [bson] tags of [mongoUser] give: [_id] is
    [omitempty]. *)
Definition encode (m : mongoUser) : mongo.M :=
  let d : mongo.M :=
    <["email" := mongo.VString (mu_Email m)]>
    (<["password" := mongo.VString (mu_Password m)]>
    (<["name" := mongo.VString (mu_Name m)]>
    (<["role" := mongo.VString (mu_Role m)]>
    (<["active" := mongo.VBool (mu_Active m)]>
    (<["created_at" := mongo.VTime (mu_CreatedAt m)]>
    (<["updated_at" := mongo.VTime (mu_UpdatedAt m)]> ∅)))))) in
  if mongo.IsZero (mu_ID m) then d else <["_id" := mongo.VObjectID (mu_ID m)]> d.

Definition decodeError (key : string) : error :=
  Driver ("error decoding key " ++ key).

Definition getObjectID (d : mongo.M) (key : string) : result mongo.ObjectID :=
  match d !! key with
  | None => Ok mongo.NilObjectID
  | Some (mongo.VObjectID o) => Ok o
  | Some _ => Err (decodeError key)
  end.

Definition getString (d : mongo.M) (key : string) : result string :=
  match d !! key with
  | None => Ok ""
  | Some (mongo.VString s) => Ok s
  | Some _ => Err (decodeError key)
  end.

Definition getBool (d : mongo.M) (key : string) : result bool :=
  match d !! key with
  | None => Ok false
  | Some (mongo.VBool b) => Ok b
  | Some _ => Err (decodeError key)
  end.

Definition getTime (d : mongo.M) (key : string) : result time.Time :=
  match d !! key with
  | None => Ok time.zeroTime
  | Some (mongo.VTime t) => Ok t
  | Some _ => Err (decodeError key)
  end.

Definition bind {A B : Type} (r : result A) (k : A -> result B) : result B :=
  match r with
  | Ok a => k a
  | Err e => Err e
  end.

(** [Decode(&mongoUser)] *)
Definition decode (d : mongo.M) : result mongoUser :=
  bind (getObjectID d "_id") (fun id =>
  bind (getString d "email") (fun email =>
  bind (getString d "password") (fun password =>
  bind (getString d "name") (fun name =>
  bind (getString d "role") (fun role =>
  bind (getBool d "active") (fun active =>
  bind (getTime d "created_at") (fun created =>
  bind (getTime d "updated_at") (fun updated =>
  Ok {| mu_ID := id; mu_Email := email; mu_Password := password;
        mu_Name := name; mu_Role := role; mu_Active := active;
        mu_CreatedAt := created; mu_UpdatedAt := updated |})))))))).

(** [cursor.All(ctx, &mongoUsers)] *)
Fixpoint decodeAll (l : list mongo.M) : result (list mongoUser) :=
  match l with
  | [] => Ok []
  | d :: r =>
      bind (decode d) (fun m =>
      bind (decodeAll r) (fun ms => Ok (m :: ms)))
  end.

Section userMongoRepository.
Context (regex : string -> string -> string -> bool).

Definition mongo_Create (c : mongo.Collection) (now : time.Time) (user : User)
  : mongo.Collection * User * option error :=
  let m := fromDomainUser (mongo.NewObjectID now (mongo.serial c)) user in
  let mongoUser :=
    {| mu_ID := mu_ID m; mu_Email := mu_Email m; mu_Password := mu_Password m;
       mu_Name := mu_Name m; mu_Role := mu_Role m; mu_Active := mu_Active m;
       mu_CreatedAt := now; mu_UpdatedAt := now |} in
  match mongo.InsertOne c now (encode mongoUser) with
  | (c', Err err) =>
      if mongo.IsDuplicateKeyError err then (c', user, Some ErrUserExists)
      else (c', user, Some (WrapError err ErrCodeDatabase "Failed to create user"))
  | (c', Ok insertedID) =>
      match insertedID with
      | mongo.VObjectID oid =>
          (c',
           {| ID := mongo.TimestampUnix oid; Email := Email user;
              Password := Password user; Name := Name user; Role := Role user;
              Active := Active user; CreatedAt := mu_CreatedAt mongoUser;
              UpdatedAt := mu_UpdatedAt mongoUser |},
           None)
      | _ => (c', user, None)
      end
  end.

Definition mongo_GetByID (c : mongo.Collection) (id : Z) : result User :=
  Err (NewError ErrCodeNotFound "GetByID not implemented for MongoDB - use GetByEmail").

Definition mongo_GetByEmail (c : mongo.Collection) (email : string) : result User :=
  match bind (mongo.FindOne regex c (mongo.FieldIs "email" (mongo.VString email))) decode with
  | Err err =>
      if isLib mongo_ErrNoDocuments err then Err ErrUserNotFound
      else Err (WrapError err ErrCodeDatabase "Failed to get user by email")
  | Ok mongoUser => Ok (toDomainUser mongoUser)
  end.

Definition mongo_Update (c : mongo.Collection) (now : time.Time) (user : User)
  : mongo.Collection * User * option error :=
  let m := fromDomainUser (mongo.NewObjectID now (mongo.serial c)) user in
  let mongoUser :=
    {| mu_ID := mu_ID m; mu_Email := mu_Email m; mu_Password := mu_Password m;
       mu_Name := mu_Name m; mu_Role := mu_Role m; mu_Active := mu_Active m;
       mu_CreatedAt := mu_CreatedAt m; mu_UpdatedAt := now |} in
  let update : mongo.M :=
    <["name" := mongo.VString (mu_Name mongoUser)]>
    (<["role" := mongo.VString (mu_Role mongoUser)]>
    (<["active" := mongo.VBool (mu_Active mongoUser)]>
    (<["updated_at" := mongo.VTime (mu_UpdatedAt mongoUser)]> ∅))) in
  match mongo.UpdateOne regex c (mongo.FieldIs "email" (mongo.VString (Email user))) update with
  | (c', Err err) => (c', user, Some (WrapError err ErrCodeDatabase "Failed to update user"))
  | (c', Ok MatchedCount) =>
      if (MatchedCount =? 0)%Z then (c', user, Some ErrUserNotFound)
      else (c', set_UpdatedAt user (mu_UpdatedAt mongoUser), None)
  end.

Definition mongo_Delete (c : mongo.Collection) (id : Z) : mongo.Collection * option error :=
  (c, Some (NewError ErrCodeNotFound "Delete by ID not implemented for MongoDB")).

Definition findOptions (offset limit : Z) : mongo.FindOptions :=
  {| mongo.Skip := offset; mongo.Limit := limit; mongo.Sort := Some ("created_at", (-1)%Z) |}.

Definition mongo_List (c : mongo.Collection) (offset limit : Z) : result (list User * Z) :=
  let filter := mongo.FieldIs "active" (mongo.VBool true) in
  match mongo.CountDocuments regex c filter with
  | Err err => Err (WrapError err ErrCodeDatabase "Failed to count users")
  | Ok total =>
      match mongo.Find regex c filter (findOptions offset limit) with
      | Err err => Err (WrapError err ErrCodeDatabase "Failed to list users")
      | Ok cursor =>
          match decodeAll cursor with
          | Err err => Err (WrapError err ErrCodeDatabase "Failed to decode users")
          | Ok mongoUsers => Ok (map toDomainUser mongoUsers, total)
          end
      end
  end.

Definition mongo_Search (c : mongo.Collection) (query : string) (offset limit : Z)
  : result (list User * Z) :=
  let pattern := mongo.VRegex query "i" in
  let filter :=
    mongo.And (mongo.FieldIs "active" (mongo.VBool true))
              (mongo.Or (mongo.FieldIs "name" pattern) (mongo.FieldIs "email" pattern)) in
  match mongo.CountDocuments regex c filter with
  | Err err => Err (WrapError err ErrCodeDatabase "Failed to count search results")
  | Ok total =>
      match mongo.Find regex c filter (findOptions offset limit) with
      | Err err => Err (WrapError err ErrCodeDatabase "Failed to search users")
      | Ok cursor =>
          match decodeAll cursor with
          | Err err => Err (WrapError err ErrCodeDatabase "Failed to decode search results")
          | Ok mongoUsers => Ok (map toDomainUser mongoUsers, total)
          end
      end
  end.

(** [NewUserMongoRepository] *)
Definition NewUserMongoRepository : UserRepository mongo.Collection :=
  {| Create := mongo_Create; GetByID := mongo_GetByID; GetByEmail := mongo_GetByEmail;
     Update := mongo_Update; Delete := mongo_Delete; List := mongo_List;
     Search := mongo_Search |}.

End userMongoRepository.

End repo.

(* ================================================================== *)
(** * A reference relational engine *)
(* ================================================================== *)

(** The behaviour of the database behind [*gorm.DB] is not part of the
    repository.  [memdb] is a reference engine for it: one [users] table with
    an auto-increment primary key and the unique index [idx_users_email] the
    [gorm] tags of [User] ask for.  [fault] is a failure of the connection:
    when set, every statement reports it.  [ILIKE] is the operator of the
    engine, a parameter; an engine without it is outside the model.  [Save]
    updates the row under the primary key and inserts nothing in its place
    when it is gone.  Pages follow the engines for [0 <= offset] and
    [0 < limit].  Among rows with the same [created_at] an engine is free to
    choose an order, each time it is asked; here they keep the order of the
    table.  What is proved below of a page either does not depend on the
    order of such rows, or is said of rows created at distinct instants. *)
Module memdb.
Import domain.

Inductive Dialect := sqlite | postgres.

Record Table := {
  dialect : Dialect;
  rows : list User;
  next_id : Z;
  fault : option error
}.

Definition with_rows (t : Table) (l : list User) (n : Z) : Table :=
  {| dialect := dialect t; rows := l; next_id := n; fault := fault t |}.

(** The text of the driver on a violated unique index. *)
Definition uniqueViolation (d : Dialect) (index : string) : error :=
  match d with
  | sqlite => Driver ("UNIQUE constraint failed: " ++ index)
  | postgres => Driver ("ERROR: duplicate key value violates unique constraint " ++ index)
  end.

Definition stamp (now t : time.Time) : time.Time :=
  if (t =? time.zeroTime)%Z then now else t.

Definition failed (err : error) : gorm.Result :=
  {| gorm.res_Error := Some err; gorm.RowsAffected := 0 |}.

Definition affected (n : Z) : gorm.Result :=
  {| gorm.res_Error := None; gorm.RowsAffected := n |}.

Section Engine.
(** The engine's [ILIKE]: [ilike value pattern]. *)
Context (ilike : string -> string -> bool).

Definition holds (w : gorm.Where) (u : User) : bool :=
  match w with
  | gorm.All => true
  | gorm.PrimaryKey id => (ID u =? id)%Z
  | gorm.EmailEq email => String.eqb (Email u) email
  | gorm.NameOrEmailILike pattern => ilike (Name u) pattern || ilike (Email u) pattern
  end.

Definition select (w : gorm.Where) (t : Table) : list User :=
  List.filter (holds w) (rows t).

(** [ORDER BY created_at DESC] *)
Definition newer (a b : User) : bool := (CreatedAt b <? CreatedAt a)%Z.

Definition page (offset limit : Z) (l : list User) : list User :=
  firstn (Z.to_nat limit) (skipn (Z.to_nat offset) l).

Definition Create (t : Table) (now : time.Time) (user : User) : Table * User * gorm.Result :=
  match fault t with
  | Some err => (t, user, failed err)
  | None =>
      if existsb (fun r => String.eqb (Email r) (Email user)) (rows t)
      then (t, user, failed (uniqueViolation (dialect t) "users.email"))
      else
        let id := if (ID user =? 0)%Z then next_id t else ID user in
        if existsb (fun r => (ID r =? id)%Z) (rows t)
        then (t, user, failed (uniqueViolation (dialect t) "users.id"))
        else
          let user' :=
            {| ID := id; Email := Email user; Password := Password user;
               Name := Name user; Role := Role user; Active := Active user;
               CreatedAt := stamp now (CreatedAt user);
               UpdatedAt := stamp now (UpdatedAt user) |} in
          (with_rows t (rows t ++ [user']) (Z.max (next_id t) id + 1), user', affected 1)
  end.

Definition First (t : Table) (w : gorm.Where) : result User :=
  match fault t with
  | Some err => Err err
  | None =>
      match select w t with
      | [] => Err (Lib gorm_ErrRecordNotFound)
      | u :: _ => Ok u
      end
  end.

(** [Save] of a value with a primary key: [UPDATE ... WHERE id = ?] of all
    columns; without one: [Create]. *)
Definition Save (t : Table) (now : time.Time) (user : User) : Table * User * gorm.Result :=
  match fault t with
  | Some err => (t, user, failed err)
  | None =>
      if (ID user =? 0)%Z then Create t now user
      else if existsb (fun r => String.eqb (Email r) (Email user) && negb (ID r =? ID user)%Z) (rows t)
      then (t, user, failed (uniqueViolation (dialect t) "users.email"))
      else
        let user' :=
          {| ID := ID user; Email := Email user; Password := Password user;
             Name := Name user; Role := Role user; Active := Active user;
             CreatedAt := CreatedAt user; UpdatedAt := now |} in
        let hit := List.filter (fun r => (ID r =? ID user)%Z) (rows t) in
        (with_rows t (map (fun r => if (ID r =? ID user)%Z then user' else r) (rows t)) (next_id t),
         user', affected (Z.of_nat (length hit)))
  end.

Definition Delete (t : Table) (w : gorm.Where) : Table * gorm.Result :=
  match fault t with
  | Some err => (t, failed err)
  | None =>
      (with_rows t (List.filter (fun r => negb (holds w r)) (rows t)) (next_id t),
       affected (Z.of_nat (length (select w t))))
  end.

Definition Count (t : Table) (w : gorm.Where) : result Z :=
  match fault t with
  | Some err => Err err
  | None => Ok (Z.of_nat (length (select w t)))
  end.

Definition Find (t : Table) (w : gorm.Where) (offset limit : Z) : result (list User) :=
  match fault t with
  | Some err => Err err
  | None => Ok (page offset limit (gosort.Slice newer (select w t)))
  end.

Definition engine : gorm.DB Table :=
  {| gorm.db_Create := Create; gorm.db_First := First; gorm.db_Save := Save;
     gorm.db_Delete := Delete; gorm.db_Count := Count; gorm.db_Find := Find |}.

End Engine.

End memdb.
(* ================================================================== *)
(** * Package [service] *)
(* ================================================================== *)

(** The library [golang-jwt/jwt], a black box: signing with HS256 and a key,
    and parsing with verification at an instant. *)
Module jwt.
Import domain.

Record Token := { Valid : bool; Claims : JWTClaims }.

Record Lib := {
  SignedString : string -> JWTClaims -> result string;
  ParseWithClaims : string -> time.Time -> string -> result Token
}.

(** [jwt.NewNumericDate]: the instant cut to the second. *)
Definition NewNumericDate (t : time.Time) : option time.Time :=
  Some (time.Truncate t time.Second).

End jwt.

Module service.
Import domain.

(** The part of [config.Config] the services read. *)
Record JWTConfig := { Secret : string; Expiration : time.Duration }.

(** ** [authService] *)
Section authService.
Context (config : JWTConfig) (lib : jwt.Lib).

Definition auth_GenerateToken (now : time.Time) (user : User) : result string :=
  let claims :=
    {| UserID := ID user; claim_Email := Email user; claim_Role := Role user;
       ExpiresAt := jwt.NewNumericDate (time.Add now (Expiration config));
       IssuedAt := jwt.NewNumericDate now;
       NotBefore := jwt.NewNumericDate now;
       Issuer := "fx-gin-scaffold";
       Subject := Email user |} in
  match jwt.SignedString lib (Secret config) claims with
  | Err err => Err (WrapError err ErrCodeInternal "Failed to generate token")
  | Ok tokenString => Ok tokenString
  end.

Definition auth_ValidateToken (now : time.Time) (tokenString : string) : result JWTClaims :=
  match jwt.ParseWithClaims lib (Secret config) now tokenString with
  | Err _ => Err ErrInvalidToken
  | Ok token =>
      if negb (jwt.Valid token) then Err ErrInvalidToken
      else Ok (jwt.Claims token)
  end.

(** [claims.ExpiresAt] is a pointer: reading [.Time] through [nil] panics. *)
Definition auth_RefreshToken (now : time.Time) (tokenString : string) : outcome string :=
  match auth_ValidateToken now tokenString with
  | Err err => Return (Err err)
  | Ok claims =>
      match ExpiresAt claims with
      | None => Panic
      | Some expiresAt =>
          if (time.Until now expiresAt >? time.Hour)%Z
          then Return (Err (NewError ErrCodeInvalid "Token is not close to expiration"))
          else
            let newClaims :=
              {| UserID := UserID claims; claim_Email := claim_Email claims;
                 claim_Role := claim_Role claims;
                 ExpiresAt := jwt.NewNumericDate (time.Add now (Expiration config));
                 IssuedAt := jwt.NewNumericDate now;
                 NotBefore := jwt.NewNumericDate now;
                 Issuer := "fx-gin-scaffold";
                 Subject := claim_Email claims |} in
            match jwt.SignedString lib (Secret config) newClaims with
            | Err err => Return (Err (WrapError err ErrCodeInternal "Failed to refresh token"))
            | Ok newTokenString => Return (Ok newTokenString)
            end
      end
  end.

(** [NewAuthService] *)
Definition NewAuthService : AuthService :=
  {| GenerateToken := auth_GenerateToken;
     ValidateToken := auth_ValidateToken;
     RefreshToken := auth_RefreshToken |}.

End authService.

(** ** [userService] *)
Section userService.
Context {S : Type} (userRepo : UserRepository S) (authService : AuthService) (bc : Bcrypt).

Definition validateCreateRequest (req : UserCreateRequest) : option error :=
  if String.eqb (gostrings.TrimSpace (create_Email req)) ""
  then Some (ValidationError "email" "is required")
  else if String.eqb (gostrings.TrimSpace (create_Name req)) ""
  then Some (ValidationError "name" "is required")
  else if (gostrings.len (gostrings.TrimSpace (create_Name req)) <? 2)%Z
  then Some (ValidationError "name" "must be at least 2 characters")
  else if (gostrings.len (create_Password req) <? 8)%Z
  then Some (ValidationError "password" "must be at least 8 characters")
  else None.

Definition validateLoginRequest (req : UserLoginRequest) : option error :=
  if String.eqb (gostrings.TrimSpace (login_Email req)) ""
  then Some (ValidationError "email" "is required")
  else if String.eqb (login_Password req) ""
  then Some (ValidationError "password" "is required")
  else None.

Definition getDefaultRole (requestedRole : string) : string :=
  if String.eqb requestedRole "admin" || String.eqb requestedRole "user"
  then requestedRole
  else "user".

Definition Register (s : S) (now : time.Time) (req : UserCreateRequest)
  : S * result UserResponse :=
  match validateCreateRequest req with
  | Some err => (s, Err err)
  | None =>
      match GetByEmail userRepo s (create_Email req) with
      | Ok _ => (s, Err ErrUserExists)
      | Err err =>
          if negb (isVar VarUserNotFound err) then (s, Err err)
          else
            let user :=
              {| ID := 0;
                 Email := gostrings.ToLower (gostrings.TrimSpace (create_Email req));
                 Password := create_Password req;
                 Name := gostrings.TrimSpace (create_Name req);
                 Role := getDefaultRole (create_Role req);
                 Active := true;
                 CreatedAt := now;
                 UpdatedAt := now |} in
            match HashPassword bc user with
            | (_, Some err) =>
                (s, Err (WrapError err ErrCodeInternal "Failed to hash password"))
            | (user, None) =>
                match Create userRepo s now user with
                | (s', _, Some err) => (s', Err err)
                | (s', user, None) => (s', Ok (ToResponse user))
                end
            end
      end
  end.

Definition Login (s : S) (now : time.Time) (req : UserLoginRequest)
  : result (string * UserResponse) :=
  match validateLoginRequest req with
  | Some err => Err err
  | None =>
      match GetByEmail userRepo s
              (gostrings.ToLower (gostrings.TrimSpace (login_Email req))) with
      | Err err =>
          if isVar VarUserNotFound err then Err ErrInvalidPassword
          else Err err
      | Ok user =>
          if negb (Active user)
          then Err (NewError ErrCodeForbidden "Account is deactivated")
          else if negb (CheckPassword bc user (login_Password req))
          then Err ErrInvalidPassword
          else
            match GenerateToken authService now user with
            | Err err => Err err
            | Ok token => Ok (token, ToResponse user)
            end
      end
  end.

Definition GetProfile (s : S) (userID : Z) : result UserResponse :=
  match GetByID userRepo s userID with
  | Err err => Err err
  | Ok user => Ok (ToResponse user)
  end.

Definition UpdateProfile (s : S) (now : time.Time) (userID : Z) (req : UserUpdateRequest)
  : S * result UserResponse :=
  match GetByID userRepo s userID with
  | Err err => (s, Err err)
  | Ok user =>
      match
        match update_Name req with
        | Some name =>
            let user := set_Name user (gostrings.TrimSpace name) in
            if String.eqb (Name user) ""
            then Err (ValidationError "name" "cannot be empty")
            else Ok user
        | None => Ok user
        end
      with
      | Err err => (s, Err err)
      | Ok user =>
          let user := set_UpdatedAt user now in
          match Update userRepo s now user with
          | (s', _, Some err) => (s', Err err)
          | (s', user, None) => (s', Ok (ToResponse user))
          end
      end
  end.

Definition GetUser (s : S) (id : Z) : result UserResponse :=
  match GetByID userRepo s id with
  | Err err => Err err
  | Ok user => Ok (ToResponse user)
  end.

Definition ListUsers (s : S) (offset limit : Z) : result (list UserResponse * Z) :=
  match List userRepo s offset limit with
  | Err err => Err err
  | Ok (users, total) => Ok (map ToResponse users, total)
  end.

Definition SearchUsers (s : S) (query : string) (offset limit : Z)
  : result (list UserResponse * Z) :=
  if String.eqb (gostrings.TrimSpace query) "" then ListUsers s offset limit
  else
    match Search userRepo s query offset limit with
    | Err err => Err err
    | Ok (users, total) => Ok (map ToResponse users, total)
    end.

Definition UpdateUser (s : S) (now : time.Time) (id : Z) (req : UserUpdateRequest)
  : S * result UserResponse :=
  match GetByID userRepo s id with
  | Err err => (s, Err err)
  | Ok user =>
      match
        match update_Name req with
        | Some name =>
            let user := set_Name user (gostrings.TrimSpace name) in
            if String.eqb (Name user) ""
            then Err (ValidationError "name" "cannot be empty")
            else Ok user
        | None => Ok user
        end
      with
      | Err err => (s, Err err)
      | Ok user =>
          match
            match update_Role req with
            | Some role =>
                if negb (String.eqb role "user") && negb (String.eqb role "admin")
                then Err (ValidationError "role" "must be 'user' or 'admin'")
                else Ok (set_Role user role)
            | None => Ok user
            end
          with
          | Err err => (s, Err err)
          | Ok user =>
              let user :=
                match update_Active req with
                | Some active => set_Active user active
                | None => user
                end in
              let user := set_UpdatedAt user now in
              match Update userRepo s now user with
              | (s', _, Some err) => (s', Err err)
              | (s', user, None) => (s', Ok (ToResponse user))
              end
          end
      end
  end.

Definition DeleteUser (s : S) (id : Z) : S * option error :=
  match GetByID userRepo s id with
  | Err err => (s, Some err)
  | Ok _ => Delete userRepo s id
  end.

End userService.

End service.

(* ================================================================== *)
(** * Package [migration] *)
(* ================================================================== *)

(** The database a [Migrator] works on has two parts: the ledger (the table
    or collection [migrations]), which only the migrator writes, and the
    rest, the [Schema], which the forward and reverse actions of the
    migrations change.  An action returns the schema it leaves behind, also
    when it fails. *)
Module migration.
Import domain.

(** A row of the ledger. *)
Record MigrationRecord := {
  rec_version : string;
  rec_description : string;
  executed_at : time.Time
}.

(** What the migrator writes to the log. *)
Inductive Event :=
| AlreadyExecuted (version description : string)   (* "migration already executed" *)
| Running (version description : string)           (* "running migration" *)
| Completed (version : string).                    (* "migration completed" *)

Section Migrator.
Context {Schema : Type}.

(** [type Migration interface] *)
Record Migration := {
  Version : string;
  Description : string;
  Up : Schema -> Schema * option error;
  Down : Schema -> Schema * option error
}.

(** [database.Connection]: [GORM] and [Mongo] say which handle is not [nil]. *)
Record Connection := {
  GORM : bool;
  Mongo : bool;
  ledger : list MigrationRecord;
  schema : Schema
}.

(** [type Migrator struct]; the seeders play no part in [Migrate]. *)
Record Migrator := {
  db : Connection;
  migrations : list Migration
}.

Definition NewMigrator (db : Connection) : Migrator :=
  {| db := db; migrations := [] |}.

Definition AddMigration (m : Migrator) (migration : Migration) : Migrator :=
  {| db := db m; migrations := migrations m ++ [migration] |}.

Definition noConnection : error := Driver "no database connection available".

(** [CREATE TABLE IF NOT EXISTS] and the creation of the unique index have
    no effect on an existing ledger. *)
Definition ensureMigrationTracking (c : Connection) : option error :=
  if GORM c then None
  else if Mongo c then None
  else Some noConnection.

Definition getExecutedMigrations (c : Connection) : result (gmap string bool) :=
  if GORM c || Mongo c
  then Ok (fold_left (fun executed r => <[rec_version r := true]> executed) (ledger c) ∅)
  else Err noConnection.

(** The version is the primary key of the table and the unique index
    [idx_migrations_version] of the collection. *)
Definition recordMigration (c : Connection) (now : time.Time) (migration : Migration)
  : Connection * option error :=
  if GORM c || Mongo c then
    if existsb (fun r => String.eqb (rec_version r) (Version migration)) (ledger c)
    then (c, Some (if GORM c
                   then Driver "UNIQUE constraint failed: migrations.version"
                   else WriteException 11000
                          "E11000 duplicate key error collection: migrations index: idx_migrations_version"))
    else ({| GORM := GORM c; Mongo := Mongo c;
             ledger := ledger c ++ [{| rec_version := Version migration;
                                       rec_description := Description migration;
                                       executed_at := now |}];
             schema := schema c |}, None)
  else (c, Some noConnection).

Definition with_schema (c : Connection) (s : Schema) : Connection :=
  {| GORM := GORM c; Mongo := Mongo c; ledger := ledger c; schema := s |}.

(** The loop of [Migrate] over the sorted migrations. *)
Fixpoint runPending (executed : gmap string bool) (c : Connection) (now : time.Time)
  (l : list Migration) : Connection * list Event * option error :=
  match l with
  | [] => (c, [], None)
  | migration :: rest =>
      match executed !! Version migration with
      | Some _ =>
          let '(c', log, err) := runPending executed c now rest in
          (c', AlreadyExecuted (Version migration) (Description migration) :: log, err)
      | None =>
          let running := Running (Version migration) (Description migration) in
          match Up migration (schema c) with
          | (s1, Some err) =>
              (with_schema c s1, [running],
               Some (Errorf ("migration " ++ Version migration ++ " failed: " ++ ErrorString err) err))
          | (s1, None) =>
              match recordMigration (with_schema c s1) now migration with
              | (c2, Some err) =>
                  (c2, [running],
                   Some (Errorf ("failed to record migration " ++ Version migration ++ ": "
                                 ++ ErrorString err) err))
              | (c2, None) =>
                  let '(c', log, err) := runPending executed c2 now rest in
                  (c', running :: Completed (Version migration) :: log, err)
              end
          end
      end
  end.

Definition less (a b : Migration) : bool := String.ltb (Version a) (Version b).

Definition Migrate (m : Migrator) (now : time.Time) : Migrator * list Event * option error :=
  let sorted := gosort.Slice less (migrations m) in
  match ensureMigrationTracking (db m) with
  | Some err =>
      ({| db := db m; migrations := sorted |}, [],
       Some (Errorf ("failed to create migration tracking: " ++ ErrorString err) err))
  | None =>
      match getExecutedMigrations (db m) with
      | Err err =>
          ({| db := db m; migrations := sorted |}, [],
           Some (Errorf ("failed to get executed migrations: " ++ ErrorString err) err))
      | Ok executed =>
          let '(c', log, err) := runPending executed (db m) now sorted in
          ({| db := c'; migrations := sorted |}, log, err)
      end
  end.

End Migrator.

Arguments Migration : clear implicits.
Arguments Connection : clear implicits.
Arguments Migrator : clear implicits.

(** The versions a log shows as visited, and those whose forward action ran. *)
Definition visited (e : Event) : list string :=
  match e with
  | AlreadyExecuted v _ => [v]
  | Running v _ => [v]
  | Completed _ => []
  end.

Definition ran (e : Event) : list string :=
  match e with
  | Running v _ => [v]
  | _ => []
  end.

(** The versions a log shows as recorded in the ledger. *)
Definition completed (e : Event) : list string :=
  match e with
  | Completed v => [v]
  | _ => []
  end.

Definition versions (l : list MigrationRecord) : list string := map rec_version l.

(** What [Seed] writes to the log. *)
Inductive SeedEvent :=
| Skipping (name env : string)     (* "skipping seeder" *)
| RunningSeeder (name : string)    (* "running seeder" *)
| SeederCompleted (name : string). (* "seeder completed" *)

Section Seeding.
Context {Schema : Type}.

(** [type Seeder interface]; like a migration, a seeder works on the part
    of the database that is not the ledger. *)
Record Seeder := {
  Name : string;
  Run : Schema -> Schema * option error;
  ShouldRun : string -> bool
}.

(** [Seed], over the fields [db] and [seeders] of the migrator. *)
Fixpoint Seed (c : Connection Schema) (seeders : list Seeder) (env : string)
  : Connection Schema * list SeedEvent * option error :=
  match seeders with
  | [] => (c, [], None)
  | seeder :: rest =>
      if negb (ShouldRun seeder env) then
        let '(c', log, err) := Seed c rest env in
        (c', Skipping (Name seeder) env :: log, err)
      else
        match Run seeder (schema c) with
        | (s1, Some err) =>
            (with_schema c s1, [RunningSeeder (Name seeder)],
             Some (Errorf ("seeder " ++ Name seeder ++ " failed: " ++ ErrorString err) err))
        | (s1, None) =>
            let '(c', log, err) := Seed (with_schema c s1) rest env in
            (c', RunningSeeder (Name seeder) :: SeederCompleted (Name seeder) :: log, err)
        end
  end.

(** [RunMigrations]; [registered] and [seeders] are what
    [RegisterMigrations] and [RegisterSeeders] add to the new migrator. *)
Definition RunMigrations (registered : list (Migration Schema)) (seeders : list Seeder)
  (conn : Connection Schema) (now : time.Time) (env : string)
  : Connection Schema * list Event * list SeedEvent * option error :=
  let migrator := fold_left AddMigration registered (NewMigrator conn) in
  match Migrate migrator now with
  | (migrator, log, Some err) => (db migrator, log, [], Some err)
  | (migrator, log, None) =>
      let '(c', seeded, err) := Seed (db migrator) seeders env in
      (c', log, seeded, err)
  end.

End Seeding.

Arguments Seeder : clear implicits.

(** The names of the seeders a log shows as started. *)
Definition started (e : SeedEvent) : list string :=
  match e with
  | RunningSeeder name => [name]
  | _ => []
  end.

End migration.

(** The command [cmd/migrate]. *)
Module cmd_migrate.
Import domain migration.

Section Check.
Context {Schema : Type}.

(** [checkPendingMigrations]: the result is the version and description of
    each line it prints as pending; [registered] is what
    [RegisterMigrations] adds. *)
Definition checkPendingMigrations (registered : list (Migration Schema))
  (conn : Connection Schema) : result (list (string * string)) :=
  let migrator := fold_left AddMigration registered (NewMigrator conn) in
  match ensureMigrationTracking (db migrator) with
  | Some err => Err err
  | None =>
      match getExecutedMigrations (db migrator) with
      | Err err => Err err
      | Ok executed =>
          Ok (map (fun mig => (Version mig, Description mig))
                (List.filter (fun mig => match executed !! Version mig with
                                         | Some _ => false
                                         | None => true
                                         end)
                   (migrations migrator)))
      end
  end.

End Check.

End cmd_migrate.

(* ================================================================== *)
(** * The HTTP layer: [gin] and package [middleware] *)
(* ================================================================== *)

(** The part of [gin.Context] the middleware works with.  The handlers of a
    route form a chain; [index] is the position of the handler that runs.
    [c.Next()] increments [index] and then runs, one after the other, the
    handlers from there to the end of the chain, incrementing [index] after
    each; [c.Abort()] moves [index] past the end, to [abortIndex].  A chain
    is shorter than [abortIndex]. *)
Module gin.
Import domain.

(** A value stored in the context under a key, of type [any]. *)
Inductive Any :=
| AUint (n : Z)
| AString (s : string).

(** The body of a response: [domain.NewErrorResponse(err)] or a success. *)
Inductive Body :=
| ErrorResponse (e : Error)
| SuccessResponse (data : string).

Record Context := {
  Authorization : string;        (* c.GetHeader("Authorization") *)
  Keys : gmap string Any;
  index : Z;
  written : list (Z * Body)      (* the calls of c.JSON, in order *)
}.

Definition abortIndex : Z := 63.

Definition with_index (c : Context) (i : Z) : Context :=
  {| Authorization := Authorization c; Keys := Keys c; index := i;
     written := written c |}.

(** [c.Set(key, value)] *)
Definition SetKey (c : Context) (key : string) (value : Any) : Context :=
  {| Authorization := Authorization c; Keys := <[key := value]> (Keys c);
     index := index c; written := written c |}.

Definition Get (c : Context) (key : string) : option Any := Keys c !! key.

Definition JSON (c : Context) (code : Z) (obj : Body) : Context :=
  {| Authorization := Authorization c; Keys := Keys c; index := index c;
     written := (written c ++ [(code, obj)])%list |}.

Definition Abort (c : Context) : Context := with_index c abortIndex.

Definition IsAborted (c : Context) : bool := (abortIndex <=? index c)%Z.

(** A handler, given what [c.Next()] does where the handler stands. *)
Definition HandlerFunc : Type := (Context -> Context) -> Context -> Context.

(** The loop of [c.Next()] over [handlers], the handlers of the chain from
    position [pos] on: it goes on while [index] is the position of a handler
    to run. *)
Fixpoint run (handlers : list HandlerFunc) (pos : Z) (c : Context) : Context :=
  match handlers with
  | [] => c
  | h :: rest =>
      if (index c =? pos)%Z then
        let c := h (fun c => run rest (pos + 1) (with_index c (index c + 1))) c in
        run rest (pos + 1) (with_index c (index c + 1))
      else c
  end.

(** [c.Next()] where the handlers after the position [pos] are [rest]. *)
Definition Next (rest : list HandlerFunc) (pos : Z) (c : Context) : Context :=
  run rest (pos + 1) (with_index c (index c + 1)).

(** The engine on a request: [index] is reset to [-1], then [c.Next()]. *)
Definition handleHTTPRequest (handlers : list HandlerFunc) (c : Context) : Context :=
  Next handlers (-1) (with_index c (-1)).

End gin.

Module middleware.
Import domain.

Definition UserContextKey := "user".
Definition UserIDContextKey := "user_id".
Definition RoleContextKey := "role".

(** [extractToken] *)
Definition extractToken (c : gin.Context) : string :=
  let authHeader := gin.Authorization c in
  if String.eqb authHeader "" then ""
  else if gostrings.HasPrefix authHeader "Bearer "
  then gostrings.TrimPrefix authHeader "Bearer "
  else "".

(** [ExtractToken], the exported copy. *)
Definition ExtractToken (c : gin.Context) : string :=
  let authHeader := gin.Authorization c in
  if String.eqb authHeader "" then ""
  else
    let '(after, ok) := gostrings.CutPrefix authHeader "Bearer " in
    if ok then after else "".

Section JWTMiddleware.
(** The middleware holds the service; [now] is the instant of the request. *)
Context (authService : AuthService) (now : time.Time).

Definition RequireAuth : gin.HandlerFunc := fun Next c =>
  let token := extractToken c in
  if String.eqb token "" then
    gin.Abort (gin.JSON c StatusUnauthorized (gin.ErrorResponse (deref VarUnauthorized)))
  else
    match ValidateToken authService now token with
    | Err err =>
        match asError err with
        | Some domainErr =>
            gin.Abort (gin.JSON c StatusUnauthorized (gin.ErrorResponse domainErr))
        | None =>
            gin.Abort (gin.JSON c StatusUnauthorized (gin.ErrorResponse (deref VarInvalidToken)))
        end
    | Ok claims =>
        let c := gin.SetKey c UserIDContextKey (gin.AUint (UserID claims)) in
        let c := gin.SetKey c UserContextKey (gin.AString (claim_Email claims)) in
        let c := gin.SetKey c RoleContextKey (gin.AString (claim_Role claims)) in
        Next c
    end.

Definition RequireAdmin : gin.HandlerFunc := fun Next c =>
  let c := RequireAuth Next c in
  if gin.IsAborted c then c
  else
    if match gin.Get c RoleContextKey with
       | None => true
       | Some (gin.AString role) => negb (String.eqb role "admin")
       | Some _ => true
       end
    then gin.Abort (gin.JSON c StatusForbidden (gin.ErrorResponse (deref VarForbidden)))
    else Next c.

Definition OptionalAuth : gin.HandlerFunc := fun Next c =>
  let token := extractToken c in
  if String.eqb token "" then Next c
  else
    match ValidateToken authService now token with
    | Err _ => Next c
    | Ok claims =>
        let c := gin.SetKey c UserIDContextKey (gin.AUint (UserID claims)) in
        let c := gin.SetKey c UserContextKey (gin.AString (claim_Email claims)) in
        let c := gin.SetKey c RoleContextKey (gin.AString (claim_Role claims)) in
        Next c
    end.

End JWTMiddleware.

(** [GetUserID], [GetUserEmail], [GetUserRole] *)
Definition GetUserID (c : gin.Context) : Z * bool :=
  match gin.Get c UserIDContextKey with
  | None => (0%Z, false)
  | Some (gin.AUint id) => (id, true)
  | Some _ => (0%Z, false)
  end.

Definition GetUserEmail (c : gin.Context) : string * bool :=
  match gin.Get c UserContextKey with
  | None => ("", false)
  | Some (gin.AString emailStr) => (emailStr, true)
  | Some _ => ("", false)
  end.

Definition GetUserRole (c : gin.Context) : string * bool :=
  match gin.Get c RoleContextKey with
  | None => ("", false)
  | Some (gin.AString roleStr) => (roleStr, true)
  | Some _ => ("", false)
  end.

End middleware.

(* ================================================================== *)
(** * Package [utils] *)
(* ================================================================== *)

Module utils.
Import domain.

(** [str[:length]]: a panic when [length] is out of range. *)
Definition sliceTo (str : string) (length : Z) : goint.exec string :=
  if (length <? 0)%Z || (gostrings.len str <? length)%Z
  then goint.Panicked "runtime error: slice bounds out of range"
  else goint.Returned (String.substring 0 (Z.to_nat length) str).

Definition TruncateString (str : string) (length : Z) : goint.exec string :=
  if (gostrings.len str <=? length)%Z then goint.Returned str
  else
    match sliceTo str length with
    | goint.Panicked reason => goint.Panicked reason
    | goint.Returned head => goint.Returned (head ++ "...")
    end.

Section Slices.
Context `{Countable T}.

Definition SliceContains (slice : list T) (item : T) : bool :=
  existsb (fun v => bool_decide (v = item)) slice.

Definition RemoveFromSlice (slice : list T) (item : T) : list T :=
  fold_left (fun result v => if bool_decide (v <> item) then (result ++ [v])%list else result)
    slice [].

(** [keys] is a [map[T]bool] that only ever holds [true]: a set. *)
Definition UniqueSlice (slice : list T) : list T :=
  snd (fold_left
         (fun '(keys, result) item =>
            if bool_decide (item ∈ keys) then (keys, result)
            else ({[item]} ∪ keys, (result ++ [item])%list))
         slice ((∅ : gset T), [])).

End Slices.

(** [Paginate] *)
Definition Paginate (page limit total : Z) : goint.exec (Z * Z) :=
  let page := if (page <? 1)%Z then 1%Z else page in
  let limit := if (limit <? 1)%Z then 10%Z else limit in
  let offset := goint.mul (goint.sub page 1) limit in
  match goint.div (goint.sub (goint.add total limit) 1) limit with
  | goint.Panicked reason => goint.Panicked reason
  | goint.Returned pages => goint.Returned (offset, pages)
  end.

(** [Retry]: [fn] works on a state [St]; the result tells how often [fn]
    was called and how long the call slept in all. *)
Section Retry.
Context {St : Type}.

Fixpoint retry (n : nat) (i attempts : Z) (delay : time.Duration)
  (fn : St -> St * option error) (s : St) (calls : Z) (slept : time.Duration)
  (err : option error) : St * Z * time.Duration * option error :=
  match n with
  | O => (s, calls, slept, err)
  | S n' =>
      match fn s with
      | (s', None) => (s', (calls + 1)%Z, slept, None)
      | (s', Some e) =>
          let slept' := if (i <? attempts - 1)%Z then (slept + delay)%Z else slept in
          retry n' (i + 1)%Z attempts delay fn s' (calls + 1)%Z slept' (Some e)
      end
  end.

Definition Retry (attempts : Z) (delay : time.Duration) (fn : St -> St * option error)
  (s : St) : St * Z * time.Duration * option error :=
  retry (Z.to_nat attempts) 0%Z attempts delay fn s 0%Z 0%Z None.

End Retry.

Fixpoint CoalesceString (strings : list string) : string :=
  match strings with
  | [] => ""
  | s :: rest => if negb (String.eqb s "") then s else CoalesceString rest
  end.

End utils.
(* ================================================================== *)
(** * Package [seeders], on a relational connection *)
(* ================================================================== *)

(** The seeders go to the database directly, not through the repository.
    The model covers the branch [db.GORM != nil] of [Run]. *)
Module seeders.
Import domain.

Section SQL.
Context {T : Type} (gormDB : gorm.DB T) (bc : Bcrypt).

(** [AdminUserSeeder.seedSQL]: the sentinel is compared with [!=]. *)
Definition admin_seedSQL (t : T) (now : time.Time) (user : User) : T * option error :=
  match gorm.db_First gormDB t (gorm.EmailEq (Email user)) with
  | Ok _ => (t, None)
  | Err err =>
      if negb (isLib gorm_ErrRecordNotFound err) then (t, Some err)
      else
        let '(t', _, res) := gorm.db_Create gormDB t now user in
        (t', gorm.res_Error res)
  end.

(** [TestUsersSeeder.seedSQL] *)
Fixpoint test_seedSQL (t : T) (now : time.Time) (users : list User) : T * option error :=
  match users with
  | [] => (t, None)
  | user :: rest =>
      match gorm.db_First gormDB t (gorm.EmailEq (Email user)) with
      | Ok _ => test_seedSQL t now rest
      | Err err =>
          if negb (isLib gorm_ErrRecordNotFound err) then (t, Some err)
          else
            let '(t', _, res) := gorm.db_Create gormDB t now user in
            match gorm.res_Error res with
            | Some err =>
                (t', Some (Errorf ("failed to create user " ++ Email user ++ ": "
                                   ++ ErrorString err) err))
            | None => test_seedSQL t' now rest
            end
      end
  end.

Definition adminUser (now : time.Time) : User :=
  {| ID := 0; Email := "admin@example.com"; Password := "admin123456";
     Name := "System Administrator"; Role := "admin"; Active := true;
     CreatedAt := now; UpdatedAt := now |}.

Definition testUsers (now : time.Time) : list User :=
  [ {| ID := 0; Email := "user1@example.com"; Password := "password123";
       Name := "Test User One"; Role := "user"; Active := true;
       CreatedAt := now; UpdatedAt := now |};
    {| ID := 0; Email := "user2@example.com"; Password := "password123";
       Name := "Test User Two"; Role := "user"; Active := true;
       CreatedAt := now; UpdatedAt := now |};
    {| ID := 0; Email := "moderator@example.com"; Password := "password123";
       Name := "Test Moderator"; Role := "moderator"; Active := true;
       CreatedAt := now; UpdatedAt := now |};
    {| ID := 0; Email := "inactive@example.com"; Password := "password123";
       Name := "Inactive User"; Role := "user"; Active := false;
       CreatedAt := now; UpdatedAt := now |} ].

(** The loop of [TestUsersSeeder.Run] that hashes the passwords. *)
Fixpoint hashAll (users : list User) : result (list User) :=
  match users with
  | [] => Ok []
  | user :: rest =>
      match HashPassword bc user with
      | (_, Some err) =>
          Err (Errorf ("failed to hash password for user " ++ Email user ++ ": "
                       ++ ErrorString err) err)
      | (user, None) =>
          match hashAll rest with
          | Err err => Err err
          | Ok rest => Ok (user :: rest)
          end
      end
  end.

Definition AdminUserSeeder_Run (now : time.Time) (t : T) : T * option error :=
  match HashPassword bc (adminUser now) with
  | (_, Some err) => (t, Some err)
  | (adminUser, None) => admin_seedSQL t now adminUser
  end.

Definition TestUsersSeeder_Run (now : time.Time) (t : T) : T * option error :=
  match hashAll (testUsers now) with
  | Err err => (t, Some err)
  | Ok testUsers => test_seedSQL t now testUsers
  end.

Definition AdminUserSeeder (now : time.Time) : migration.Seeder T :=
  {| migration.Name := "AdminUserSeeder";
     migration.Run := AdminUserSeeder_Run now;
     migration.ShouldRun := fun env =>
       String.eqb env "development" || String.eqb env "staging" |}.

Definition TestUsersSeeder (now : time.Time) : migration.Seeder T :=
  {| migration.Name := "TestUsersSeeder";
     migration.Run := TestUsersSeeder_Run now;
     migration.ShouldRun := fun env => String.eqb env "development" |}.

End SQL.

End seeders.
(* ================================================================== *)
(** * One population in both stores *)
(* ================================================================== *)

(** To compare the two variants, the same users are put in a table and in a
    collection; in the collection each user comes with the [ObjectID] of its
    document. *)
Module stores.
Import domain.

(** The document of a user under an [ObjectID]. *)
Definition stored (p : mongo.ObjectID * User) : mongo.M :=
  repo.encode
    {| repo.mu_ID := fst p; repo.mu_Email := Email (snd p);
       repo.mu_Password := Password (snd p); repo.mu_Name := Name (snd p);
       repo.mu_Role := Role (snd p); repo.mu_Active := Active (snd p);
       repo.mu_CreatedAt := CreatedAt (snd p); repo.mu_UpdatedAt := UpdatedAt (snd p) |}.


Definition collectionOf (serial : Z) (l : list (mongo.ObjectID * User))
  : mongo.Collection :=
  {| mongo.docs := map stored l; mongo.serial := serial; mongo.fault := None |}.

End stores.

(* ================================================================== *)
(** * Test doubles and sample data *)
(* ================================================================== *)

(** Small executable stand-ins for the black boxes, and the data the
    examples below run on. *)
Module samples.
Import domain.
Local Open Scope Z_scope.

(** A stand-in for [bcrypt]: the digest is the password behind a prefix;
    passwords over 72 bytes are refused, as by the library. *)
Definition bcrypt : Bcrypt :=
  {| GenerateFromPassword := fun p =>
       if (72 <? gostrings.len p)%Z
       then Err (Driver "bcrypt: password length exceeds 72 bytes")
       else Ok ("$2a$10$" ++ p);
     CompareHashAndPassword := fun h p =>
       if String.eqb h ("$2a$10$" ++ p) then None
       else Some (Driver "crypto/bcrypt: hashedPassword is not the hash of the given password") |}.

(** [ILIKE] for patterns of the shape [%q%] with no wildcard in [q]. *)
Definition ilike (value pattern : string) : bool :=
  let q := String.substring 1 (String.length pattern - 2)%nat pattern in
  gostrings.Contains (gostrings.ToLower value) (gostrings.ToLower q).

(** Regular expressions for patterns without operators, option [i]. *)
Definition regex (pattern options subject : string) : bool :=
  gostrings.Contains (gostrings.ToLower subject) (gostrings.ToLower pattern).

Definition alice : User :=
  {| ID := 1; Email := "alice@example.com"; Password := "$2a$10$password123";
     Name := "Alice A"; Role := "user"; Active := true;
     CreatedAt := 2000; UpdatedAt := 2000 |}.

Definition bob : User :=
  {| ID := 2; Email := "bob@example.com"; Password := "$2a$10$hunter2hunter2";
     Name := "Bob B"; Role := "user"; Active := false;
     CreatedAt := 1000; UpdatedAt := 1000 |}.

Definition table (l : list User) : memdb.Table :=
  {| memdb.dialect := memdb.sqlite; memdb.rows := l; memdb.next_id := 3;
     memdb.fault := None |}.

Definition oid (seconds : Z) : mongo.ObjectID :=
  {| mongo.oid_seconds := seconds; mongo.oid_tail := 7 |}.

Definition document (id : Z) (u : User) : mongo.M :=
  repo.encode
    {| repo.mu_ID := oid id; repo.mu_Email := Email u; repo.mu_Password := Password u;
       repo.mu_Name := Name u; repo.mu_Role := Role u; repo.mu_Active := Active u;
       repo.mu_CreatedAt := CreatedAt u; repo.mu_UpdatedAt := UpdatedAt u |}.

Definition collection (l : list mongo.M) : mongo.Collection :=
  {| mongo.docs := l; mongo.serial := 0; mongo.fault := None |}.

(** Alice, active, and Bob, inactive and older. *)
Definition population : list (mongo.ObjectID * User) :=
  [(oid 1, alice); (oid 2, bob)].

(** The two repositories over their reference stores. *)
Definition gormRepo : UserRepository memdb.Table :=
  repo.NewUserGormRepository (memdb.engine ilike).

Definition mongoRepo : UserRepository mongo.Collection :=
  repo.NewUserMongoRepository regex.

(** A stand-in for the JWT library: a token is the subject behind a prefix
    and knows one token, [alice.token], which expires at second 7200. *)
Definition aliceClaims : JWTClaims :=
  {| UserID := 1; claim_Email := "alice@example.com"; claim_Role := "user";
     ExpiresAt := Some (7200 * time.Second)%Z;
     IssuedAt := Some 0%Z; NotBefore := Some 0%Z;
     Issuer := "fx-gin-scaffold"; Subject := "alice@example.com" |}.

Definition jwtLib : jwt.Lib :=
  {| jwt.SignedString := fun key claims => Ok ("signed:" ++ Subject claims);
     jwt.ParseWithClaims := fun key now tokenString =>
       if String.eqb tokenString "alice.token" then
         if (now <? 7200 * time.Second)%Z
         then Ok {| jwt.Valid := true; jwt.Claims := aliceClaims |}
         else Err (Driver "token has invalid claims: token is expired")
       else Err (Driver "token is malformed") |}.

Definition jwtConfig : service.JWTConfig :=
  {| service.Secret := "secret"; service.Expiration := (24 * time.Hour)%Z |}.

Definition auth : AuthService := service.NewAuthService jwtConfig jwtLib.

(** Migrations over a schema that is the list of what has been created. *)
Definition createUsers : migration.Migration (list string) :=
  {| migration.Version := "20240815120000";
     migration.Description := "Create users table/collection";
     migration.Up := fun s => ((s ++ ["users"])%list, None);
     migration.Down := fun s => (List.filter (fun x => negb (String.eqb x "users")) s, None) |}.

Definition addUserAvatar : migration.Migration (list string) :=
  {| migration.Version := "20240815130000";
     migration.Description := "Add avatar field to users";
     migration.Up := fun s =>
       if existsb (String.eqb "users") s then ((s ++ ["users.avatar"])%list, None)
       else (s, Some (Driver "no such table: users"));
     migration.Down := fun s => (s, None) |}.

(** A migration whose forward action always fails. *)
Definition broken : migration.Migration (list string) :=
  {| migration.Version := "20240816000000";
     migration.Description := "Add index";
     migration.Up := fun s => (s, Some (Driver "syntax error"));
     migration.Down := fun s => (s, None) |}.

Definition emptyDatabase : migration.Connection (list string) :=
  {| migration.GORM := true; migration.Mongo := false;
     migration.ledger := []; migration.schema := [] |}.

Definition migrator (l : list (migration.Migration (list string)))
  : migration.Migrator (list string) :=
  {| migration.db := emptyDatabase; migration.migrations := l |}.

Definition carol : User :=
  {| ID := 0; Email := "carol@example.com"; Password := "$2a$10$correct horse";
     Name := "Carol C"; Role := "admin"; Active := true;
     CreatedAt := 3000; UpdatedAt := 3000 |}.

(** A request that changes nothing. *)
Definition noUpdate : UserUpdateRequest :=
  {| update_Name := None; update_Role := None; update_Active := None |}.

(** A request that carries the token of Alice, a user who is no admin, and
    a handler that answers with the list of users. *)
Definition aliceRequest : gin.Context :=
  {| gin.Authorization := "Bearer alice.token"; gin.Keys := ∅; gin.index := 0;
     gin.written := [] |}.

Definition listHandler : gin.HandlerFunc :=
  fun _ c => gin.JSON c 200 (gin.SuccessResponse "users").


End samples.

(* ================================================================== *)
(** * Notions used in the statements *)
(* ================================================================== *)

Module notions.
Import domain.
Local Open Scope Z_scope.

(** The keys [Update] puts under [$set]. *)
Definition written : list string := ["name"; "role"; "active"; "updated_at"].

(** [d'] is [d] after [Update] of [user] at [now]. *)
Definition updated_by (user : User) (now : time.Time) (d d' : mongo.M) : Prop :=
  d' !! "name" = Some (mongo.VString (Name user))
  /\ d' !! "role" = Some (mongo.VString (Role user))
  /\ d' !! "active" = Some (mongo.VBool (Active user))
  /\ d' !! "updated_at" = Some (mongo.VTime now)
  /\ forall key, ~ In key written -> d' !! key = d !! key.


Definition found regex (query : string) (l : list (mongo.ObjectID * User))
  : list (mongo.ObjectID * User) :=
  List.filter (fun p => Active (snd p)
                        && (regex query "i" (Name (snd p)) || regex query "i" (Email (snd p)))) l.


Definition normalize (email : string) : string :=
  gostrings.ToLower (gostrings.TrimSpace email).

Definition deactivated : error := NewError ErrCodeForbidden "Account is deactivated".

(** The claims [RefreshToken] signs for a holder of [claims]. *)
Definition refreshed (config : service.JWTConfig) (now : time.Time) (claims : JWTClaims)
  : JWTClaims :=
  {| UserID := UserID claims; claim_Email := claim_Email claims;
     claim_Role := claim_Role claims;
     ExpiresAt := jwt.NewNumericDate (time.Add now (service.Expiration config));
     IssuedAt := jwt.NewNumericDate now;
     NotBefore := jwt.NewNumericDate now;
     Issuer := "fx-gin-scaffold";
     Subject := claim_Email claims |}.

Definition notCloseToExpiration : error :=
  NewError ErrCodeInvalid "Token is not close to expiration".

(** The user [Register] hands to [Create] once the password is hashed. *)
Definition registered (req : UserCreateRequest) (now : time.Time) (digest : string) : User :=
  {| ID := 0;
     Email := normalize (create_Email req);
     Password := digest;
     Name := gostrings.TrimSpace (create_Name req);
     Role := service.getDefaultRole (create_Role req);
     Active := true;
     CreatedAt := now;
     UpdatedAt := now |}.

(** How [Register] answers after [Create]. *)
Definition respond {S : Type} (r : S * User * option error) : S * result UserResponse :=
  match r with
  | (s', _, Some err) => (s', Err err)
  | (s', user, None) => (s', Ok (ToResponse user))
  end.

(** [a <= b] on versions: Go's byte-wise order of strings. *)
Definition version_le (a b : string) : Prop := String.leb a b = true.

(** The error [Migrate] wraps around the failure [cause] of version [v]. *)
Definition failedUp (v : string) (cause : domain.error) : domain.error :=
  Errorf ("migration " ++ v ++ " failed: " ++ ErrorString cause) cause.

(** The error kinds a repository reports. *)
Definition repositoryCodes : list string :=
  [ErrCodeNotFound; ErrCodeAlreadyExists; ErrCodeDatabase].

(** [e] is a domain error of one of these kinds. *)
Definition repositoryError (e : error) : Prop :=
  exists code, codeOf e = Some code /\ In code repositoryCodes.

(** [u] and [v] are the same account: they agree on everything but the
    two instants. *)
Definition sameAccount (u v : User) : Prop :=
  ID u = ID v /\ Email u = Email v /\ Password u = Password v
  /\ Name u = Name v /\ Role u = Role v /\ Active u = Active v.

(** [a] is listed before [b]: it is not older. *)
Definition newestFirst (a b : User) : Prop := CreatedAt b <= CreatedAt a.

(** A user as the service writes it: the email normalized, the role one of
    the two the service knows, the name trimmed and not empty. *)
Definition wellFormed (u : User) : Prop :=
  Email u = normalize (Email u)
  /\ (Role u = "user" \/ Role u = "admin")
  /\ Name u = gostrings.TrimSpace (Name u)
  /\ Name u <> "".

(** A migration whose version the ledger does not hold. *)
Definition pending {Schema : Type} (ledger : list migration.MigrationRecord)
  (mig : migration.Migration Schema) : bool :=
  negb (existsb (String.eqb (migration.Version mig)) (migration.versions ledger)).

(** The schema after the forward actions of [l], one after the other. *)
Definition applied {Schema : Type} (l : list (migration.Migration Schema)) (s : Schema)
  : Schema :=
  fold_left (fun s mig => fst (migration.Up mig s)) l s.

(** The seeders that run in [env], and the schema after they ran. *)
Definition enabled {Schema : Type} (env : string) (seeders : list (migration.Seeder Schema))
  : list (migration.Seeder Schema) :=
  List.filter (fun seeder => migration.ShouldRun seeder env) seeders.

Definition seededBy {Schema : Type} (l : list (migration.Seeder Schema)) (s : Schema)
  : Schema :=
  fold_left (fun s seeder => fst (migration.Run seeder s)) l s.

(** The errors [Migrate] and [Seed] wrap around a failure [cause]. *)
Definition failedRecord (v : string) (cause : domain.error) : domain.error :=
  Errorf ("failed to record migration " ++ v ++ ": " ++ ErrorString cause) cause.

Definition failedSeeder (name : string) (cause : domain.error) : domain.error :=
  Errorf ("seeder " ++ name ++ " failed: " ++ ErrorString cause) cause.

(** The context after the middleware has stored the claims of a token. *)
Definition authenticated (claims : JWTClaims) (c : gin.Context) : gin.Context :=
  gin.SetKey
    (gin.SetKey
       (gin.SetKey c middleware.UserIDContextKey (gin.AUint (UserID claims)))
       middleware.UserContextKey (gin.AString (claim_Email claims)))
    middleware.RoleContextKey (gin.AString (claim_Role claims)).

(** The answer of the middleware to a request it refuses. *)
Definition refused (code : Z) (e : ErrVar) (c : gin.Context) : gin.Context :=
  gin.Abort (gin.JSON c code (gin.ErrorResponse (deref e))).

(** Closes a goal saying that an error just built is not [ErrUserExists]. *)
Ltac not_exists :=
  let e := fresh "e" in
  let He := fresh "He" in
  intros e He; inversion He; subst; split; [unfold codeOf, WrapError; simpl|]; discriminate.

End notions.

(* ================================================================== *)
(** * The model on small inputs *)
(* ================================================================== *)

Module sanity.
Import domain.

Example TrimSpace_example :
  gostrings.TrimSpace (String "009" " Alice A  ") = "Alice A"
  /\ gostrings.TrimSpace "   " = ""
  /\ gostrings.TrimSpace "a  b" = "a  b".
Proof. repeat split. Qed.

Example ToLower_example :
  gostrings.ToLower "ALICE@Example.com" = "alice@example.com".
Proof. reflexivity. Qed.

Example Contains_example :
  gostrings.Contains "unique constraint failed: users.email" "constraint failed" = true
  /\ gostrings.Contains "abc" "" = true
  /\ gostrings.Contains "abc" "abd" = false.
Proof. repeat split. Qed.

Example isUniqueConstraintError_example :
  repo.isUniqueConstraintError None = false
  /\ repo.isUniqueConstraintError (Some (Driver "Error 1062: Duplicate entry")) = true
  /\ repo.isUniqueConstraintError (Some (Driver "connection refused")) = false.
Proof. repeat split. Qed.

Example version_order_example :
  String.ltb "20240815120000" "20240815130000" = true
  /\ String.ltb "20240815130000" "20240815120000" = false
  /\ map migration.Version
       (gosort.Slice migration.less
          [samples.broken; samples.addUserAvatar; samples.createUsers])
     = ["20240815120000"; "20240815130000"; "20240816000000"].
Proof. repeat split. Qed.

Example Sub_saturates :
  time.Sub (2 ^ 64)%Z 0%Z = time.maxDuration /\ time.Sub 0%Z (2 ^ 64)%Z = time.minDuration.
Proof. split; reflexivity. Qed.

(** Registration, a second registration under another spelling, logins and
    a deactivated account, on the relational reference store. *)
Example scenario :
  let empty := samples.table [] in
  let register := service.Register samples.gormRepo samples.bcrypt in
  let login := service.Login samples.gormRepo samples.auth samples.bcrypt in
  let '(t1, r1) :=
    register empty 1000%Z
      {| create_Email := "alice@example.com"; create_Password := "password123";
         create_Name := "Alice A"; create_Role := "" |} in
  let '(t2, r2) :=
    register t1 2000%Z
      {| create_Email := "ALICE@example.com"; create_Password := "password456";
         create_Name := "Alice B"; create_Role := "" |} in
  (exists resp, r1 = Ok resp /\ resp_Role resp = "user" /\ resp_Active resp = true)
  /\ r2 = Err ErrUserExists
  /\ login t2 3000%Z {| login_Email := "alice@example.com"; login_Password := "wrong" |}
     = Err ErrInvalidPassword
  /\ (exists resp,
         login t2 3000%Z
           {| login_Email := "alice@example.com"; login_Password := "password123" |}
         = Ok ("signed:alice@example.com", resp)).
Proof.
  vm_compute. split; [eexists; repeat split|]. split; [reflexivity|].
  split; [reflexivity|]. eexists. reflexivity.
Qed.

End sanity.

(* ================================================================== *)
(** * Properties of [sort.Slice] *)
(* ================================================================== *)

Module sort_facts.

Section Slice.
Context {A : Type} (less : A -> A -> bool).

Lemma insert_Permutation (x : A) (l : list A) :
  Permutation (gosort.insert less x l) (x :: l).
Proof.
  induction l as [|y r IH]; simpl.
  - apply Permutation_refl.
  - destruct (less y x).
    + eapply perm_trans; [apply perm_skip, IH|apply perm_swap].
    + apply Permutation_refl.
Qed.

Lemma Slice_Permutation (l : list A) : Permutation (gosort.Slice less l) l.
Proof.
  induction l as [|x r IH]; simpl.
  - apply perm_nil.
  - eapply perm_trans; [apply insert_Permutation|apply perm_skip, IH].
Qed.

Lemma Slice_In (x : A) (l : list A) : In x (gosort.Slice less l) <-> In x l.
Proof.
  split; apply Permutation_in;
    [apply Slice_Permutation|apply Permutation_sym, Slice_Permutation].
Qed.

Lemma Slice_length (l : list A) : length (gosort.Slice less l) = length l.
Proof. apply Permutation_length, Slice_Permutation. Qed.


Hypothesis less_asym : forall x y, less x y = true -> less y x = false.

Lemma insert_HdRel (a x : A) (l : list A) :
  (gosort.ordered less) a x -> HdRel (gosort.ordered less) a l -> HdRel (gosort.ordered less) a (gosort.insert less x l).
Proof.
  intros Hax Hl. destruct l as [|y r]; simpl.
  - constructor. exact Hax.
  - destruct (less y x); constructor; [|exact Hax].
    inversion Hl; assumption.
Qed.

Lemma insert_Sorted (x : A) (l : list A) :
  Sorted (gosort.ordered less) l -> Sorted (gosort.ordered less) (gosort.insert less x l).
Proof.
  induction l as [|y r IH]; simpl; intros Hs.
  - repeat constructor.
  - destruct (less y x) eqn:Hyx.
    + inversion Hs; subst. constructor; [apply IH; assumption|].
      apply insert_HdRel; [|assumption].
      unfold gosort.ordered. apply less_asym, Hyx.
    + constructor; [assumption|]. constructor. exact Hyx.
Qed.

Lemma Slice_Sorted (l : list A) : Sorted (gosort.ordered less) (gosort.Slice less l).
Proof.
  induction l as [|x r IH]; simpl.
  - constructor.
  - apply insert_Sorted, IH.
Qed.

End Slice.

End sort_facts.

(* ================================================================== *)
(** * Properties of the repositories *)
(* ================================================================== *)

Module repo_facts.
Import domain notions.

(** ** The document variant has no lookup or deletion by identifier *)

(** C5.  On the document-store repository, [GetByID] returns an error of
    kind [NOT_FOUND] for every store and every identifier, and [Delete]
    returns an error of kind [NOT_FOUND] and leaves the store as it was;
    neither reads the identifier or the collection. *)
Theorem mongo_GetByID_Delete_always_fail :
  forall regex (c : mongo.Collection) (id : Z),
    (exists err, GetByID (repo.NewUserMongoRepository regex) c id = Err err
                 /\ codeOf err = Some ErrCodeNotFound)
    /\ (exists err, Delete (repo.NewUserMongoRepository regex) c id = (c, Some err)
                    /\ codeOf err = Some ErrCodeNotFound).
Proof.
  intros regex c id. split.
  - eexists. split; [reflexivity|]. reflexivity.
  - eexists. split; [reflexivity|]. reflexivity.
Qed.

(** ** The frame of [Update] on the document variant *)

Lemma value_eqb_eq (v w : mongo.Value) : mongo.value_eqb v w = true -> v = w.
Proof.
  destruct v, w; simpl; try discriminate; intros H.
  - apply String.eqb_eq in H. congruence.
  - apply Bool.eqb_prop in H. congruence.
  - apply Z.eqb_eq in H. congruence.
  - unfold mongo.oid_eqb in H. apply andb_true_iff in H as [H1 H2].
    apply Z.eqb_eq in H1, H2. destruct o, o0; simpl in *. congruence.
  - apply andb_true_iff in H as [H1 H2].
    apply String.eqb_eq in H1, H2. congruence.
Qed.

Lemma fieldIs_string regex (d : mongo.M) key s :
  mongo.fieldIs regex d key (mongo.VString s) = true -> d !! key = Some (mongo.VString s).
Proof.
  unfold mongo.fieldIs, mongo.option_value_eqb.
  destruct (d !! key) as [w|]; [|discriminate].
  intros H. apply value_eqb_eq in H. congruence.
Qed.

Lemma fieldIs_bool regex (d : mongo.M) key b :
  mongo.fieldIs regex d key (mongo.VBool b) = true -> d !! key = Some (mongo.VBool b).
Proof.
  unfold mongo.fieldIs, mongo.option_value_eqb.
  destruct (d !! key) as [w|]; [|discriminate].
  intros H. apply value_eqb_eq in H. congruence.
Qed.

Lemma updateFirst_Some regex f set l pre d' post :
  mongo.updateFirst regex f set l = Some (pre, d', post) ->
  exists d, l = (pre ++ d :: post)%list
            /\ mongo.matches regex f d = true
            /\ d' = mongo.applySet set d.
Proof.
  revert pre d' post. induction l as [|x r IH]; simpl; intros pre d' post H.
  - discriminate.
  - destruct (mongo.matches regex f x) eqn:Hm.
    + inversion H; subst. exists x. auto.
    + destruct (mongo.updateFirst regex f set r) as [[[pre0 d0] post0]|] eqn:Hr;
        [|discriminate].
      inversion H; subst. destruct (IH _ _ _ eq_refl) as (d & -> & Hd & ->).
      exists d. auto.
Qed.

Lemma Forall2_same {A} (R : A -> A -> Prop) (l : list A) :
  (forall x, R x x) -> Forall2 R l l.
Proof. intros HR. induction l; constructor; auto. Qed.

Lemma wrapped_is_database err message :
  codeOf (WrapError err ErrCodeDatabase message) = Some ErrCodeDatabase.
Proof. reflexivity. Qed.

(** C9.  [Update] on the document-store repository changes at most one
    document, one whose [email] is the user's; in it the keys [name],
    [role], [active] and [updated_at] are written and every other key
    ([email], [password], [created_at], [_id]) keeps its value; every other
    document is left as it was.  No error it returns is of kind
    [ALREADY_EXISTS]. *)
Theorem mongo_Update_frame :
  forall regex (c : mongo.Collection) (now : time.Time) (user : User),
    let '(c', _, err) := repo.mongo_Update regex c now user in
    Forall2 (fun d d' =>
               d' = d
               \/ (d !! "email" = Some (mongo.VString (Email user))
                   /\ updated_by user now d d'))
            (mongo.docs c) (mongo.docs c')
    /\ Forall2 (fun d d' =>
                  d' !! "email" = d !! "email"
                  /\ d' !! "password" = d !! "password"
                  /\ d' !! "created_at" = d !! "created_at")
               (mongo.docs c) (mongo.docs c')
    /\ (forall e, err = Some e ->
                  codeOf e <> Some ErrCodeAlreadyExists /\ e <> ErrUserExists).
Proof.
  intros regex c now user.
  assert (Hkeep : forall d d' : mongo.M,
             d' = d \/ (d !! "email" = Some (mongo.VString (Email user))
                        /\ updated_by user now d d') ->
             d' !! "email" = d !! "email"
             /\ d' !! "password" = d !! "password"
             /\ d' !! "created_at" = d !! "created_at").
  { intros d d' [->|[_ (_ & _ & _ & _ & Hk)]]; [auto|].
    repeat split; apply Hk; unfold written; simpl; intuition discriminate. }
  assert (Hframe : forall l l' : list mongo.M,
             Forall2 (fun d d' =>
                        d' = d \/ (d !! "email" = Some (mongo.VString (Email user))
                                   /\ updated_by user now d d')) l l' ->
             Forall2 (fun d d' =>
                        d' !! "email" = d !! "email"
                        /\ d' !! "password" = d !! "password"
                        /\ d' !! "created_at" = d !! "created_at") l l').
  { intros l l' H. induction H; constructor; auto. }
  unfold repo.mongo_Update, mongo.UpdateOne.
  destruct (mongo.fault c) as [err|] eqn:Hfault.
  { split; [|split]; [apply Forall2_same; auto ..|not_exists]. }
  set (upd := <["name":=_]> _).
  destruct (mongo.updateFirst regex _ upd (mongo.docs c)) as [[[pre d'] post]|] eqn:Hu.
  2:{ simpl. split; [|split]; [apply Forall2_same; auto ..|not_exists]. }
  apply updateFirst_Some in Hu as (d & Hdocs & Hm & ->).
  simpl in Hm. apply (fieldIs_string regex) in Hm.
  destruct (existsb _ _).
  { split; [|split]; [apply Forall2_same; auto ..|not_exists]. }
  destruct (existsb _ _).
  { split; [|split]; [apply Forall2_same; auto ..|not_exists]. }
  simpl.
  assert (Hall : Forall2 (fun d0 d'0 : mongo.M =>
                   d'0 = d0 \/ (d0 !! "email" = Some (mongo.VString (Email user))
                                /\ updated_by user now d0 d'0))
                 (mongo.docs c) (pre ++ mongo.applySet upd d :: post)).
  { rewrite Hdocs. apply Forall2_app; [apply Forall2_same; auto|].
    constructor; [|apply Forall2_same; auto].
    right. split; [exact Hm|].
    unfold updated_by, mongo.applySet. subst upd.
    split; [|split; [|split; [|split]]].
    - apply lookup_union_Some_l. reflexivity.
    - apply lookup_union_Some_l. reflexivity.
    - apply lookup_union_Some_l. reflexivity.
    - apply lookup_union_Some_l. reflexivity.
    - intros key Hkey. apply lookup_union_r.
      unfold written in Hkey. simpl in Hkey.
      rewrite !lookup_insert_ne by (intros Heq; apply Hkey; rewrite Heq; auto 6).
      apply lookup_empty. }
  split; [exact Hall|split; [exact (Hframe _ _ Hall)|]].
  intros e He. discriminate.
Qed.

(** ** The errors of [Update] on the relational variant *)

(** The texts of both drivers on a violated unique index are classified as
    unique-constraint violations. *)
Lemma uniqueViolation_classified (d : memdb.Dialect) :
  repo.isUniqueConstraintError (Some (memdb.uniqueViolation d "users.email")) = true
  /\ repo.isUniqueConstraintError (Some (memdb.uniqueViolation d "users.id")) = true.
Proof. destruct d; split; vm_compute; reflexivity. Qed.

(** C7.  On the relational repository, whatever the engine behind [Save]:
    when [Save] reports an error that [isUniqueConstraintError] accepts,
    [Update] returns [ErrUserExists]; when it reports any other error,
    [Update] returns that error wrapped as [DATABASE_ERROR]; when it reports
    no error and zero affected rows, [Update] returns [ErrUserNotFound]; and
    only when it reports no error and some affected row does [Update]
    succeed. *)
Theorem gorm_Update_errors :
  forall (T : Type) (db : gorm.DB T) (t : T) (now : time.Time) (user : User),
    let '(t', user', result) := gorm.db_Save db t now user in
    (forall err, gorm.res_Error result = Some err ->
                 repo.isUniqueConstraintError (Some err) = true ->
                 repo.gorm_Update db t now user = (t', user', Some ErrUserExists))
    /\ (forall err, gorm.res_Error result = Some err ->
                    repo.isUniqueConstraintError (Some err) = false ->
                    repo.gorm_Update db t now user
                    = (t', user', Some (WrapError err ErrCodeDatabase "Failed to update user")))
    /\ (gorm.res_Error result = None -> gorm.RowsAffected result = 0%Z ->
        repo.gorm_Update db t now user = (t', user', Some ErrUserNotFound))
    /\ (gorm.res_Error result = None -> gorm.RowsAffected result <> 0%Z ->
        repo.gorm_Update db t now user = (t', user', None)).
Proof.
  intros T db t now user. unfold repo.gorm_Update.
  destruct (gorm.db_Save db t now user) as [[t' user'] result].
  split; [|split; [|split]].
  - intros err -> ->. reflexivity.
  - intros err -> ->. reflexivity.
  - intros -> ->. reflexivity.
  - intros -> Hrows. apply Z.eqb_neq in Hrows. rewrite Hrows. reflexivity.
Qed.

(** The three errors of C7 on the reference engine: a row that is gone, an
    email taken by another row, a lost connection. *)
Lemma gorm_Update_errors_witness :
  snd (Update samples.gormRepo (samples.table [samples.alice]) 5000%Z samples.bob)
  = Some ErrUserNotFound
  /\ snd (Update samples.gormRepo (samples.table [samples.alice; samples.bob]) 5000%Z
             (set_ID samples.alice 2))
     = Some ErrUserExists
  /\ snd (Update samples.gormRepo
             {| memdb.dialect := memdb.postgres; memdb.rows := [samples.bob];
                memdb.next_id := 3; memdb.fault := Some (Driver "connection refused") |}
             5000%Z samples.bob)
     = Some (WrapError (Driver "connection refused") ErrCodeDatabase "Failed to update user").
Proof.
  split; [|split].
  - pose proof (gorm_Update_errors _ (memdb.engine samples.ilike)
                  (samples.table [samples.alice]) 5000%Z samples.bob) as H.
    vm_compute in H. destruct H as (_ & _ & H & _).
    exact (f_equal snd (H eq_refl eq_refl)).
  - pose proof (gorm_Update_errors _ (memdb.engine samples.ilike)
                  (samples.table [samples.alice; samples.bob]) 5000%Z
                  (set_ID samples.alice 2)) as H.
    vm_compute in H. destruct H as (H & _).
    exact (f_equal snd (H _ eq_refl eq_refl)).
  - pose proof (gorm_Update_errors _ (memdb.engine samples.ilike)
                  {| memdb.dialect := memdb.postgres; memdb.rows := [samples.bob];
                     memdb.next_id := 3; memdb.fault := Some (Driver "connection refused") |}
                  5000%Z samples.bob) as H.
    vm_compute in H. destruct H as (_ & H & _).
    exact (f_equal snd (H _ eq_refl eq_refl)).
Defined.

End repo_facts.
(* ================================================================== *)
(** * Listing and searching in the two variants *)
(* ================================================================== *)

Module listing_facts.
Import domain notions.

(** ** Encoding and decoding of documents *)






Lemma firstn_skipn_In {A} (n k : nat) (l : list A) (x : A) :
  In x (firstn n (skipn k l)) -> In x l.
Proof.
  intros Hx.
  rewrite <- (List.firstn_skipn k l). apply in_or_app. right.
  rewrite <- (List.firstn_skipn n (skipn k l)). apply in_or_app. left. exact Hx.
Qed.


Lemma filter_Forall_both {A} (p : A -> bool) (P : A -> Prop) (l : list A) :
  (forall x, In x l -> p x = true -> P x) -> Forall P (List.filter p l).
Proof.
  intros H. apply List.Forall_forall. intros x Hx.
  apply List.filter_In in Hx as [Hin Hp]. auto.
Qed.



(** ** What each variant selects *)



Lemma filter_all {A} (l : list A) : List.filter (fun _ => true) l = l.
Proof. induction l as [|x r IH]; simpl; [|rewrite IH]; reflexivity. Qed.







End listing_facts.
(* ================================================================== *)
(** * Properties of the services *)
(* ================================================================== *)

Module service_facts.
Import domain notions.
Local Open Scope Z_scope.

(** ** Refreshing a token *)

(** Saturation does not change how a remaining validity compares to one hour. *)
Lemma Until_gt_Hour (now t : time.Time) :
  (time.Until now t >? time.Hour) = (t - now >? time.Hour).
Proof.
  unfold time.Until, time.Sub.
  assert (Hmin : time.minDuration = -9223372036854775808) by reflexivity.
  assert (Hmax : time.maxDuration = 9223372036854775807) by reflexivity.
  assert (Hhour : time.Hour = 3600000000000) by reflexivity.
  rewrite Hmin, Hmax, Hhour.
  destruct (Z.ltb_spec (t - now) (-9223372036854775808)) as [Hlow|Hlow].
  - transitivity false; [reflexivity|].
    symmetry. rewrite Z.gtb_ltb. apply Z.ltb_ge. lia.
  - destruct (Z.ltb_spec 9223372036854775807 (t - now)) as [Hhigh|Hhigh].
    + transitivity true; [reflexivity|].
      symmetry. rewrite Z.gtb_ltb. apply Z.ltb_lt. lia.
    + reflexivity.
Qed.

(** C3 (as amended).  For a token that [ValidateToken] accepts and that
    carries an expiry: [RefreshToken] rejects it with the error
    [INVALID_VALUE] "Token is not close to expiration" exactly when its
    remaining validity is strictly more than one hour; with one hour or less
    remaining (one hour exactly included) it signs new claims and returns
    the token, or the signer's error wrapped as [INTERNAL_ERROR].  A token
    just issued with an expiration window of at least one hour and one
    second is rejected. *)
Theorem RefreshToken_threshold :
  forall (config : service.JWTConfig) (lib : jwt.Lib) (now : time.Time)
         (tokenString : string) (claims : JWTClaims) (expiresAt : time.Time),
    service.auth_ValidateToken config lib now tokenString = Ok claims ->
    ExpiresAt claims = Some expiresAt ->
    (service.auth_RefreshToken config lib now tokenString = Return (Err notCloseToExpiration)
     <-> time.Hour < expiresAt - now)
    /\ (expiresAt - now <= time.Hour ->
        service.auth_RefreshToken config lib now tokenString
        = match jwt.SignedString lib (service.Secret config) (refreshed config now claims) with
          | Ok newTokenString => Return (Ok newTokenString)
          | Err err => Return (Err (WrapError err ErrCodeInternal "Failed to refresh token"))
          end)
    /\ ((exists newTokenString,
            service.auth_RefreshToken config lib now tokenString = Return (Ok newTokenString))
        <-> (expiresAt - now <= time.Hour
             /\ exists newTokenString,
                 jwt.SignedString lib (service.Secret config) (refreshed config now claims)
                 = Ok newTokenString))
    /\ (time.Hour + time.Second <= service.Expiration config ->
        Some expiresAt = jwt.NewNumericDate (time.Add now (service.Expiration config)) ->
        service.auth_RefreshToken config lib now tokenString
        = Return (Err notCloseToExpiration)).
Proof.
  intros config lib now tokenString claims expiresAt Hvalid Hexp.
  unfold service.auth_RefreshToken. rewrite Hvalid, Hexp, Until_gt_Hour.
  fold (refreshed config now claims).
  destruct (Z.gtb_spec (expiresAt - now) time.Hour) as [Hgt|Hle].
  - split; [|split; [|split]].
    + split; [intros _; lia|reflexivity].
    + intros Hle. exfalso. lia.
    + split.
      * intros [tok Htok]. discriminate Htok.
      * intros [Hle _]. exfalso. lia.
    + reflexivity.
  - split; [|split; [|split]].
    + split; [|intros Hgt; exfalso; lia].
      destruct (jwt.SignedString lib _ _); intros H; discriminate H.
    + reflexivity.
    + split.
      * intros [tok Htok]. split; [exact Hle|].
        destruct (jwt.SignedString lib _ _) as [s|e]; [|discriminate Htok].
        exists s. reflexivity.
      * intros [_ [tok Htok]]. rewrite Htok. exists tok. reflexivity.
    + intros Hwindow Hfresh. exfalso.
      unfold jwt.NewNumericDate, time.Truncate, time.Add in Hfresh.
      inversion Hfresh as [Heq]. clear Hfresh.
      assert (Hs : time.Second = 1000000000) by reflexivity.
      pose proof (Z.mod_pos_bound (now + service.Expiration config) time.Second) as Hmod.
      rewrite Hs in *. lia.
Qed.

(** C3, the claim as stated fails at the boundary: with exactly one hour of
    validity left the token is valid and a new token is issued. *)
Lemma RefreshToken_at_one_hour :
  ValidateToken samples.auth (3600 * time.Second) "alice.token" = Ok samples.aliceClaims
  /\ ExpiresAt samples.aliceClaims = Some (3600 * time.Second + time.Hour)
  /\ RefreshToken samples.auth (3600 * time.Second) "alice.token"
     = Return (Ok "signed:alice@example.com").
Proof. repeat split. Qed.

(** The amended C3 on the sample token: refused two hours before expiry,
    reissued one hour before. *)
Lemma RefreshToken_threshold_witness :
  RefreshToken samples.auth 0 "alice.token" = Return (Err notCloseToExpiration)
  /\ RefreshToken samples.auth (3600 * time.Second) "alice.token"
     = Return (Ok "signed:alice@example.com").
Proof.
  split.
  - destruct (RefreshToken_threshold samples.jwtConfig samples.jwtLib 0 "alice.token"
                samples.aliceClaims (7200 * time.Second) eq_refl eq_refl)
      as (H & _).
    apply H. reflexivity.
  - destruct (RefreshToken_threshold samples.jwtConfig samples.jwtLib (3600 * time.Second)
                "alice.token" samples.aliceClaims (7200 * time.Second) eq_refl eq_refl)
      as (_ & H & _).
    exact (H ltac:(vm_compute; discriminate)).
Defined.

(** ** Logging in *)

(** C1 (as amended).  For every login request that passes validation (a
    non-blank email and a non-empty password), over any repository: when
    the repository has no user under the normalized email, and when it has
    an active user whose password check fails, [Login] returns the same
    error, [ErrInvalidPassword] of kind [INVALID_PASSWORD]; when it has an
    inactive user, [Login] returns an error of kind [FORBIDDEN], whether or
    not the password is right. *)
Theorem Login_errors :
  forall (S : Type) (userRepo : UserRepository S) (authService : AuthService)
         (bc : Bcrypt) (s : S) (now : time.Time) (req : UserLoginRequest),
    service.validateLoginRequest req = None ->
    (GetByEmail userRepo s (normalize (login_Email req)) = Err ErrUserNotFound ->
     service.Login userRepo authService bc s now req = Err ErrInvalidPassword)
    /\ (forall user,
          GetByEmail userRepo s (normalize (login_Email req)) = Ok user ->
          Active user = true ->
          CheckPassword bc user (login_Password req) = false ->
          service.Login userRepo authService bc s now req = Err ErrInvalidPassword)
    /\ (forall user,
          GetByEmail userRepo s (normalize (login_Email req)) = Ok user ->
          Active user = false ->
          service.Login userRepo authService bc s now req = Err deactivated)
    /\ codeOf ErrInvalidPassword = Some ErrCodeInvalidPassword
    /\ codeOf deactivated = Some ErrCodeForbidden
    /\ ErrCodeForbidden <> ErrCodeInvalidPassword.
Proof.
  intros S userRepo authService bc s now req Hvalid.
  unfold service.Login, normalize. rewrite Hvalid.
  split; [|split; [|split; [|split; [|split]]]].
  - intros ->. reflexivity.
  - intros user -> -> ->. reflexivity.
  - intros user -> ->. reflexivity.
  - reflexivity.
  - reflexivity.
  - discriminate.
Qed.

(** C1, the claim as stated fails for a request that does not pass
    validation: with an empty password, an unknown email and the email of
    the inactive Bob both give [VALIDATION_ERROR], not [INVALID_PASSWORD]
    and not [FORBIDDEN]. *)
Lemma Login_empty_password :
  let s := samples.table [samples.alice; samples.bob] in
  let unknown := {| login_Email := "nobody@example.com"; login_Password := "" |} in
  let inactive := {| login_Email := "bob@example.com"; login_Password := "" |} in
  GetByEmail samples.gormRepo s (normalize (login_Email unknown)) = Err ErrUserNotFound
  /\ service.Login samples.gormRepo samples.auth samples.bcrypt s 0 unknown
     = Err (ValidationError "password" "is required")
  /\ GetByEmail samples.gormRepo s (normalize (login_Email inactive)) = Ok samples.bob
  /\ Active samples.bob = false
  /\ service.Login samples.gormRepo samples.auth samples.bcrypt s 0 inactive
     = Err (ValidationError "password" "is required")
  /\ codeOf (ValidationError "password" "is required") = Some ErrCodeValidation.
Proof. cbv zeta. repeat split. Qed.

(** The amended C1 on the sample table: an unknown email and a wrong
    password for Alice give the same error, Bob with his own password is
    refused as deactivated. *)
Lemma Login_errors_witness :
  let s := samples.table [samples.alice; samples.bob] in
  service.Login samples.gormRepo samples.auth samples.bcrypt s 0
    {| login_Email := " Nobody@Example.com "; login_Password := "password123" |}
  = Err ErrInvalidPassword
  /\ service.Login samples.gormRepo samples.auth samples.bcrypt s 0
       {| login_Email := "Alice@Example.com"; login_Password := "not-the-password" |}
     = Err ErrInvalidPassword
  /\ service.Login samples.gormRepo samples.auth samples.bcrypt s 0
       {| login_Email := "bob@example.com"; login_Password := "hunter2hunter2" |}
     = Err deactivated.
Proof.
  cbv zeta. split; [|split].
  - destruct (Login_errors _ samples.gormRepo samples.auth samples.bcrypt
                (samples.table [samples.alice; samples.bob]) 0
                {| login_Email := " Nobody@Example.com "; login_Password := "password123" |}
                eq_refl) as (H & _).
    apply H. reflexivity.
  - destruct (Login_errors _ samples.gormRepo samples.auth samples.bcrypt
                (samples.table [samples.alice; samples.bob]) 0
                {| login_Email := "Alice@Example.com"; login_Password := "not-the-password" |}
                eq_refl) as (_ & H & _).
    apply (H samples.alice); reflexivity.
  - destruct (Login_errors _ samples.gormRepo samples.auth samples.bcrypt
                (samples.table [samples.alice; samples.bob]) 0
                {| login_Email := "bob@example.com"; login_Password := "hunter2hunter2" |}
                eq_refl) as (_ & _ & H & _).
    apply (H samples.bob); reflexivity.
Defined.

(** ** Registering *)

(** [Register] either leaves the store alone and fails, or hashes the
    password and answers by what [Create] does with the [registered] user. *)
Lemma Register_cases {S : Type} (userRepo : UserRepository S) (bc : Bcrypt)
      (s : S) (now : time.Time) (req : UserCreateRequest) :
  (exists err, service.Register userRepo bc s now req = (s, Err err))
  \/ (exists digest,
         service.validateCreateRequest req = None
         /\ (exists err, GetByEmail userRepo s (create_Email req) = Err err
                         /\ isVar VarUserNotFound err = true)
         /\ GenerateFromPassword bc (create_Password req) = Ok digest
         /\ service.Register userRepo bc s now req
            = respond (Create userRepo s now (registered req now digest))).
Proof.
  unfold service.Register.
  destruct (service.validateCreateRequest req) as [err|]; [left; eauto|].
  destruct (GetByEmail userRepo s (create_Email req)) as [u|err] eqn:Hget; [left; eauto|].
  destruct (isVar VarUserNotFound err) eqn:Hvar; simpl; [|left; eauto].
  unfold HashPassword. simpl.
  destruct (GenerateFromPassword bc (create_Password req)) as [digest|err'] eqn:Hhash;
    [|left; eauto].
  right. exists digest. split; [reflexivity|]. split; [eauto|]. split; [reflexivity|].
  unfold registered, normalize, respond.
  destruct (Create userRepo s now _) as [[s' u'] [e|]]; reflexivity.
Qed.

(** When the pre-check finds nothing and the password hashes, [Register]
    answers by what [Create] does. *)
Lemma Register_reaches_Create {S : Type} (userRepo : UserRepository S) (bc : Bcrypt)
      (s : S) (now : time.Time) (req : UserCreateRequest) (digest : string) :
  service.validateCreateRequest req = None ->
  GetByEmail userRepo s (create_Email req) = Err ErrUserNotFound ->
  GenerateFromPassword bc (create_Password req) = Ok digest ->
  service.Register userRepo bc s now req
  = respond (Create userRepo s now (registered req now digest)).
Proof.
  intros Hvalid Hget Hhash. unfold service.Register.
  rewrite Hvalid, Hget. cbn [isVar ErrUserNotFound negb].
  unfold HashPassword. cbn [Password]. rewrite Hhash.
  unfold registered, normalize, respond.
  destruct (Create userRepo s now _) as [[s' u'] [e|]]; reflexivity.
Qed.

Lemma gorm_Create_ok {T : Type} (db : gorm.DB T) (t t' : T) now (user user' : User) :
  repo.gorm_Create db t now user = (t', user', None) ->
  exists res, gorm.db_Create db t now user = (t', user', res) /\ gorm.res_Error res = None.
Proof.
  unfold repo.gorm_Create.
  destruct (gorm.db_Create db t now user) as [[t1 u1] res].
  destruct (gorm.res_Error res) as [err|] eqn:Hres.
  - destruct (repo.isUniqueConstraintError (Some err)); discriminate.
  - intros H. inversion H; subst. eauto.
Qed.

Lemma memdb_Create_ok ilike (t t' : memdb.Table) now (user user' : User) :
  repo.gorm_Create (memdb.engine ilike) t now user = (t', user', None) ->
  memdb.rows t' = (memdb.rows t ++ [user'])%list
  /\ Role user' = Role user /\ Active user' = Active user /\ Email user' = Email user.
Proof.
  intros H. apply gorm_Create_ok in H as (res & H & Hres).
  cbn [gorm.db_Create memdb.engine] in H. unfold memdb.Create in H.
  destruct (memdb.fault t) as [err|].
  { inversion H; subst. discriminate Hres. }
  destruct (existsb _ (memdb.rows t)).
  { inversion H; subst. discriminate Hres. }
  destruct (existsb _ (memdb.rows t)).
  { inversion H; subst. discriminate Hres. }
  inversion H; subst. repeat split.
Qed.

Lemma encode_fields (m : repo.mongoUser) :
  repo.encode m !! "role" = Some (mongo.VString (repo.mu_Role m))
  /\ repo.encode m !! "active" = Some (mongo.VBool (repo.mu_Active m))
  /\ repo.encode m !! "email" = Some (mongo.VString (repo.mu_Email m)).
Proof.
  unfold repo.encode. destruct (mongo.IsZero (repo.mu_ID m)); repeat split.
Qed.

Lemma mongo_Create_ok (c c' : mongo.Collection) now (user user' : User) :
  repo.mongo_Create c now user = (c', user', None) ->
  exists d, mongo.docs c' = (mongo.docs c ++ [d])%list
            /\ d !! "role" = Some (mongo.VString (Role user))
            /\ d !! "active" = Some (mongo.VBool (Active user))
            /\ d !! "email" = Some (mongo.VString (Email user)).
Proof.
  unfold repo.mongo_Create, mongo.InsertOne.
  destruct (mongo.fault c) as [err|].
  { destruct (mongo.IsDuplicateKeyError err); discriminate. }
  set (m := {| repo.mu_ID := _ |}).
  set (id := match repo.encode m !! "_id" with Some v => v | None => _ end).
  destruct (existsb _ (mongo.docs c)); [discriminate|].
  destruct (existsb _ (mongo.docs c)); [discriminate|].
  intros H.
  assert (Hc : c' = mongo.with_docs c (mongo.docs c ++ [<["_id" := id]> (repo.encode m)])
                      (mongo.serial c + 1)).
  { destruct id; inversion H; reflexivity. }
  subst c'. eexists. split; [reflexivity|].
  destruct (encode_fields m) as (Hrole & Hactive & Hemail).
  rewrite !lookup_insert_ne by discriminate.
  rewrite Hrole, Hactive, Hemail. simpl. repeat split; reflexivity.
Qed.

(** C8.  [getDefaultRole] keeps the requested role when it is [admin] or
    [user] and answers [user] otherwise, so its value is always one of the
    two.  Over any repository, [Register] either fails without touching the
    store or hands [Create] a user with that role and [Active = true].  On
    both reference stores, a successful [Register] appends exactly one
    record, with that role and active. *)
Theorem Register_role_active :
  forall (bc : Bcrypt) (now : time.Time) (req : UserCreateRequest),
    let role := service.getDefaultRole (create_Role req) in
    ((create_Role req = "admin" \/ create_Role req = "user") -> role = create_Role req)
    /\ (create_Role req <> "admin" -> create_Role req <> "user" -> role = "user")
    /\ (role = "user" \/ role = "admin")
    /\ (forall (S : Type) (userRepo : UserRepository S) (s : S),
          (exists err, service.Register userRepo bc s now req = (s, Err err))
          \/ (exists digest,
                 service.validateCreateRequest req = None
                 /\ service.Register userRepo bc s now req
                    = respond (Create userRepo s now (registered req now digest))
                 /\ Role (registered req now digest) = role
                 /\ Active (registered req now digest) = true))
    /\ (forall ilike (t t' : memdb.Table) resp,
          service.Register (repo.NewUserGormRepository (memdb.engine ilike)) bc t now req
          = (t', Ok resp) ->
          exists u, memdb.rows t' = (memdb.rows t ++ [u])%list
                    /\ Role u = role /\ Active u = true
                    /\ resp_Role resp = role /\ resp_Active resp = true)
    /\ (forall regex (c c' : mongo.Collection) resp,
          service.Register (repo.NewUserMongoRepository regex) bc c now req = (c', Ok resp) ->
          exists d, mongo.docs c' = (mongo.docs c ++ [d])%list
                    /\ d !! "role" = Some (mongo.VString role)
                    /\ d !! "active" = Some (mongo.VBool true)
                    /\ resp_Role resp = role /\ resp_Active resp = true).
Proof.
  intros bc now req. cbv zeta.
  split; [|split; [|split; [|split; [|split]]]].
  - unfold service.getDefaultRole. intros [->| ->]; reflexivity.
  - unfold service.getDefaultRole. intros Ha Hu.
    apply String.eqb_neq in Ha, Hu. rewrite Ha, Hu. reflexivity.
  - unfold service.getDefaultRole.
    destruct (String.eqb_spec (create_Role req) "admin") as [->|_]; [right; reflexivity|].
    destruct (String.eqb_spec (create_Role req) "user") as [->|_]; left; reflexivity.
  - intros S userRepo s.
    destruct (Register_cases userRepo bc s now req) as [H|(digest & Hv & _ & _ & H)];
      [left; exact H|].
    right. exists digest. repeat split; assumption.
  - intros ilike t t' resp HR.
    destruct (Register_cases (repo.NewUserGormRepository (memdb.engine ilike)) bc t now req)
      as [[err H]|(digest & _ & _ & _ & H)]; [congruence|].
    rewrite H in HR. unfold respond in HR. cbn [Create repo.NewUserGormRepository] in HR.
    destruct (repo.gorm_Create _ t now _) as [[t1 u1] [e|]] eqn:Hc; [discriminate|].
    inversion HR; subst. apply memdb_Create_ok in Hc as (Hrows & Hrole & Hact & _).
    exists u1. simpl. rewrite Hrole, Hact. repeat split. exact Hrows.
  - intros regex c c' resp HR.
    destruct (Register_cases (repo.NewUserMongoRepository regex) bc c now req)
      as [[err H]|(digest & _ & _ & _ & H)]; [congruence|].
    rewrite H in HR. unfold respond in HR. cbn [Create repo.NewUserMongoRepository] in HR.
    destruct (repo.mongo_Create c now _) as [[c1 u1] [e|]] eqn:Hc; [discriminate|].
    inversion HR; subst.
    pose proof Hc as Hu.
    apply mongo_Create_ok in Hc as (d & Hdocs & Hrole & Hact & _).
    exists d. split; [exact Hdocs|]. split; [exact Hrole|]. split; [exact Hact|].
    unfold repo.mongo_Create in Hu.
    destruct (mongo.InsertOne c now _) as [c2 [[]|err]]; simpl in Hu;
      try (inversion Hu; subst; split; reflexivity).
    destruct (mongo.IsDuplicateKeyError err); discriminate.
Qed.

(** C8 on the sample table: a request for the role [root] stores a user
    with role [user], active. *)
Lemma Register_role_active_witness :
  exists t' resp,
    service.Register samples.gormRepo samples.bcrypt (samples.table [samples.alice]) 7000
      {| create_Email := " Carol@Example.com"; create_Password := "correct horse";
         create_Name := "Carol C"; create_Role := "root" |}
    = (t', Ok resp)
    /\ exists u, memdb.rows t' = [samples.alice; u]
                 /\ Role u = "user" /\ Active u = true /\ Email u = "carol@example.com".
Proof.
  eexists. eexists. split; [vm_compute; reflexivity|].
  destruct (Register_role_active samples.bcrypt 7000
              {| create_Email := " Carol@Example.com"; create_Password := "correct horse";
                 create_Name := "Carol C"; create_Role := "root" |})
    as (_ & _ & _ & _ & H & _).
  edestruct (H samples.ilike (samples.table [samples.alice])) as (u & Hrows & Hrole & Hact & _).
  { vm_compute. reflexivity. }
  eexists. split; [reflexivity|]. repeat split.
Defined.

(** ** Normalized emails *)

Lemma isSpace_toLowerByte (c : ascii) :
  gostrings.isSpace (gostrings.toLowerByte c) = gostrings.isSpace c.
Proof. destruct c as [[] [] [] [] [] [] [] []]; reflexivity. Qed.

Lemma toLowerByte_idem (c : ascii) :
  gostrings.toLowerByte (gostrings.toLowerByte c) = gostrings.toLowerByte c.
Proof. destruct c as [[] [] [] [] [] [] [] []]; reflexivity. Qed.

Lemma ToLower_idem (s : string) :
  gostrings.ToLower (gostrings.ToLower s) = gostrings.ToLower s.
Proof.
  induction s as [|c r IH]; simpl; [reflexivity|].
  rewrite toLowerByte_idem, IH. reflexivity.
Qed.

Lemma TrimLeft_ToLower (s : string) :
  gostrings.TrimLeft (gostrings.ToLower s) = gostrings.ToLower (gostrings.TrimLeft s).
Proof.
  induction s as [|c r IH]; simpl; [reflexivity|].
  rewrite isSpace_toLowerByte. destruct (gostrings.isSpace c); [exact IH|reflexivity].
Qed.

Lemma TrimRight_ToLower (s : string) :
  gostrings.TrimRight (gostrings.ToLower s) = gostrings.ToLower (gostrings.TrimRight s).
Proof.
  induction s as [|c r IH]; simpl; [reflexivity|].
  rewrite IH, isSpace_toLowerByte.
  destruct (gostrings.TrimRight r); simpl; [|reflexivity].
  destruct (gostrings.isSpace c); reflexivity.
Qed.

Lemma TrimRight_idem (s : string) :
  gostrings.TrimRight (gostrings.TrimRight s) = gostrings.TrimRight s.
Proof.
  induction s as [|c r IH]; simpl; [reflexivity|].
  destruct (gostrings.TrimRight r) as [|c' r'] eqn:Hr.
  - destruct (gostrings.isSpace c) eqn:Hc; simpl; [reflexivity|].
    rewrite Hc. reflexivity.
  - simpl in IH |- *. rewrite IH. reflexivity.
Qed.

(** A string trimmed on the left is empty or starts with no space, and
    trimming it on the right keeps that. *)
Lemma TrimLeft_TrimRight_TrimLeft (s : string) :
  gostrings.TrimLeft (gostrings.TrimRight (gostrings.TrimLeft s))
  = gostrings.TrimRight (gostrings.TrimLeft s).
Proof.
  induction s as [|c r IH]; simpl; [reflexivity|].
  destruct (gostrings.isSpace c) eqn:Hc; [exact IH|].
  simpl. destruct (gostrings.TrimRight r); rewrite ?Hc; simpl; rewrite Hc; reflexivity.
Qed.

Lemma TrimSpace_idem (s : string) :
  gostrings.TrimSpace (gostrings.TrimSpace s) = gostrings.TrimSpace s.
Proof.
  unfold gostrings.TrimSpace. rewrite TrimLeft_TrimRight_TrimLeft. apply TrimRight_idem.
Qed.

Lemma normalize_idem (email : string) : normalize (normalize email) = normalize email.
Proof.
  unfold normalize, gostrings.TrimSpace.
  rewrite TrimLeft_ToLower, TrimRight_ToLower, ToLower_idem.
  fold (gostrings.TrimSpace (gostrings.TrimRight (gostrings.TrimLeft email))).
  fold (gostrings.TrimSpace email). rewrite TrimSpace_idem. reflexivity.
Qed.

Lemma memdb_Create_err ilike (t t' : memdb.Table) now (user user' : User) e :
  repo.gorm_Create (memdb.engine ilike) t now user = (t', user', Some e) -> t' = t.
Proof.
  unfold repo.gorm_Create. cbn [gorm.db_Create memdb.engine].
  destruct (memdb.Create t now user) as [[t1 u1] res] eqn:Hc.
  assert (Hsame : gorm.res_Error res <> None -> t1 = t).
  { revert Hc. unfold memdb.Create. destruct (memdb.fault t).
    { intros Hc _. inversion Hc; reflexivity. }
    destruct (existsb _ (memdb.rows t)).
    { intros Hc _. inversion Hc; reflexivity. }
    destruct (existsb _ (memdb.rows t)).
    { intros Hc _. inversion Hc; reflexivity. }
    intros Hc Hres. inversion Hc; subst. exfalso. apply Hres. reflexivity. }
  destruct (gorm.res_Error res) as [err|].
  - destruct (repo.isUniqueConstraintError (Some err)); intros H; inversion H; subst;
      apply Hsame; discriminate.
  - discriminate.
Qed.

(** [Register] keeps the emails of the relational store normalized: the
    hypothesis of C10 on the store holds for every store filled through
    [Register]. *)
Lemma Register_keeps_normalized ilike (bc : Bcrypt) (t t' : memdb.Table) now req r :
  (forall x, In x (memdb.rows t) -> Email x = normalize (Email x)) ->
  service.Register (repo.NewUserGormRepository (memdb.engine ilike)) bc t now req = (t', r) ->
  forall x, In x (memdb.rows t') -> Email x = normalize (Email x).
Proof.
  intros Hnorm HR.
  destruct (Register_cases (repo.NewUserGormRepository (memdb.engine ilike)) bc t now req)
    as [[err H]|(digest & _ & _ & _ & H)].
  - rewrite H in HR. inversion HR; subst. exact Hnorm.
  - rewrite H in HR. unfold respond in HR. cbn [Create repo.NewUserGormRepository] in HR.
    destruct (repo.gorm_Create _ t now _) as [[t1 u1] [e|]] eqn:Hc.
    + apply memdb_Create_err in Hc. inversion HR; subst. exact Hnorm.
    + inversion HR; subst.
      apply memdb_Create_ok in Hc as (Hrows & _ & _ & Hemail).
      intros x Hx. rewrite Hrows in Hx. apply in_app_or in Hx as [Hx|[<-|[]]].
      * apply Hnorm, Hx.
      * rewrite Hemail. cbn [registered Email]. symmetry. apply normalize_idem.
Qed.

(** ** The duplicate check of [Register] *)

Lemma filter_nil {A} (p : A -> bool) (l : list A) :
  (forall x, In x l -> p x = false) -> List.filter p l = [].
Proof.
  induction l as [|x r IH]; simpl; intros H; [reflexivity|].
  rewrite (H x) by auto. apply IH. auto.
Qed.

Lemma mongo_Create_err (c c' : mongo.Collection) now (user user' : User) e :
  repo.mongo_Create c now user = (c', user', Some e) -> c' = c.
Proof.
  unfold repo.mongo_Create, mongo.InsertOne.
  destruct (mongo.fault c) as [err|].
  { destruct (mongo.IsDuplicateKeyError err); intros H; inversion H; reflexivity. }
  destruct (existsb _ (mongo.docs c)).
  { intros H; inversion H; reflexivity. }
  destruct (existsb _ (mongo.docs c)).
  { intros H; inversion H; reflexivity. }
  match goal with |- context [match ?id with mongo.VObjectID _ => _ | _ => _ end] =>
    destruct id end; discriminate.
Qed.

(** [Register] keeps the emails of the document store normalized. *)
Lemma Register_keeps_normalized_mongo regex (bc : Bcrypt) (c c' : mongo.Collection) now req r :
  (forall d e, In d (mongo.docs c) -> d !! "email" = Some (mongo.VString e) ->
               e = normalize e) ->
  service.Register (repo.NewUserMongoRepository regex) bc c now req = (c', r) ->
  forall d e, In d (mongo.docs c') -> d !! "email" = Some (mongo.VString e) ->
              e = normalize e.
Proof.
  intros Hnorm HR.
  destruct (Register_cases (repo.NewUserMongoRepository regex) bc c now req)
    as [[err H]|(digest & _ & _ & _ & H)].
  - rewrite H in HR. inversion HR; subst. exact Hnorm.
  - rewrite H in HR. unfold respond in HR. cbn [Create repo.NewUserMongoRepository] in HR.
    destruct (repo.mongo_Create c now _) as [[c1 u1] [e|]] eqn:Hc.
    + apply mongo_Create_err in Hc. inversion HR; subst. exact Hnorm.
    + inversion HR; subst.
      apply mongo_Create_ok in Hc as (d0 & Hdocs & _ & _ & Hemail).
      intros d e Hd He. rewrite Hdocs in Hd. apply in_app_or in Hd as [Hd|[<-|[]]].
      * exact (Hnorm _ _ Hd He).
      * rewrite Hemail in He. inversion He. cbn [registered Email].
        symmetry. apply normalize_idem.
Qed.

(** C10.  [Register] looks the user up under the email as the caller wrote
    it and stores it normalized.  So, in a store whose emails are all
    normalized (as [Register] writes them), for a valid request whose email
    is not in normalized form while its normalized form is taken: the
    lookup of the pre-check finds nothing although the lookup under the
    normalized email finds the user; [Create] of any user with the
    normalized email is refused with [ErrUserExists] by the unique index of
    the store; and [Register], unless hashing the password fails, returns
    that refusal of [Create] (on the relational and on the document
    variant), leaving the store as it was. *)
Theorem Register_precheck_misses_normalized_duplicate :
  forall (bc : Bcrypt) (now : time.Time) (req : UserCreateRequest),
    service.validateCreateRequest req = None ->
    create_Email req <> normalize (create_Email req) ->
    (forall digest, Email (registered req now digest) = normalize (create_Email req))
    /\ (forall ilike (t : memdb.Table),
          let userRepo := repo.NewUserGormRepository (memdb.engine ilike) in
          memdb.fault t = None ->
          (forall r, In r (memdb.rows t) -> Email r = normalize (Email r)) ->
          (exists r, In r (memdb.rows t) /\ Email r = normalize (create_Email req)) ->
          GetByEmail userRepo t (create_Email req) = Err ErrUserNotFound
          /\ (exists r, GetByEmail userRepo t (normalize (create_Email req)) = Ok r)
          /\ (forall user, Email user = normalize (create_Email req) ->
                gorm.res_Error (snd (memdb.Create t now user))
                = Some (memdb.uniqueViolation (memdb.dialect t) "users.email")
                /\ Create userRepo t now user = (t, user, Some ErrUserExists))
          /\ service.Register userRepo bc t now req
             = (t, match GenerateFromPassword bc (create_Password req) with
                   | Ok _ => Err ErrUserExists
                   | Err err => Err (WrapError err ErrCodeInternal "Failed to hash password")
                   end))
    /\ (forall regex (c : mongo.Collection),
          let userRepo := repo.NewUserMongoRepository regex in
          mongo.fault c = None ->
          (forall d e, In d (mongo.docs c) -> d !! "email" = Some (mongo.VString e) ->
                       e = normalize e) ->
          (exists d, In d (mongo.docs c)
                     /\ d !! "email" = Some (mongo.VString (normalize (create_Email req)))) ->
          GetByEmail userRepo c (create_Email req) = Err ErrUserNotFound
          /\ (forall user, Email user = normalize (create_Email req) ->
                Create userRepo c now user = (c, user, Some ErrUserExists))
          /\ service.Register userRepo bc c now req
             = (c, match GenerateFromPassword bc (create_Password req) with
                   | Ok _ => Err ErrUserExists
                   | Err err => Err (WrapError err ErrCodeInternal "Failed to hash password")
                   end)).
Proof.
  intros bc now req Hvalid Hraw.
  assert (Hhashfail : forall (S : Type) (userRepo : UserRepository S) (s : S) err,
             GetByEmail userRepo s (create_Email req) = Err ErrUserNotFound ->
             GenerateFromPassword bc (create_Password req) = Err err ->
             service.Register userRepo bc s now req
             = (s, Err (WrapError err ErrCodeInternal "Failed to hash password"))).
  { intros S userRepo s err Hget Hhash. unfold service.Register.
    rewrite Hvalid, Hget. cbn [isVar ErrUserNotFound negb].
    unfold HashPassword. cbn [Password]. rewrite Hhash. reflexivity. }
  split; [reflexivity|]. split.
  - intros ilike t userRepo Hfault Hnorm (r & Hr & Hemail).
    assert (Hget : GetByEmail userRepo t (create_Email req) = Err ErrUserNotFound).
    { unfold userRepo. cbn [GetByEmail repo.NewUserGormRepository].
      unfold repo.gorm_GetByEmail. cbn [gorm.db_First memdb.engine].
      unfold memdb.First, memdb.select. rewrite Hfault.
      rewrite filter_nil; [reflexivity|].
      intros x Hx. cbn [memdb.holds]. apply String.eqb_neq. intros Heq.
      apply Hraw. rewrite <- Heq. apply Hnorm, Hx. }
    assert (Hraw' : forall user, Email user = normalize (create_Email req) ->
                    memdb.Create t now user
                    = (t, user,
                       memdb.failed (memdb.uniqueViolation (memdb.dialect t) "users.email"))).
    { intros user Huser. unfold memdb.Create. rewrite Hfault.
      assert (Hdup : existsb (fun x => String.eqb (Email x) (Email user)) (memdb.rows t)
                     = true).
      { apply List.existsb_exists. exists r. split; [exact Hr|].
        apply String.eqb_eq. congruence. }
      rewrite Hdup. reflexivity. }
    assert (Hcreate : forall user, Email user = normalize (create_Email req) ->
                      Create userRepo t now user = (t, user, Some ErrUserExists)).
    { intros user Huser. unfold userRepo. cbn [Create repo.NewUserGormRepository].
      unfold repo.gorm_Create. cbn [gorm.db_Create memdb.engine]. rewrite (Hraw' _ Huser).
      cbn [gorm.res_Error memdb.failed].
      destruct (repo_facts.uniqueViolation_classified (memdb.dialect t)) as [-> _].
      reflexivity. }
    split; [exact Hget|]. split; [|split].
    + unfold userRepo. cbn [GetByEmail repo.NewUserGormRepository].
      unfold repo.gorm_GetByEmail. cbn [gorm.db_First memdb.engine].
      unfold memdb.First, memdb.select. rewrite Hfault.
      destruct (List.filter _ (memdb.rows t)) as [|u l] eqn:Hf; [|eauto].
      exfalso. assert (Hin : In r (List.filter
                                     (memdb.holds ilike (gorm.EmailEq (normalize (create_Email req))))
                                     (memdb.rows t))).
      { apply List.filter_In. split; [exact Hr|]. cbn [memdb.holds].
        apply String.eqb_eq. exact Hemail. }
      rewrite Hf in Hin. exact Hin.
    + intros user Huser. split; [rewrite (Hraw' _ Huser); reflexivity|exact (Hcreate _ Huser)].
    + destruct (GenerateFromPassword bc (create_Password req)) as [digest|err] eqn:Hhash.
      * rewrite (Register_reaches_Create userRepo bc t now req digest Hvalid Hget Hhash).
        rewrite (Hcreate (registered req now digest) eq_refl). reflexivity.
      * exact (Hhashfail _ userRepo t err Hget eq_refl).
  - intros regex c userRepo Hfault Hnorm (d & Hd & Hemail).
    assert (Hget : GetByEmail userRepo c (create_Email req) = Err ErrUserNotFound).
    { unfold userRepo. cbn [GetByEmail repo.NewUserMongoRepository].
      unfold repo.mongo_GetByEmail, mongo.FindOne. rewrite Hfault.
      rewrite filter_nil; [reflexivity|].
      intros x Hx. cbn [mongo.matches].
      destruct (mongo.fieldIs regex x "email" (mongo.VString (create_Email req))) eqn:Hm;
        [|reflexivity].
      exfalso. apply repo_facts.fieldIs_string in Hm.
      apply Hraw. exact (Hnorm _ _ Hx Hm). }
    assert (Hcreate : forall user, Email user = normalize (create_Email req) ->
                      Create userRepo c now user = (c, user, Some ErrUserExists)).
    { intros user Huser. unfold userRepo. cbn [Create repo.NewUserMongoRepository].
      unfold repo.mongo_Create, mongo.InsertOne. rewrite Hfault.
      set (m := {| repo.mu_ID := _ |}).
      set (id := match repo.encode m !! "_id" with Some v => v | None => _ end).
      destruct (existsb (mongo.collide "_id" _) (mongo.docs c)); [reflexivity|].
      assert (Hdup : existsb (mongo.collide "email" (<["_id" := id]> (repo.encode m)))
                       (mongo.docs c) = true).
      { apply List.existsb_exists. exists d. split; [exact Hd|].
        unfold mongo.collide. rewrite lookup_insert_ne by discriminate.
        destruct (encode_fields m) as (_ & _ & ->). rewrite Hemail.
        cbn [mongo.option_value_eqb mongo.value_eqb]. apply String.eqb_eq.
        unfold m. cbn [repo.mu_Email repo.fromDomainUser]. exact Huser. }
      rewrite Hdup. reflexivity. }
    split; [exact Hget|]. split; [exact Hcreate|].
    destruct (GenerateFromPassword bc (create_Password req)) as [digest|err] eqn:Hhash.
    + rewrite (Register_reaches_Create userRepo bc c now req digest Hvalid Hget Hhash).
      rewrite (Hcreate (registered req now digest) eq_refl). reflexivity.
    + exact (Hhashfail _ userRepo c err Hget eq_refl).
Qed.

(** C10 on the samples: Alice is registered; a request for
    [ Alice@Example.com] passes the pre-check and is refused by [Create], on
    both variants. *)
Lemma Register_precheck_witness :
  let req := {| create_Email := " Alice@Example.com"; create_Password := "another password";
                create_Name := "Alice Again"; create_Role := "" |} in
  let t := samples.table [samples.alice; samples.bob] in
  let c := stores.collectionOf 0 samples.population in
  GetByEmail samples.gormRepo t (create_Email req) = Err ErrUserNotFound
  /\ service.Register samples.gormRepo samples.bcrypt t 7000 req = (t, Err ErrUserExists)
  /\ GetByEmail samples.mongoRepo c (create_Email req) = Err ErrUserNotFound
  /\ service.Register samples.mongoRepo samples.bcrypt c 7000 req = (c, Err ErrUserExists).
Proof.
  cbv zeta.
  destruct (Register_precheck_misses_normalized_duplicate samples.bcrypt 7000
              {| create_Email := " Alice@Example.com"; create_Password := "another password";
                 create_Name := "Alice Again"; create_Role := "" |}
              eq_refl)
    as (_ & Hgorm & Hmongo).
  { intros H. vm_compute in H. discriminate H. }
  destruct (Hgorm samples.ilike (samples.table [samples.alice; samples.bob]) eq_refl)
    as (Hget & _ & _ & Hreg).
  { intros r [<-|[<-|[]]]; reflexivity. }
  { exists samples.alice. split; [left; reflexivity|reflexivity]. }
  destruct (Hmongo samples.regex (stores.collectionOf 0 samples.population) eq_refl)
    as (Hget' & _ & Hreg').
  { intros d e [<-|[<-|[]]] H; vm_compute in H; inversion H; reflexivity. }
  { eexists. split; [left; reflexivity|]. reflexivity. }
  split; [exact Hget|]. split; [exact Hreg|]. split; [exact Hget'|exact Hreg'].
Defined.

End service_facts.
(* ================================================================== *)
(** * Properties of the migration runner *)
(* ================================================================== *)

Module migration_facts.
Import domain migration notions.

(** ** Order of versions *)

Lemma ltb_asym (a b : string) : String.ltb a b = true -> String.ltb b a = false.
Proof.
  unfold String.ltb. rewrite (String.compare_antisym b a).
  destruct (String.compare a b); simpl; congruence.
Qed.

Lemma not_ltb_leb (a b : string) : String.ltb b a = false -> String.leb a b = true.
Proof.
  unfold String.ltb, String.leb. rewrite (String.compare_antisym b a).
  destruct (String.compare a b); simpl; congruence.
Qed.

Lemma Sorted_map {A B} (R : A -> A -> Prop) (Q : B -> B -> Prop) (f : A -> B) (l : list A) :
  (forall x y, R x y -> Q (f x) (f y)) -> Sorted R l -> Sorted Q (map f l).
Proof.
  intros HRQ. induction 1 as [|x r Hs IH Hhd]; simpl; constructor; [exact IH|].
  destruct Hhd; simpl; constructor. auto.
Qed.

Lemma Sorted_firstn {A} (R : A -> A -> Prop) (k : nat) (l : list A) :
  Sorted R l -> Sorted R (firstn k l).
Proof.
  revert k. induction l as [|x r IH]; intros k Hs.
  - rewrite List.firstn_nil. constructor.
  - destruct k as [|k]; simpl; [constructor|].
    inversion Hs as [|? ? Hr Hhd]; subst. constructor; [apply IH, Hr|].
    destruct r as [|y r']; destruct k; simpl; constructor.
    inversion Hhd; assumption.
Qed.

Section Runner.
Context {Schema : Type}.
Implicit Types (c : Connection Schema) (l : list (Migration Schema)) (m : Migrator Schema).

(** The registered migrations, sorted: a permutation in ascending order. *)
Lemma sorted_versions l :
  Sorted version_le (map Version (gosort.Slice less l))
  /\ Permutation (gosort.Slice less l) l.
Proof.
  split; [|apply sort_facts.Slice_Permutation].
  apply (Sorted_map (gosort.ordered less)).
  - intros x y H. apply not_ltb_leb. exact H.
  - apply sort_facts.Slice_Sorted. intros x y. apply ltb_asym.
Qed.

(** ** The map of executed versions *)

Lemma executed_fold (ledger : list MigrationRecord) (acc : gmap string bool) (v : string) :
  is_Some (fold_left (fun executed r => <[rec_version r := true]> executed) ledger acc !! v)
  <-> In v (versions ledger) \/ is_Some (acc !! v).
Proof.
  revert acc. induction ledger as [|r rest IH]; intros acc; simpl.
  - tauto.
  - rewrite IH. destruct (String.eqb_spec (rec_version r) v) as [->|Hne].
    + rewrite lookup_insert_eq. split; [intros _; left; left; reflexivity|].
      intros _. right. eauto.
    + rewrite lookup_insert_ne by exact Hne. tauto.
Qed.

Lemma executed_spec c executed (v : string) :
  getExecutedMigrations c = Ok executed ->
  is_Some (executed !! v) <-> In v (versions (ledger c)).
Proof.
  unfold getExecutedMigrations. destruct (GORM c || Mongo c); [|discriminate].
  intros H. inversion H; subst. rewrite executed_fold, lookup_empty.
  split; [intros [H'|[x Hx]]; [exact H'|discriminate]|auto].
Qed.

(** ** The loop *)

Lemma recordMigration_ok c now (migration : Migration Schema) c' :
  recordMigration c now migration = (c', None) ->
  versions (ledger c') = (versions (ledger c) ++ [Version migration])%list
  /\ ~ In (Version migration) (versions (ledger c))
  /\ GORM c' = GORM c /\ Mongo c' = Mongo c /\ schema c' = schema c.
Proof.
  unfold recordMigration. destruct (GORM c || Mongo c); [|discriminate].
  destruct (existsb _ (ledger c)) eqn:Hex; [discriminate|].
  intros H. inversion H; subst. simpl. unfold versions. rewrite map_app. simpl.
  split; [reflexivity|]. split; [|auto].
  intros Hin. apply List.in_map_iff in Hin as (r & Hr & Hin).
  assert (Ht : existsb (fun r => String.eqb (rec_version r) (Version migration)) (ledger c)
               = true).
  { apply List.existsb_exists. exists r. split; [exact Hin|]. apply String.eqb_eq, Hr. }
  congruence.
Qed.

Lemma recordMigration_err c now (migration : Migration Schema) c' err :
  recordMigration c now migration = (c', Some err) -> c' = c.
Proof.
  unfold recordMigration. destruct (GORM c || Mongo c).
  - destruct (existsb _ (ledger c)); intros H; inversion H; reflexivity.
  - intros H; inversion H; reflexivity.
Qed.

(** What any run of the loop leaves: the ledger grows by the versions shown
    as completed, keeps its key, and the handles stay. *)
Lemma runPending_ledger executed now l : forall c c' log err,
  runPending executed c now l = (c', log, err) ->
  versions (ledger c') = (versions (ledger c) ++ concat (map completed log))%list
  /\ (List.NoDup (versions (ledger c)) -> List.NoDup (versions (ledger c')))
  /\ GORM c' = GORM c /\ Mongo c' = Mongo c.
Proof.
  induction l as [|mig rest IH]; simpl; intros c c' log err H.
  - inversion H; subst. simpl. rewrite app_nil_r. auto.
  - destruct (executed !! Version mig).
    + destruct (runPending executed c now rest) as [[c1 log1] err1] eqn:Hrest.
      inversion H; subst. simpl. apply (IH _ _ _ _ Hrest).
    + destruct (Up mig (schema c)) as [s1 [e|]].
      * inversion H; subst. simpl. rewrite app_nil_r. auto.
      * destruct (recordMigration (with_schema c s1) now mig) as [c2 [e|]] eqn:Hrec.
        -- apply recordMigration_err in Hrec. inversion H; subst. simpl.
           rewrite app_nil_r. auto.
        -- destruct (runPending executed c2 now rest) as [[c3 log3] err3] eqn:Hrest.
           inversion H; subst. simpl.
           apply recordMigration_ok in Hrec as (Hv & Hfresh & Hg & Hm & _).
           destruct (IH _ _ _ _ Hrest) as (Hv3 & Hnd & Hg3 & Hm3).
           simpl in Hv, Hfresh, Hg, Hm.
           split; [|split; [|split; congruence]].
           ++ rewrite Hv3, Hv, <- List.app_assoc. reflexivity.
           ++ intros Hc. apply Hnd. rewrite Hv.
              apply List.NoDup_app; [exact Hc| |].
              { constructor; [intros []|constructor]. }
              { intros x Hx [<-|[]]. exact (Hfresh Hx). }
Qed.

(** The loop over a list in two parts. *)
Lemma runPending_app executed now pre rest : forall c,
  runPending executed c now (pre ++ rest)
  = let '(c1, log1, err1) := runPending executed c now pre in
    match err1 with
    | Some e => (c1, log1, Some e)
    | None =>
        let '(c2, log2, err2) := runPending executed c1 now rest in
        (c2, (log1 ++ log2)%list, err2)
    end.
Proof.
  induction pre as [|mig pre IH]; intros c; simpl.
  - destruct (runPending executed c now rest) as [[c2 log2] err2]. reflexivity.
  - destruct (executed !! Version mig).
    + rewrite IH. destruct (runPending executed c now pre) as [[c1 log1] [e|]];
        [reflexivity|].
      destruct (runPending executed c1 now rest) as [[c2 log2] err2]. reflexivity.
    + destruct (Up mig (schema c)) as [s1 [e|]]; [reflexivity|].
      destruct (recordMigration (with_schema c s1) now mig) as [c2 [e|]]; [reflexivity|].
      rewrite IH. destruct (runPending executed c2 now pre) as [[c1 log1] [e|]];
        [reflexivity|].
      destruct (runPending executed c1 now rest) as [[c3 log3] err3]. reflexivity.
Qed.

(** The versions the log shows as visited are a prefix, in order, of the
    versions of the list, all of them when the loop ends without error; a
    loop without error records every forward action it ran. *)
Lemma runPending_visited executed now l : forall c c' log err,
  runPending executed c now l = (c', log, err) ->
  (exists k, concat (map visited log) = firstn k (map Version l))
  /\ (err = None -> concat (map visited log) = map Version l
                    /\ concat (map ran log) = concat (map completed log)).
Proof.
  induction l as [|mig rest IH]; simpl; intros c c' log err H.
  - inversion H; subst. split; [exists 0%nat; reflexivity|auto].
  - destruct (executed !! Version mig).
    + destruct (runPending executed c now rest) as [[c1 log1] err1] eqn:Hrest.
      inversion H; subst. destruct (IH _ _ _ _ Hrest) as ([k Hk] & Hall). split.
      * exists (S k). simpl. rewrite Hk. reflexivity.
      * intros He. destruct (Hall He) as [Hv Hr]. simpl. rewrite Hv, Hr. auto.
    + destruct (Up mig (schema c)) as [s1 [e|]].
      * inversion H; subst. split; [exists 1%nat; simpl; rewrite List.firstn_O; reflexivity|].
        discriminate.
      * destruct (recordMigration (with_schema c s1) now mig) as [c2 [e|]].
        -- inversion H; subst.
           split; [exists 1%nat; simpl; rewrite List.firstn_O; reflexivity|]. discriminate.
        -- destruct (runPending executed c2 now rest) as [[c3 log3] err3] eqn:Hrest.
           inversion H; subst. destruct (IH _ _ _ _ Hrest) as ([k Hk] & Hall). split.
           ++ exists (S k). simpl. rewrite Hk. reflexivity.
           ++ intros He. destruct (Hall He) as [Hv Hr]. simpl. rewrite Hv, Hr. auto.
Qed.

Lemma tracking_available c executed :
  getExecutedMigrations c = Ok executed -> ensureMigrationTracking c = None.
Proof.
  unfold getExecutedMigrations, ensureMigrationTracking.
  destruct (GORM c), (Mongo c); simpl; intros H; try reflexivity; discriminate.
Qed.

Lemma tracking_executed c :
  ensureMigrationTracking c = None -> exists executed, getExecutedMigrations c = Ok executed.
Proof.
  unfold getExecutedMigrations, ensureMigrationTracking.
  destruct (GORM c), (Mongo c); simpl; intros H; try discriminate; eauto.
Qed.

(** C4.  Every run of [Migrate] works on the registered migrations sorted
    by version, a permutation of them in ascending byte-wise order, and the
    versions its log shows as visited are a prefix of that list, so it
    visits them in ascending order.  When the migrations before a pending
    one went through and its forward action fails, [Migrate] stops there:
    it returns the error wrapped with the failing version, the log ends
    with the start of that migration (nothing after it is visited), and the
    ledger is the one before the run followed by the versions whose forward
    action ran earlier in this run, all of them recorded; nothing is rolled
    back. *)
Theorem Migrate_order_and_abort :
  forall (m : Migrator Schema) (now : time.Time),
    Sorted version_le (map Version (gosort.Slice less (migrations m)))
    /\ Permutation (gosort.Slice less (migrations m)) (migrations m)
    /\ (let '(m', log, err) := Migrate m now in
        migrations m' = gosort.Slice less (migrations m)
        /\ (exists k, concat (map visited log)
                      = firstn k (map Version (gosort.Slice less (migrations m))))
        /\ Sorted version_le (concat (map visited log)))
    /\ (forall executed pre mig post c1 log1 s1 cause,
          getExecutedMigrations (db m) = Ok executed ->
          gosort.Slice less (migrations m) = (pre ++ mig :: post)%list ->
          runPending executed (db m) now pre = (c1, log1, None) ->
          executed !! Version mig = None ->
          Up mig (schema c1) = (s1, Some cause) ->
          Migrate m now
          = ({| db := with_schema c1 s1; migrations := (pre ++ mig :: post)%list |},
             (log1 ++ [Running (Version mig) (Description mig)])%list,
             Some (failedUp (Version mig) cause))
          /\ concat (map visited (log1 ++ [Running (Version mig) (Description mig)]))
             = (map Version pre ++ [Version mig])%list
          /\ versions (ledger (with_schema c1 s1))
             = (versions (ledger (db m)) ++ concat (map ran log1))%list
          /\ concat (map ran log1) = concat (map completed log1)).
Proof.
  intros m now.
  destruct (sorted_versions (migrations m)) as [Hsorted Hperm].
  split; [exact Hsorted|]. split; [exact Hperm|]. split.
  - unfold Migrate.
    destruct (ensureMigrationTracking (db m)) as [err|].
    { simpl. split; [reflexivity|]. split; [exists 0%nat; reflexivity|constructor]. }
    destruct (getExecutedMigrations (db m)) as [executed|err].
    2:{ simpl. split; [reflexivity|]. split; [exists 0%nat; reflexivity|constructor]. }
    destruct (runPending executed (db m) now (gosort.Slice less (migrations m)))
      as [[c' log] err] eqn:Hrun.
    simpl. split; [reflexivity|].
    destruct (runPending_visited _ _ _ _ _ _ _ Hrun) as ([k Hk] & _).
    split; [exists k; exact Hk|]. rewrite Hk. apply Sorted_firstn. exact Hsorted.
  - intros executed pre mig post c1 log1 s1 cause Hexec Hsplit Hpre Hpending Hup.
    destruct (runPending_visited _ _ _ _ _ _ _ Hpre) as (_ & Hall).
    destruct (Hall eq_refl) as [Hvisited Hran].
    destruct (runPending_ledger _ _ _ _ _ _ _ Hpre) as (Hledger & _).
    split; [|split; [|split]].
    + unfold Migrate. rewrite (tracking_available _ _ Hexec), Hexec, Hsplit.
      rewrite runPending_app, Hpre. simpl. rewrite Hpending, Hup. reflexivity.
    + rewrite map_app, concat_app, Hvisited. simpl. reflexivity.
    + simpl. rewrite Hledger, Hran. reflexivity.
    + exact Hran.
Qed.

(** ** Running twice *)

Lemma runPending_skips executed now l : forall c,
  (forall mig, In mig l -> is_Some (executed !! Version mig)) ->
  exists log, runPending executed c now l = (c, log, None) /\ concat (map ran log) = [].
Proof.
  induction l as [|mig rest IH]; simpl; intros c Hall.
  - exists []. auto.
  - destruct (Hall mig (or_introl eq_refl)) as [b Hb]. rewrite Hb.
    destruct (IH c) as (log & Hlog & Hran); [auto|].
    rewrite Hlog. eexists. split; [reflexivity|]. simpl. exact Hran.
Qed.

(** After a loop without error every version of the list is in the ledger,
    if the executed ones were. *)
Lemma runPending_covers executed now l : forall c c' log,
  runPending executed c now l = (c', log, None) ->
  (forall v, is_Some (executed !! v) -> In v (versions (ledger c))) ->
  forall mig, In mig l -> In (Version mig) (versions (ledger c')).
Proof.
  induction l as [|mig rest IH]; simpl; intros c c' log H Hexec x Hx; [contradiction|].
  destruct (executed !! Version mig) eqn:Hlook.
  - destruct (runPending executed c now rest) as [[c1 log1] err1] eqn:Hrest.
    inversion H; subst. destruct Hx as [<-|Hx].
    + destruct (runPending_ledger _ _ _ _ _ _ _ Hrest) as (Hv & _).
      rewrite Hv. apply in_or_app. left. apply Hexec. rewrite Hlook. eauto.
    + eapply IH; eauto.
  - destruct (Up mig (schema c)) as [s1 [e|]]; [discriminate|].
    destruct (recordMigration (with_schema c s1) now mig) as [c2 [e|]] eqn:Hrec;
      [discriminate|].
    destruct (runPending executed c2 now rest) as [[c3 log3] err3] eqn:Hrest.
    inversion H; subst.
    apply recordMigration_ok in Hrec as (Hv2 & _). simpl in Hv2.
    destruct Hx as [<-|Hx].
    + destruct (runPending_ledger _ _ _ _ _ _ _ Hrest) as (Hv & _).
      rewrite Hv, Hv2. apply in_or_app. left. apply in_or_app. right. left. reflexivity.
    + eapply IH; [exact Hrest| |exact Hx].
      intros v Hv. rewrite Hv2. apply in_or_app. left. apply Hexec, Hv.
Qed.

(** C2 (as amended).  For every set of registered migrations and every
    ledger (whose versions are distinct, as its key demands): if a run of
    [Migrate] ends without error, then a second run ends without error,
    runs no forward action and leaves the database as it was, and the
    ledger holds the version of every registered migration exactly once. *)
Theorem Migrate_twice :
  forall (m m1 : Migrator Schema) (now1 now2 : time.Time) (log1 : list Event),
    List.NoDup (versions (ledger (db m))) ->
    Migrate m now1 = (m1, log1, None) ->
    let '(m2, log2, err2) := Migrate m1 now2 in
    err2 = None
    /\ concat (map ran log2) = []
    /\ db m2 = db m1
    /\ List.NoDup (versions (ledger (db m2)))
    /\ (forall mig, In mig (migrations m) ->
                    count_occ string_dec (versions (ledger (db m2))) (Version mig) = 1%nat).
Proof.
  intros m m1 now1 now2 log1 Hkey Hrun1.
  unfold Migrate in Hrun1.
  destruct (ensureMigrationTracking (db m)) as [e|] eqn:Hens; [discriminate|].
  destruct (getExecutedMigrations (db m)) as [executed|e] eqn:Hexec; [|discriminate].
  destruct (runPending executed (db m) now1 (gosort.Slice less (migrations m)))
    as [[c1 log] err] eqn:Hloop.
  inversion Hrun1; subst. clear Hrun1.
  destruct (runPending_ledger _ _ _ _ _ _ _ Hloop) as (_ & Hnodup & Hg & Hm).
  assert (Hcover : forall mig, In mig (migrations m) -> In (Version mig) (versions (ledger c1))).
  { intros mig Hmig. eapply runPending_covers; [exact Hloop| |].
    - intros v Hv. apply (executed_spec _ _ _ Hexec). exact Hv.
    - apply sort_facts.Slice_In. exact Hmig. }
  assert (Hens1 : ensureMigrationTracking c1 = None).
  { unfold ensureMigrationTracking in *. rewrite Hg, Hm. exact Hens. }
  destruct (tracking_executed _ Hens1) as [executed1 Hexec1].
  unfold Migrate. cbn [db migrations]. rewrite Hens1, Hexec1.
  destruct (runPending_skips executed1 now2
              (gosort.Slice less (gosort.Slice less (migrations m))) c1)
    as (log2 & Hloop2 & Hran2).
  { intros mig Hmig. apply (executed_spec _ _ _ Hexec1).
    apply Hcover. apply sort_facts.Slice_In in Hmig. apply sort_facts.Slice_In in Hmig.
    exact Hmig. }
  rewrite Hloop2. cbn [db]. split; [reflexivity|]. split; [exact Hran2|].
  split; [reflexivity|]. split; [apply Hnodup, Hkey|].
  intros mig Hmig. apply List.NoDup_count_occ'; [apply Hnodup, Hkey|apply Hcover, Hmig].
Qed.

End Runner.

(** C4 on the samples: registered as broken, avatar, users, the migrations
    run as users, avatar, broken; the run ends with the error of the broken
    one and the ledger holds the two versions applied before it. *)
Lemma Migrate_order_and_abort_witness :
  let run := Migrate (samples.migrator
                        [samples.broken; samples.addUserAvatar; samples.createUsers]) 1%Z in
  snd run = Some (failedUp "20240816000000" (Driver "syntax error"))
  /\ concat (map visited (snd (fst run)))
     = ["20240815120000"; "20240815130000"; "20240816000000"]
  /\ versions (ledger (db (fst (fst run)))) = ["20240815120000"; "20240815130000"].
Proof.
  cbv zeta.
  destruct (Migrate_order_and_abort
              (samples.migrator [samples.broken; samples.addUserAvatar; samples.createUsers])
              1%Z) as (_ & _ & _ & H).
  edestruct (H ∅ [samples.createUsers; samples.addUserAvatar] samples.broken [])
    as (Hrun & Hvisited & Hledger & _).
  - vm_compute. reflexivity.
  - vm_compute. reflexivity.
  - vm_compute. reflexivity.
  - vm_compute. reflexivity.
  - vm_compute. reflexivity.
  - rewrite Hrun. cbn [fst snd db]. rewrite Hvisited, Hledger.
    split; [reflexivity|]. split; reflexivity.
Defined.

(** C2, the claim as stated fails when a forward action fails: after two
    runs over the broken migration the ledger does not hold its version,
    and the second run ran its forward action again. *)
Lemma Migrate_twice_after_failure :
  Migrate (samples.migrator [samples.broken]) 1%Z
  = (samples.migrator [samples.broken], [Running "20240816000000" "Add index"],
     Some (failedUp "20240816000000" (Driver "syntax error")))
  /\ Migrate (samples.migrator [samples.broken]) 2%Z
     = (samples.migrator [samples.broken], [Running "20240816000000" "Add index"],
        Some (failedUp "20240816000000" (Driver "syntax error")))
  /\ concat (map ran [Running "20240816000000" "Add index"]) = ["20240816000000"]
  /\ count_occ string_dec
       (versions (ledger (db (samples.migrator [samples.broken]))))
       (Version samples.broken) = 0%nat.
Proof. repeat split. Qed.

(** The amended C2 on the samples: after a first run of the two good
    migrations, the second runs nothing and each version is in the ledger
    once. *)
Lemma Migrate_twice_witness :
  let first := Migrate (samples.migrator [samples.addUserAvatar; samples.createUsers]) 1%Z in
  let second := Migrate (fst (fst first)) 2%Z in
  snd first = None
  /\ snd second = None
  /\ concat (map ran (snd (fst second))) = []
  /\ count_occ string_dec (versions (ledger (db (fst (fst second)))))
       "20240815120000" = 1%nat
  /\ count_occ string_dec (versions (ledger (db (fst (fst second)))))
       "20240815130000" = 1%nat.
Proof.
  cbv zeta.
  destruct (Migrate (samples.migrator [samples.addUserAvatar; samples.createUsers]) 1%Z)
    as [[m1 log1] err1] eqn:Hfirst.
  assert (Herr : err1 = None).
  { vm_compute in Hfirst. inversion Hfirst. reflexivity. }
  subst err1.
  pose proof (Migrate_twice
                (samples.migrator [samples.addUserAvatar; samples.createUsers])
                m1 1%Z 2%Z log1 (List.NoDup_nil _) Hfirst) as H.
  cbn [fst snd].
  destruct (Migrate m1 2%Z) as [[m2 log2] err2].
  destruct H as (Herr2 & Hran & _ & _ & Hcount).
  cbn [fst snd]. split; [reflexivity|]. split; [exact Herr2|]. split; [exact Hran|].
  split.
  - apply (Hcount samples.createUsers). right. left. reflexivity.
  - apply (Hcount samples.addUserAvatar). left. reflexivity.
Defined.

End migration_facts.
(* ================================================================== *)
(** * The repositories on their stores *)
(* ================================================================== *)

Module store_facts.
Import domain notions.
Local Open Scope Z_scope.

Lemma repositoryError_NotFound : repositoryError ErrUserNotFound.
Proof. exists ErrCodeNotFound. split; [reflexivity|simpl; auto]. Qed.

Lemma repositoryError_Exists : repositoryError ErrUserExists.
Proof. exists ErrCodeAlreadyExists. split; [reflexivity|simpl; auto]. Qed.

Lemma repositoryError_wrapped err message :
  repositoryError (WrapError err ErrCodeDatabase message).
Proof. exists ErrCodeDatabase. split; [reflexivity|simpl; auto]. Qed.

Lemma repositoryError_new message : repositoryError (NewError ErrCodeNotFound message).
Proof. exists ErrCodeNotFound. split; [reflexivity|simpl; auto]. Qed.

Create HintDb repository.

#[local] Hint Resolve repositoryError_NotFound repositoryError_Exists
  repositoryError_wrapped repositoryError_new : repository.

(** Closes a goal [r = Err e -> repositoryError e] or
    [snd r = Some e -> repositoryError e] once [r] is a value. *)
Ltac repository_error :=
  let e := fresh "e" in
  let He := fresh "He" in
  intros e He; simpl in He; try discriminate;
  inversion He; subst; auto with repository.

(** X1.  Whatever the engine behind [*gorm.DB] answers, an error that
    leaves the relational repository is a domain error of kind NOT_FOUND,
    ALREADY_EXISTS or DATABASE_ERROR: no error of the driver gets through
    unwrapped. *)
Theorem gorm_errors_are_domain_errors :
  forall (T : Type) (db : gorm.DB T) (t : T) (now : time.Time) (user : User)
         (id offset limit : Z) (email query : string),
    let r := repo.NewUserGormRepository db in
    (forall e, snd (Create r t now user) = Some e -> repositoryError e)
    /\ (forall e, GetByID r t id = Err e -> repositoryError e)
    /\ (forall e, GetByEmail r t email = Err e -> repositoryError e)
    /\ (forall e, snd (Update r t now user) = Some e -> repositoryError e)
    /\ (forall e, snd (Delete r t id) = Some e -> repositoryError e)
    /\ (forall e, List r t offset limit = Err e -> repositoryError e)
    /\ (forall e, Search r t query offset limit = Err e -> repositoryError e).
Proof.
  intros T db t now user id offset limit email query r. subst r. simpl.
  split; [|split; [|split; [|split; [|split; [|split]]]]].
  - unfold repo.gorm_Create.
    destruct (gorm.db_Create db t now user) as [[t' user'] res].
    destruct (gorm.res_Error res) as [err|]; [|repository_error].
    destruct (repo.isUniqueConstraintError (Some err)); repository_error.
  - unfold repo.gorm_GetByID.
    destruct (gorm.db_First db t (gorm.PrimaryKey id)) as [u|err]; [repository_error|].
    destruct (errorsIs gorm_ErrRecordNotFound err); repository_error.
  - unfold repo.gorm_GetByEmail.
    destruct (gorm.db_First db t (gorm.EmailEq email)) as [u|err]; [repository_error|].
    destruct (errorsIs gorm_ErrRecordNotFound err); repository_error.
  - unfold repo.gorm_Update.
    destruct (gorm.db_Save db t now user) as [[t' user'] res].
    destruct (gorm.res_Error res) as [err|].
    + destruct (repo.isUniqueConstraintError (Some err)); repository_error.
    + destruct (gorm.RowsAffected res =? 0); repository_error.
  - unfold repo.gorm_Delete.
    destruct (gorm.db_Delete db t (gorm.PrimaryKey id)) as [t' res].
    destruct (gorm.res_Error res) as [err|]; [repository_error|].
    destruct (gorm.RowsAffected res =? 0); repository_error.
  - unfold repo.gorm_List.
    destruct (gorm.db_Count db t gorm.All) as [total|err]; [|repository_error].
    destruct (gorm.db_Find db t gorm.All offset limit) as [users|err]; repository_error.
  - unfold repo.gorm_Search.
    destruct (gorm.db_Count db t _) as [total|err]; [|repository_error].
    destruct (gorm.db_Find db t _ offset limit) as [users|err]; repository_error.
Qed.

(** X2.  The same for the document repository, whatever the state of the
    collection and of the connection: every error it returns is a domain
    error of kind NOT_FOUND, ALREADY_EXISTS or DATABASE_ERROR. *)
Theorem mongo_errors_are_domain_errors :
  forall regex (c : mongo.Collection) (now : time.Time) (user : User)
         (id offset limit : Z) (email query : string),
    let r := repo.NewUserMongoRepository regex in
    (forall e, snd (Create r c now user) = Some e -> repositoryError e)
    /\ (forall e, GetByID r c id = Err e -> repositoryError e)
    /\ (forall e, GetByEmail r c email = Err e -> repositoryError e)
    /\ (forall e, snd (Update r c now user) = Some e -> repositoryError e)
    /\ (forall e, snd (Delete r c id) = Some e -> repositoryError e)
    /\ (forall e, List r c offset limit = Err e -> repositoryError e)
    /\ (forall e, Search r c query offset limit = Err e -> repositoryError e).
Proof.
  intros regex c now user id offset limit email query r. subst r. simpl.
  split; [|split; [|split; [|split; [|split; [|split]]]]].
  - unfold repo.mongo_Create.
    destruct (mongo.InsertOne c now _) as [c' [insertedID|err]].
    + destruct insertedID; repository_error.
    + destruct (mongo.IsDuplicateKeyError err); repository_error.
  - unfold repo.mongo_GetByID. repository_error.
  - unfold repo.mongo_GetByEmail.
    destruct (repo.bind _ repo.decode) as [m|err]; [repository_error|].
    destruct (isLib mongo_ErrNoDocuments err); repository_error.
  - unfold repo.mongo_Update.
    destruct (mongo.UpdateOne regex c _ _) as [c' [matched|err]]; [|repository_error].
    destruct (matched =? 0); repository_error.
  - unfold repo.mongo_Delete. repository_error.
  - unfold repo.mongo_List.
    destruct (mongo.CountDocuments regex c _) as [total|err]; [|repository_error].
    destruct (mongo.Find regex c _ _) as [cursor|err]; [|repository_error].
    destruct (repo.decodeAll cursor) as [ms|err]; repository_error.
  - unfold repo.mongo_Search.
    destruct (mongo.CountDocuments regex c _) as [total|err]; [|repository_error].
    destruct (mongo.Find regex c _ _) as [cursor|err]; [|repository_error].
    destruct (repo.decodeAll cursor) as [ms|err]; repository_error.
Qed.

(** ** The relational repository on the reference engine *)

Lemma memdb_Create_inv ilike (t t' : memdb.Table) now (user user' : User) :
  repo.gorm_Create (memdb.engine ilike) t now user = (t', user', None) ->
  memdb.fault t = None
  /\ existsb (fun r => String.eqb (Email r) (Email user)) (memdb.rows t) = false
  /\ existsb (fun r => ID r =? ID user') (memdb.rows t) = false
  /\ ID user' = (if ID user =? 0 then memdb.next_id t else ID user)
  /\ Email user' = Email user /\ Password user' = Password user
  /\ Name user' = Name user /\ Role user' = Role user /\ Active user' = Active user
  /\ memdb.rows t' = (memdb.rows t ++ [user'])%list
  /\ memdb.fault t' = None.
Proof.
  unfold repo.gorm_Create. cbn [gorm.db_Create memdb.engine]. unfold memdb.Create.
  destruct (memdb.fault t) as [err|] eqn:Hfault.
  { cbn [memdb.failed gorm.res_Error].
    destruct (repo.isUniqueConstraintError (Some err)); discriminate. }
  destruct (repo_facts.uniqueViolation_classified (memdb.dialect t)) as [Hce Hci].
  destruct (existsb _ (memdb.rows t)) eqn:Hemail.
  { cbn [memdb.failed gorm.res_Error]. rewrite Hce. discriminate. }
  destruct (existsb (fun r => ID r =? _) (memdb.rows t)) eqn:Hid.
  { cbn [memdb.failed gorm.res_Error]. rewrite Hci. discriminate. }
  cbn. intros H. inversion H; subst. cbn.
  rewrite Hfault. repeat split; try reflexivity; assumption.
Qed.

Lemma existsb_false_filter {A} (p : A -> bool) (l : list A) :
  existsb p l = false -> List.filter p l = [].
Proof.
  induction l as [|x l IH]; simpl; [reflexivity|].
  destruct (p x); simpl; [discriminate|exact IH].
Qed.

Lemma existsb_pointwise {A} (p q : A -> bool) (l : list A) :
  (forall x, p x = q x) -> existsb p l = existsb q l.
Proof.
  intros Hpq. induction l as [|x l IH]; simpl; [reflexivity|].
  rewrite Hpq, IH. reflexivity.
Qed.

Lemma filter_hd_app {A} (p : A -> bool) (l r : list A) (x : A) (xs : list A) :
  List.filter p l = x :: xs -> List.filter p (l ++ r) = x :: (xs ++ List.filter p r)%list.
Proof. intros H. rewrite List.filter_app, H. reflexivity. Qed.

(** [First] on a table without fault is the first selected row. *)
Lemma gorm_GetByID_memdb ilike (t : memdb.Table) (id : Z) :
  memdb.fault t = None ->
  repo.gorm_GetByID (memdb.engine ilike) t id
  = match List.filter (fun r => ID r =? id) (memdb.rows t) with
    | [] => Err ErrUserNotFound
    | u :: _ => Ok u
    end.
Proof.
  intros Hfault. unfold repo.gorm_GetByID. cbn [gorm.db_First memdb.engine].
  unfold memdb.First, memdb.select. rewrite Hfault. cbn [memdb.holds].
  destruct (List.filter _ (memdb.rows t)); reflexivity.
Qed.

Lemma gorm_GetByEmail_memdb ilike (t : memdb.Table) (email : string) :
  memdb.fault t = None ->
  repo.gorm_GetByEmail (memdb.engine ilike) t email
  = match List.filter (fun r => String.eqb (Email r) email) (memdb.rows t) with
    | [] => Err ErrUserNotFound
    | u :: _ => Ok u
    end.
Proof.
  intros Hfault. unfold repo.gorm_GetByEmail. cbn [gorm.db_First memdb.engine].
  unfold memdb.First, memdb.select. rewrite Hfault. cbn [memdb.holds].
  destruct (List.filter _ (memdb.rows t)); reflexivity.
Qed.

(** A created user is found under its email and its identifier. *)
Lemma gorm_Create_found ilike (t t' : memdb.Table) now (user user' : User) :
  repo.gorm_Create (memdb.engine ilike) t now user = (t', user', None) ->
  repo.gorm_GetByEmail (memdb.engine ilike) t' (Email user) = Ok user'
  /\ repo.gorm_GetByID (memdb.engine ilike) t' (ID user') = Ok user'.
Proof.
  intros H. apply memdb_Create_inv in H.
  destruct H as (Hfault & Hemail & Hid & Hnew & HE & HP & HN & HR & HA & Hrows & Hfault').
  split.
  - rewrite gorm_GetByEmail_memdb by assumption.
    rewrite Hrows, List.filter_app, (existsb_false_filter _ _ Hemail).
    cbn. rewrite HE, String.eqb_refl. reflexivity.
  - rewrite gorm_GetByID_memdb by assumption.
    rewrite Hrows, List.filter_app, (existsb_false_filter _ _ Hid).
    cbn. rewrite Z.eqb_refl. reflexivity.
Qed.

(** X3.  On the reference engine, a user the relational repository has
    created (one that leaves no column to its default: a role given, and
    active, as those [Register] creates) is found again under its email and
    under the identifier [Create] reported, as the same account; the
    identifier is new in the table, and every user found before under an
    identifier is still found under it. *)
Theorem gorm_Create_then_Get :
  forall ilike (t t' : memdb.Table) (now : time.Time) (user user' : User),
    let r := repo.NewUserGormRepository (memdb.engine ilike) in
    Active user = true ->
    Role user <> "" ->
    Create r t now user = (t', user', None) ->
    GetByEmail r t' (Email user) = Ok user'
    /\ GetByID r t' (ID user') = Ok user'
    /\ sameAccount user' (set_ID user (ID user'))
    /\ (ID user <> 0 -> ID user' = ID user)
    /\ (forall u, In u (memdb.rows t) -> ID u <> ID user')
    /\ (forall id u, GetByID r t id = Ok u -> GetByID r t' id = Ok u).
Proof.
  intros ilike t t' now user user' r _ _ H. subst r. cbn in H |- *.
  destruct (gorm_Create_found _ _ _ _ _ _ H) as [Hbyemail Hbyid].
  apply memdb_Create_inv in H.
  destruct H as (Hfault & Hemail & Hid & Hnew & HE & HP & HN & HR & HA & Hrows & Hfault').
  split; [exact Hbyemail|]. split; [exact Hbyid|]. split; [|split; [|split]].
  - unfold sameAccount. cbn. auto 10.
  - intros Hnz. rewrite Hnew. destruct (ID user =? 0) eqn:Hz; [lia|reflexivity].
  - intros u Hu Heq.
    assert (Hex : existsb (fun r => ID r =? ID user') (memdb.rows t) = true).
    { apply existsb_exists. exists u. split; [assumption|]. apply Z.eqb_eq. exact Heq. }
    congruence.
  - intros id u. rewrite !gorm_GetByID_memdb by assumption. rewrite Hrows.
    destruct (List.filter _ (memdb.rows t)) as [|x xs] eqn:Hf; [discriminate|].
    rewrite (filter_hd_app _ _ _ _ _ Hf). auto.
Qed.

Lemma gorm_Create_then_Get_witness :
  let created :=
    Create samples.gormRepo (samples.table [samples.alice]) 7000 samples.carol in
  snd created = None
  /\ GetByEmail samples.gormRepo (fst (fst created)) "carol@example.com"
     = Ok (snd (fst created))
  /\ ID (snd (fst created)) = 3
  /\ GetByID samples.gormRepo (fst (fst created)) 3 = Ok (snd (fst created))
  /\ GetByID samples.gormRepo (fst (fst created)) 1 = Ok samples.alice.
Proof.
  intros created.
  assert (Hcreate : created = (fst (fst created), snd (fst created), None)).
  { vm_compute. reflexivity. }
  assert (Hid : ID (snd (fst created)) = 3) by (vm_compute; reflexivity).
  destruct (gorm_Create_then_Get samples.ilike (samples.table [samples.alice])
              (fst (fst created)) 7000 samples.carol (snd (fst created))
              eq_refl ltac:(discriminate) Hcreate)
    as (Hemail & Hget & _ & _ & _ & Hold).
  split; [vm_compute; reflexivity|]. split; [exact Hemail|]. split; [exact Hid|].
  split; [rewrite <- Hid at 1; exact Hget|].
  apply Hold. reflexivity.
Defined.

Lemma filter_negb_nil {A} (p : A -> bool) (l : list A) :
  List.filter p (List.filter (fun x => negb (p x)) l) = [].
Proof.
  induction l as [|x l IH]; simpl; [reflexivity|].
  destruct (p x) eqn:Hp; simpl; [exact IH|]. rewrite Hp. exact IH.
Qed.

Lemma filter_filter_other {A} (p q : A -> bool) (l : list A) :
  (forall x, p x = true -> q x = true) ->
  List.filter p (List.filter q l) = List.filter p l.
Proof.
  intros Hpq. induction l as [|x l IH]; simpl; [reflexivity|].
  destruct (q x) eqn:Hq; simpl.
  - rewrite IH. reflexivity.
  - destruct (p x) eqn:Hp; [|exact IH]. apply Hpq in Hp. congruence.
Qed.

Lemma filter_id {A} (p : A -> bool) (l : list A) :
  List.filter (fun x => negb (p x)) l = [] -> List.filter p l = l.
Proof.
  induction l as [|x l IH]; simpl; [reflexivity|].
  destruct (p x); simpl; [|discriminate]. intros H. rewrite IH by exact H. reflexivity.
Qed.

(** [Delete] on a table without fault. *)
Lemma gorm_Delete_memdb ilike (t : memdb.Table) (id : Z) :
  memdb.fault t = None ->
  repo.gorm_Delete (memdb.engine ilike) t id
  = (memdb.with_rows t (List.filter (fun r => negb (ID r =? id)) (memdb.rows t))
       (memdb.next_id t),
     match List.filter (fun r => ID r =? id) (memdb.rows t) with
     | [] => Some ErrUserNotFound
     | _ :: _ => None
     end).
Proof.
  intros Hfault. unfold repo.gorm_Delete. cbn [gorm.db_Delete memdb.engine].
  unfold memdb.Delete, memdb.select. rewrite Hfault.
  cbn [memdb.affected gorm.res_Error gorm.RowsAffected].
  change (memdb.holds ilike (gorm.PrimaryKey id)) with (fun r : User => ID r =? id).
  destruct (List.filter (fun r => ID r =? id) (memdb.rows t)); reflexivity.
Qed.

(** X4.  On the reference engine, [Delete] removes the rows under the
    identifier and no other: deleting a user that is found makes
    [GetByID] answer [ErrUserNotFound] for it, deleting one that is not
    found answers [ErrUserNotFound] and leaves the table as it was, and
    every other identifier is answered as before. *)
Theorem gorm_Delete_then_Get :
  forall ilike (t : memdb.Table) (id : Z),
    let r := repo.NewUserGormRepository (memdb.engine ilike) in
    memdb.fault t = None ->
    (GetByID r t id = Err ErrUserNotFound -> Delete r t id = (t, Some ErrUserNotFound))
    /\ (forall u, GetByID r t id = Ok u ->
          snd (Delete r t id) = None
          /\ GetByID r (fst (Delete r t id)) id = Err ErrUserNotFound)
    /\ (forall id', id' <> id ->
          GetByID r (fst (Delete r t id)) id' = GetByID r t id')
    /\ (forall u, In u (memdb.rows (fst (Delete r t id)))
                  <-> In u (memdb.rows t) /\ ID u <> id).
Proof.
  intros ilike t id r Hfault. subst r. cbn [GetByID Delete repo.NewUserGormRepository].
  rewrite gorm_Delete_memdb by assumption. cbn [fst snd].
  assert (Hfault' : forall l n, memdb.fault (memdb.with_rows t l n) = None).
  { intros l n. exact Hfault. }
  split; [|split; [|split]].
  - rewrite gorm_GetByID_memdb by assumption.
    destruct (List.filter (fun r => ID r =? id) (memdb.rows t)) as [|x xs] eqn:Hf;
      [|discriminate].
    intros _. f_equal. destruct t as [d rows n f]. unfold memdb.with_rows. cbn in *.
    f_equal. apply filter_id. rewrite <- Hf. apply List.filter_ext.
    intros a. apply negb_involutive.
  - intros u. rewrite !gorm_GetByID_memdb by auto. cbn [memdb.rows memdb.with_rows].
    rewrite filter_negb_nil.
    destruct (List.filter (fun r => ID r =? id) (memdb.rows t)); [discriminate|].
    intros _. split; reflexivity.
  - intros id' Hne. rewrite !gorm_GetByID_memdb by auto. cbn [memdb.rows memdb.with_rows].
    rewrite filter_filter_other; [reflexivity|].
    intros x Hx. apply Z.eqb_eq in Hx. apply negb_true_iff. apply Z.eqb_neq. lia.
  - intros u. cbn [memdb.rows memdb.with_rows]. rewrite List.filter_In.
    rewrite negb_true_iff, Z.eqb_neq. reflexivity.
Qed.

Lemma gorm_Delete_then_Get_witness :
  let t := samples.table [samples.alice; samples.bob] in
  snd (Delete samples.gormRepo t 1) = None
  /\ GetByID samples.gormRepo (fst (Delete samples.gormRepo t 1)) 1 = Err ErrUserNotFound
  /\ GetByID samples.gormRepo (fst (Delete samples.gormRepo t 1)) 2 = Ok samples.bob
  /\ Delete samples.gormRepo t 5 = (t, Some ErrUserNotFound).
Proof.
  cbv zeta.
  destruct (gorm_Delete_then_Get samples.ilike (samples.table [samples.alice; samples.bob])
              1 eq_refl) as (_ & Hfound & Hother & _).
  destruct (Hfound samples.alice eq_refl) as [Herr Hgone].
  split; [exact Herr|]. split; [exact Hgone|].
  split.
  - etransitivity; [apply (Hother 2); discriminate|reflexivity].
  - destruct (gorm_Delete_then_Get samples.ilike
                (samples.table [samples.alice; samples.bob]) 5 eq_refl) as (Hmissing & _).
    apply Hmissing. reflexivity.
Defined.

(** ** The document repository on its store *)

Lemma encode_id (m : repo.mongoUser) :
  repo.encode m !! "_id"
  = if mongo.IsZero (repo.mu_ID m) then None else Some (mongo.VObjectID (repo.mu_ID m)).
Proof. unfold repo.encode. destruct (mongo.IsZero (repo.mu_ID m)); reflexivity. Qed.

Lemma decode_with_id (m : repo.mongoUser) (oid : mongo.ObjectID) :
  repo.decode (<["_id" := mongo.VObjectID oid]> (repo.encode m))
  = Ok {| repo.mu_ID := oid; repo.mu_Email := repo.mu_Email m;
          repo.mu_Password := repo.mu_Password m; repo.mu_Name := repo.mu_Name m;
          repo.mu_Role := repo.mu_Role m; repo.mu_Active := repo.mu_Active m;
          repo.mu_CreatedAt := repo.mu_CreatedAt m;
          repo.mu_UpdatedAt := repo.mu_UpdatedAt m |}.
Proof. unfold repo.encode. destruct (mongo.IsZero (repo.mu_ID m)); reflexivity. Qed.

Lemma email_with_id (m : repo.mongoUser) (v : mongo.Value) :
  (<["_id" := v]> (repo.encode m) : mongo.M) !! "email"
  = Some (mongo.VString (repo.mu_Email m)).
Proof. unfold repo.encode. destruct (mongo.IsZero (repo.mu_ID m)); reflexivity. Qed.

(** What a successful [Create] has done. *)
Lemma mongo_Create_inv (c c' : mongo.Collection) now (user user' : User) :
  repo.mongo_Create c now user = (c', user', None) ->
  let oid := mongo.NewObjectID now (mongo.serial c) in
  exists d,
    mongo.fault c = None /\ mongo.fault c' = None
    /\ mongo.docs c' = (mongo.docs c ++ [d])%list
    /\ existsb (mongo.collide "email" d) (mongo.docs c) = false
    /\ d !! "email" = Some (mongo.VString (Email user))
    /\ repo.decode d
       = Ok {| repo.mu_ID := oid; repo.mu_Email := Email user;
               repo.mu_Password := Password user; repo.mu_Name := Name user;
               repo.mu_Role := Role user; repo.mu_Active := Active user;
               repo.mu_CreatedAt := now; repo.mu_UpdatedAt := now |}
    /\ user' = {| ID := mongo.TimestampUnix oid; Email := Email user;
                  Password := Password user; Name := Name user; Role := Role user;
                  Active := Active user; CreatedAt := now; UpdatedAt := now |}.
Proof.
  intros H oid. revert H.
  unfold repo.mongo_Create, mongo.InsertOne.
  destruct (mongo.fault c) as [err|] eqn:Hfault.
  { destruct (mongo.IsDuplicateKeyError err); discriminate. }
  set (m := {| repo.mu_ID := _ |}).
  assert (Hid : match repo.encode m !! "_id" with
                | Some v => v
                | None => mongo.VObjectID oid
                end = mongo.VObjectID oid).
  { rewrite encode_id. subst m. cbn [repo.mu_ID repo.fromDomainUser].
    destruct (ID user =? 0); cbn [negb]; [reflexivity|].
    fold oid. destruct (mongo.IsZero oid); reflexivity. }
  fold oid. rewrite Hid.
  destruct (existsb (mongo.collide "_id" _) (mongo.docs c)); [discriminate|].
  destruct (existsb (mongo.collide "email" _) (mongo.docs c)) eqn:Hemail; [discriminate|].
  intros H. inversion H; subst c' user'; clear H.
  exists (<["_id" := mongo.VObjectID oid]> (repo.encode m)).
  split; [reflexivity|]. split; [exact Hfault|]. split; [reflexivity|].
  split; [exact Hemail|]. split; [apply email_with_id|].
  split; [rewrite decode_with_id; reflexivity|reflexivity].
Qed.

Lemma option_value_eqb_sym (a b : option mongo.Value) :
  mongo.option_value_eqb a b = mongo.option_value_eqb b a.
Proof.
  destruct a as [v|], b as [w|]; try reflexivity. cbn.
  destruct v, w; try reflexivity; cbn.
  - apply String.eqb_sym.
  - destruct b, b0; reflexivity.
  - apply Z.eqb_sym.
  - unfold mongo.oid_eqb. rewrite (Z.eqb_sym (mongo.oid_seconds o)).
    rewrite (Z.eqb_sym (mongo.oid_tail o)). reflexivity.
  - rewrite (String.eqb_sym pattern). rewrite (String.eqb_sym options). reflexivity.
Qed.

(** An error of [Decode] is not the sentinel [ErrNoDocuments]. *)
Lemma decode_error_not_sentinel (d : mongo.M) (err : error) :
  repo.decode d = Err err -> isLib mongo_ErrNoDocuments err = false.
Proof.
  unfold repo.decode, repo.bind, repo.getObjectID, repo.getString, repo.getBool,
    repo.getTime.
  destruct (d !! "_id") as [[]|]; try (intros H; inversion H; reflexivity);
  destruct (d !! "email") as [[]|]; try (intros H; inversion H; reflexivity);
  destruct (d !! "password") as [[]|]; try (intros H; inversion H; reflexivity);
  destruct (d !! "name") as [[]|]; try (intros H; inversion H; reflexivity);
  destruct (d !! "role") as [[]|]; try (intros H; inversion H; reflexivity);
  destruct (d !! "active") as [[]|]; try (intros H; inversion H; reflexivity);
  destruct (d !! "created_at") as [[]|]; try (intros H; inversion H; reflexivity);
  destruct (d !! "updated_at") as [[]|]; intros H; inversion H; reflexivity.
Qed.

(** [FindOne] by email on a collection without fault. *)
Lemma mongo_GetByEmail_docs regex (c : mongo.Collection) (email : string) :
  mongo.fault c = None ->
  repo.mongo_GetByEmail regex c email
  = match List.filter (fun d => mongo.option_value_eqb (d !! "email")
                                  (Some (mongo.VString email))) (mongo.docs c) with
    | [] => Err ErrUserNotFound
    | d :: _ =>
        match repo.decode d with
        | Ok m => Ok (repo.toDomainUser m)
        | Err err => Err (WrapError err ErrCodeDatabase "Failed to get user by email")
        end
    end.
Proof.
  intros Hfault. unfold repo.mongo_GetByEmail, mongo.FindOne. rewrite Hfault.
  change (mongo.matches regex (mongo.FieldIs "email" (mongo.VString email)))
    with (fun d : mongo.M => mongo.option_value_eqb (d !! "email")
                               (Some (mongo.VString email))).
  destruct (List.filter _ (mongo.docs c)) as [|d ds]; [reflexivity|].
  cbn [repo.bind]. destruct (repo.decode d) as [m|err] eqn:Hd; [reflexivity|].
  rewrite (decode_error_not_sentinel _ _ Hd). reflexivity.
Qed.

(** X5.  A user the document repository has created is found again under
    its email, as the account [Create] reported: the same email, password,
    name, role and active flag, under the identifier [Create] gave it,
    which is the second of its creation. *)
Theorem mongo_Create_then_GetByEmail :
  forall regex (c c' : mongo.Collection) (now : time.Time) (user user' : User),
    let r := repo.NewUserMongoRepository regex in
    Create r c now user = (c', user', None) ->
    (exists found, GetByEmail r c' (Email user) = Ok found /\ sameAccount found user')
    /\ sameAccount user' (set_ID user (ID user'))
    /\ ID user' = (now / time.Second) mod 2 ^ 32.
Proof.
  intros regex c c' now user user' r H. subst r. cbn in H |- *.
  apply mongo_Create_inv in H. cbv zeta in H.
  destruct H as (d & Hfault & Hfault' & Hdocs & Hemail & Hd & Hdec & ->).
  split; [|split; [|reflexivity]].
  - eexists. split.
    + rewrite mongo_GetByEmail_docs by assumption.
      rewrite Hdocs, List.filter_app.
      rewrite (existsb_false_filter _ (mongo.docs c)).
      * cbn [List.filter app]. rewrite Hd. cbn [mongo.option_value_eqb mongo.value_eqb].
        rewrite String.eqb_refl. rewrite Hdec. reflexivity.
      * rewrite (existsb_pointwise _ (mongo.collide "email" d)); [exact Hemail|].
        intros e. unfold mongo.collide. rewrite Hd. apply option_value_eqb_sym.
    + unfold sameAccount. cbn. auto 10.
  - unfold sameAccount. cbn. auto 10.
Qed.

Lemma mongo_Create_then_GetByEmail_witness :
  let created :=
    Create samples.mongoRepo (samples.collection []) (5 * time.Second + 7) samples.carol in
  snd created = None
  /\ ID (snd (fst created)) = 5
  /\ exists found,
       GetByEmail samples.mongoRepo (fst (fst created)) "carol@example.com" = Ok found
       /\ ID found = 5 /\ Role found = "admin".
Proof.
  intros created.
  assert (Hcreate : created = (fst (fst created), snd (fst created), None)).
  { vm_compute. reflexivity. }
  destruct (mongo_Create_then_GetByEmail samples.regex (samples.collection [])
              (fst (fst created)) (5 * time.Second + 7) samples.carol
              (snd (fst created)) Hcreate)
    as ((found & Hfound & Hsame) & Hsame' & Hid).
  split; [vm_compute; reflexivity|]. split; [exact Hid|].
  exists found. split; [exact Hfound|].
  destruct Hsame as (Hi & _ & _ & _ & Hr & _).
  destruct Hsame' as (_ & _ & _ & _ & Hr' & _).
  split; [rewrite Hi; exact Hid|rewrite Hr, Hr'; reflexivity].
Defined.

(** X6.  The identifier the document repository gives a user is the second
    of its creation, so it does not tell users apart: two users created
    within the same second, one after the other, are two accounts (their
    emails differ) under one identifier. *)
Theorem mongo_ids_repeat_within_a_second :
  forall regex (c c1 c2 : mongo.Collection) (now1 now2 : time.Time)
         (u1 u2 u1' u2' : User),
    let r := repo.NewUserMongoRepository regex in
    Create r c now1 u1 = (c1, u1', None) ->
    Create r c1 now2 u2 = (c2, u2', None) ->
    now1 / time.Second = now2 / time.Second ->
    ID u1' = ID u2' /\ Email u1' <> Email u2'.
Proof.
  intros regex c c1 c2 now1 now2 u1 u2 u1' u2' r H1 H2 Hsec. subst r. cbn in H1, H2.
  apply mongo_Create_inv in H1. apply mongo_Create_inv in H2. cbv zeta in H1, H2.
  destruct H1 as (d1 & _ & _ & Hdocs1 & _ & Hd1 & _ & ->).
  destruct H2 as (d2 & _ & _ & _ & Hemail2 & Hd2 & _ & ->).
  cbn. split; [rewrite Hsec; reflexivity|].
  intros Heq. rewrite Hdocs1, existsb_app in Hemail2.
  apply orb_false_iff in Hemail2. destruct Hemail2 as [_ Hlast].
  cbn in Hlast. unfold mongo.collide in Hlast. rewrite Hd1, Hd2, Heq in Hlast.
  cbn in Hlast. rewrite String.eqb_refl in Hlast. discriminate.
Qed.

Lemma mongo_ids_repeat_within_a_second_witness :
  let first :=
    Create samples.mongoRepo (samples.collection []) (5 * time.Second) samples.carol in
  let second :=
    Create samples.mongoRepo (fst (fst first)) (5 * time.Second + 999)
      (set_ID samples.alice 0) in
  snd first = None /\ snd second = None
  /\ ID (snd (fst first)) = 5 /\ ID (snd (fst second)) = 5
  /\ length (mongo.docs (fst (fst second))) = 2%nat.
Proof.
  intros first second.
  assert (H1 : first = (fst (fst first), snd (fst first), None)).
  { vm_compute. reflexivity. }
  assert (H2 : second = (fst (fst second), snd (fst second), None)).
  { vm_compute. reflexivity. }
  destruct (mongo_ids_repeat_within_a_second samples.regex (samples.collection [])
              (fst (fst first)) (fst (fst second))
              (5 * time.Second) (5 * time.Second + 999) samples.carol
              (set_ID samples.alice 0) (snd (fst first)) (snd (fst second)) H1 H2 eq_refl)
    as [Hsame _].
  split; [vm_compute; reflexivity|]. split; [vm_compute; reflexivity|].
  assert (Hid : ID (snd (fst first)) = 5) by (vm_compute; reflexivity).
  split; [exact Hid|]. split; [rewrite <- Hsame; exact Hid|vm_compute; reflexivity].
Defined.

(** ** Pages *)

Lemma Sorted_weaken {A} (R Q : A -> A -> Prop) (l : list A) :
  (forall x y, R x y -> Q x y) -> Sorted R l -> Sorted Q l.
Proof.
  intros HRQ. induction 1 as [|x r Hs IH Hhd]; constructor; [exact IH|].
  destruct Hhd; constructor. auto.
Qed.

Lemma Sorted_skipn {A} (R : A -> A -> Prop) (k : nat) (l : list A) :
  Sorted R l -> Sorted R (skipn k l).
Proof.
  revert l. induction k as [|k IH]; intros l Hs; [exact Hs|].
  destruct l as [|x r]; [constructor|]. simpl. apply IH. inversion Hs; assumption.
Qed.



(** A page holds [limit] rows, or what is left behind [offset]. *)
Lemma page_length (offset limit : Z) (l : list User) :
  0 <= offset -> 0 <= limit ->
  Z.of_nat (length (memdb.page offset limit l))
  = Z.min limit (Z.max 0 (Z.of_nat (length l) - offset)).
Proof.
  intros Ho Hl. unfold memdb.page.
  rewrite List.length_firstn, List.length_skipn. lia.
Qed.


Lemma gorm_List_memdb ilike (t : memdb.Table) (offset limit : Z) :
  memdb.fault t = None ->
  repo.gorm_List (memdb.engine ilike) t offset limit
  = Ok (memdb.page offset limit (gosort.Slice memdb.newer (memdb.rows t)),
        Z.of_nat (length (memdb.rows t))).
Proof.
  intros Hfault. unfold repo.gorm_List. cbn [gorm.db_Count gorm.db_Find memdb.engine].
  unfold memdb.Count, memdb.Find, memdb.select. rewrite Hfault.
  change (memdb.holds ilike gorm.All) with (fun _ : User => true).
  rewrite listing_facts.filter_all. reflexivity.
Qed.


(** X7.  On the reference engine, [List] with a page of [limit] rows from
    [offset] on returns as total the number of rows of the table, whatever
    the page, and as users rows of the table, newest first: [limit] of them,
    or the rows left behind [offset] when these are fewer (none when
    [offset] is past the end). *)
Theorem gorm_List_page :
  forall ilike (t : memdb.Table) (offset limit : Z),
    let r := repo.NewUserGormRepository (memdb.engine ilike) in
    memdb.fault t = None -> 0 <= offset -> 0 < limit ->
    exists users,
      List r t offset limit = Ok (users, Z.of_nat (length (memdb.rows t)))
      /\ Z.of_nat (length users)
         = Z.min limit (Z.max 0 (Z.of_nat (length (memdb.rows t)) - offset))
      /\ (forall u, In u users -> In u (memdb.rows t))
      /\ Sorted newestFirst users.
Proof.
  intros ilike t offset limit r Hfault Ho Hl. subst r. cbn [List repo.NewUserGormRepository].
  rewrite gorm_List_memdb by assumption. eexists. split; [reflexivity|].
  split; [|split].
  - rewrite page_length by lia. rewrite sort_facts.Slice_length. reflexivity.
  - intros u Hu. apply listing_facts.firstn_skipn_In in Hu.
    apply sort_facts.Slice_In in Hu. exact Hu.
  - unfold memdb.page. apply migration_facts.Sorted_firstn. apply Sorted_skipn.
    apply (Sorted_weaken (gosort.ordered memdb.newer)).
    + intros x y Hxy. unfold gosort.ordered, memdb.newer in Hxy. unfold newestFirst.
      apply Z.ltb_ge in Hxy. exact Hxy.
    + apply sort_facts.Slice_Sorted.
      intros x y Hxy. unfold memdb.newer in *. apply Z.ltb_lt in Hxy. apply Z.ltb_ge. lia.
Qed.

Lemma gorm_List_page_witness :
  exists users,
    List samples.gormRepo (samples.table [samples.bob; samples.alice]) 1 5
    = Ok (users, 2)
    /\ Z.of_nat (length users) = 1
    /\ Sorted newestFirst users.
Proof.
  destruct (gorm_List_page samples.ilike (samples.table [samples.bob; samples.alice]) 1 5
              eq_refl ltac:(lia) ltac:(lia)) as (users & Hlist & Hlen & _ & Hsorted).
  exists users. split; [exact Hlist|]. split; [exact Hlen|exact Hsorted].
Defined.






(** ** [Update] seen through [GetByEmail] *)

Lemma decode_inv (d : mongo.M) (m : repo.mongoUser) :
  repo.decode d = Ok m ->
  repo.getObjectID d "_id" = Ok (repo.mu_ID m)
  /\ repo.getString d "email" = Ok (repo.mu_Email m)
  /\ repo.getString d "password" = Ok (repo.mu_Password m)
  /\ repo.getString d "name" = Ok (repo.mu_Name m)
  /\ repo.getString d "role" = Ok (repo.mu_Role m)
  /\ repo.getBool d "active" = Ok (repo.mu_Active m)
  /\ repo.getTime d "created_at" = Ok (repo.mu_CreatedAt m)
  /\ repo.getTime d "updated_at" = Ok (repo.mu_UpdatedAt m).
Proof.
  unfold repo.decode, repo.bind.
  destruct (repo.getObjectID d "_id"); [|discriminate].
  destruct (repo.getString d "email"); [|discriminate].
  destruct (repo.getString d "password"); [|discriminate].
  destruct (repo.getString d "name"); [|discriminate].
  destruct (repo.getString d "role"); [|discriminate].
  destruct (repo.getBool d "active"); [|discriminate].
  destruct (repo.getTime d "created_at"); [|discriminate].
  destruct (repo.getTime d "updated_at"); [|discriminate].
  intros H. inversion H. cbn. repeat split; reflexivity.
Qed.

(** The document [Update] leaves decodes to the user it held, with the
    four fields under [$set] replaced. *)
Lemma decode_applySet (d : mongo.M) (m : repo.mongoUser) name role active (t : time.Time) :
  repo.decode d = Ok m ->
  repo.decode
    (mongo.applySet
       (<["name" := mongo.VString name]>
        (<["role" := mongo.VString role]>
         (<["active" := mongo.VBool active]>
          (<["updated_at" := mongo.VTime t]> ∅)))) d)
  = Ok {| repo.mu_ID := repo.mu_ID m; repo.mu_Email := repo.mu_Email m;
          repo.mu_Password := repo.mu_Password m; repo.mu_Name := name;
          repo.mu_Role := role; repo.mu_Active := active;
          repo.mu_CreatedAt := repo.mu_CreatedAt m; repo.mu_UpdatedAt := t |}.
Proof.
  intros H. apply decode_inv in H.
  destruct H as (Hid & Hemail & Hpassword & _ & _ & _ & Hcreated & _).
  unfold repo.decode, repo.getObjectID, repo.getString, repo.getBool, repo.getTime,
    mongo.applySet in *.
  rewrite (lookup_union_r _ d "_id") by reflexivity.
  rewrite (lookup_union_r _ d "email") by reflexivity.
  rewrite (lookup_union_r _ d "password") by reflexivity.
  rewrite (lookup_union_r _ d "created_at") by reflexivity.
  rewrite (lookup_union_Some_l _ d "name" (mongo.VString name)) by reflexivity.
  rewrite (lookup_union_Some_l _ d "role" (mongo.VString role)) by reflexivity.
  rewrite (lookup_union_Some_l _ d "active" (mongo.VBool active)) by reflexivity.
  rewrite (lookup_union_Some_l _ d "updated_at" (mongo.VTime t)) by reflexivity.
  rewrite Hid, Hemail, Hpassword, Hcreated. reflexivity.
Qed.

(** [updateFirst] updates the first document that matches. *)
Lemma updateFirst_first regex f set l pre d' post :
  mongo.updateFirst regex f set l = Some (pre, d', post) ->
  List.filter (mongo.matches regex f) pre = [].
Proof.
  revert pre. induction l as [|x l IH]; intros pre; simpl; [discriminate|].
  destruct (mongo.matches regex f x) eqn:Hx.
  - intros H. inversion H. reflexivity.
  - destruct (mongo.updateFirst regex f set l) as [[[pre0 d0] post0]|]; [|discriminate].
    intros H. inversion H; subst. simpl. rewrite Hx. apply IH. reflexivity.
Qed.

(** X9.  When the document repository has updated a user, the account
    found under the email carries the name, role and active flag given to
    [Update], and otherwise is the account that was found before: the same
    identifier, email, password and creation time. *)
Theorem mongo_Update_then_GetByEmail :
  forall regex (c c' : mongo.Collection) (now : time.Time) (user user' old : User),
    let r := repo.NewUserMongoRepository regex in
    GetByEmail r c (Email user) = Ok old ->
    Update r c now user = (c', user', None) ->
    exists new,
      GetByEmail r c' (Email user) = Ok new
      /\ Name new = Name user /\ Role new = Role user /\ Active new = Active user
      /\ ID new = ID old /\ Email new = Email old /\ Password new = Password old
      /\ CreatedAt new = CreatedAt old.
Proof.
  intros regex c c' now user user' old r Hold Hupdate. subst r.
  cbn [GetByEmail Update repo.NewUserMongoRepository] in *.
  revert Hupdate. unfold repo.mongo_Update, mongo.UpdateOne.
  destruct (mongo.fault c) as [err|] eqn:Hfault; [discriminate|].
  set (f := mongo.FieldIs "email" (mongo.VString (Email user))).
  set (upd := <["name" := _]> _).
  destruct (mongo.updateFirst regex f upd (mongo.docs c)) as [[[pre d'] post]|] eqn:Hfirst;
    [|discriminate].
  destruct (existsb (mongo.collide "email" d') (pre ++ post)); [discriminate|].
  destruct (existsb (mongo.collide "_id" d') (pre ++ post)); [discriminate|].
  cbn. intros H. inversion H; subst c' user'; clear H.
  pose proof (updateFirst_first _ _ _ _ _ _ _ Hfirst) as Hpre.
  apply repo_facts.updateFirst_Some in Hfirst.
  destruct Hfirst as (d & Hdocs & Hmatch & Hd').
  rewrite mongo_GetByEmail_docs in Hold by assumption.
  change (fun d0 : mongo.M => mongo.option_value_eqb (d0 !! "email")
                                (Some (mongo.VString (Email user))))
    with (mongo.matches regex f) in Hold.
  rewrite Hdocs, List.filter_app, Hpre in Hold. cbn [app List.filter] in Hold.
  rewrite Hmatch in Hold.
  destruct (repo.decode d) as [m|] eqn:Hdec; [|discriminate].
  inversion Hold; subst old; clear Hold.
  rewrite mongo_GetByEmail_docs by exact Hfault.
  change (fun d0 : mongo.M => mongo.option_value_eqb (d0 !! "email")
                                (Some (mongo.VString (Email user))))
    with (mongo.matches regex f).
  cbn [mongo.docs mongo.with_docs].
  rewrite List.filter_app, Hpre. cbn [app List.filter].
  assert (Hmatch' : mongo.matches regex f d' = true).
  { subst d'. cbn [mongo.matches f mongo.fieldIs] in *. unfold mongo.applySet.
    rewrite (lookup_union_r _ d "email") by reflexivity. exact Hmatch. }
  rewrite Hmatch'. subst d' upd.
  rewrite (decode_applySet _ _ _ _ _ _ Hdec).
  eexists. split; [reflexivity|]. cbn. repeat split; reflexivity.
Qed.

Lemma mongo_Update_then_GetByEmail_witness :
  let c := stores.collectionOf 0 samples.population in
  let promoted := set_Role (set_Name samples.alice "Alice Admin") "admin" in
  exists new,
    GetByEmail samples.mongoRepo (fst (fst (Update samples.mongoRepo c 9000 promoted)))
      "alice@example.com" = Ok new
    /\ Name new = "Alice Admin" /\ Role new = "admin"
    /\ Password new = Password samples.alice.
Proof.
  intros c promoted.
  assert (Hupdate : Update samples.mongoRepo c 9000 promoted
                    = (fst (fst (Update samples.mongoRepo c 9000 promoted)),
                       snd (fst (Update samples.mongoRepo c 9000 promoted)), None)).
  { vm_compute. reflexivity. }
  destruct (mongo_Update_then_GetByEmail samples.regex c _ 9000 promoted _ samples.alice
              eq_refl Hupdate)
    as (new & Hnew & Hname & Hrole & _ & _ & _ & Hpassword & _).
  exists new. split; [exact Hnew|]. split; [exact Hname|]. split; [exact Hrole|].
  exact Hpassword.
Defined.

End store_facts.
(* ================================================================== *)
(** * The user service on the stores *)
(* ================================================================== *)

Module user_facts.
Import domain notions.
Local Open Scope Z_scope.

(** X10.  Over the document repository, every operation of the service
    that starts from an identifier fails, whatever the collection holds:
    [GetProfile], [UpdateProfile], [GetUser], [UpdateUser] and [DeleteUser]
    answer a NOT_FOUND error for every identifier and request, and the
    collection stays as it was. *)
Theorem mongo_service_by_id_fails :
  forall regex (c : mongo.Collection) (now : time.Time) (id : Z)
         (req : UserUpdateRequest),
    let r := repo.NewUserMongoRepository regex in
    (exists e, service.GetProfile r c id = Err e /\ codeOf e = Some ErrCodeNotFound)
    /\ (exists e, service.UpdateProfile r c now id req = (c, Err e)
                  /\ codeOf e = Some ErrCodeNotFound)
    /\ (exists e, service.GetUser r c id = Err e /\ codeOf e = Some ErrCodeNotFound)
    /\ (exists e, service.UpdateUser r c now id req = (c, Err e)
                  /\ codeOf e = Some ErrCodeNotFound)
    /\ (exists e, service.DeleteUser r c id = (c, Some e)
                  /\ codeOf e = Some ErrCodeNotFound).
Proof.
  intros regex c now id req r.
  split; [|split; [|split; [|split]]]; eexists; split; reflexivity.
Qed.

(** ** [Save] on the reference engine *)

(** What [Update] has done when it succeeds for a user read from the
    table. *)
Lemma gorm_Update_stored ilike (t t' : memdb.Table) now (u user user' : User) :
  memdb.fault t = None ->
  In u (memdb.rows t) -> ID user = ID u -> Email user = Email u ->
  repo.gorm_Update (memdb.engine ilike) t now user = (t', user', None) ->
  user' = set_UpdatedAt user now
  /\ memdb.rows t'
     = map (fun r => if ID r =? ID user then user' else r) (memdb.rows t)
  /\ memdb.fault t' = None
  /\ (forall r, In r (memdb.rows t) -> Email r = Email user -> ID r = ID user).
Proof.
  intros Hfault Hu Hid Hemail.
  unfold repo.gorm_Update. cbn [gorm.db_Save memdb.engine]. unfold memdb.Save.
  rewrite Hfault.
  destruct (repo_facts.uniqueViolation_classified (memdb.dialect t)) as [Hce Hci].
  destruct (ID user =? 0) eqn:Hzero.
  { unfold memdb.Create. rewrite Hfault.
    assert (Hex : existsb (fun r => String.eqb (Email r) (Email user)) (memdb.rows t) = true).
    { apply existsb_exists. exists u. split; [assumption|].
      rewrite Hemail. apply String.eqb_refl. }
    rewrite Hex. cbn [memdb.failed gorm.res_Error]. rewrite Hce. discriminate. }
  destruct (existsb _ (memdb.rows t)) eqn:Hother.
  { cbn [memdb.failed gorm.res_Error]. rewrite Hce. discriminate. }
  cbn [memdb.affected gorm.res_Error gorm.RowsAffected].
  destruct (Z.of_nat _ =? 0) eqn:Hhit; [discriminate|].
  intros H. inversion H; subst t' user'; clear H.
  split; [reflexivity|]. split; [reflexivity|]. split; [exact Hfault|].
  intros r Hr Hre.
  destruct (ID r =? ID user) eqn:Hrid; [apply Z.eqb_eq; exact Hrid|].
  assert (Hex : existsb (fun r => String.eqb (Email r) (Email user)
                                  && negb (ID r =? ID user)) (memdb.rows t) = true).
  { apply existsb_exists. exists r. split; [assumption|].
    rewrite Hre, String.eqb_refl, Hrid. reflexivity. }
  congruence.
Qed.

Lemma filter_replaced_hd (rows : list User) (u user' : User) :
  In u rows -> ID user' = ID u ->
  exists rest,
    List.filter (fun r => ID r =? ID u)
      (map (fun r => if ID r =? ID u then user' else r) rows) = user' :: rest.
Proof.
  intros Hu Hid. induction rows as [|x rows IH]; [destruct Hu|].
  cbn [map List.filter]. destruct (ID x =? ID u) eqn:Hx.
  - rewrite Hid, Z.eqb_refl. eauto.
  - rewrite Hx. apply IH. destruct Hu as [->|Hu]; [|exact Hu].
    rewrite Z.eqb_refl in Hx. discriminate.
Qed.

Lemma filter_replaced_other (rows : list User) (id id' : Z) (user' : User) :
  ID user' = id -> id' <> id ->
  List.filter (fun r => ID r =? id') (map (fun r => if ID r =? id then user' else r) rows)
  = List.filter (fun r => ID r =? id') rows.
Proof.
  intros Hid Hne. induction rows as [|x rows IH]; [reflexivity|].
  cbn [map List.filter]. destruct (ID x =? id) eqn:Hx.
  - apply Z.eqb_eq in Hx.
    replace (ID user' =? id') with false by (symmetry; apply Z.eqb_neq; lia).
    replace (ID x =? id') with false by (symmetry; apply Z.eqb_neq; lia).
    exact IH.
  - rewrite IH. reflexivity.
Qed.

Lemma filter_replaced_email (rows : list User) (u user' : User) :
  In u rows -> ID user' = ID u -> Email user' = Email u ->
  (forall r, In r rows -> Email r = Email u -> ID r = ID u) ->
  exists rest,
    List.filter (fun r => String.eqb (Email r) (Email u))
      (map (fun r => if ID r =? ID u then user' else r) rows) = user' :: rest.
Proof.
  intros Hu Hid Hemail Huniq. induction rows as [|x rows IH]; [destruct Hu|].
  cbn [map List.filter]. destruct (ID x =? ID u) eqn:Hx.
  - rewrite Hemail, String.eqb_refl. eauto.
  - destruct (String.eqb (Email x) (Email u)) eqn:Hxe.
    + apply String.eqb_eq in Hxe. apply Huniq in Hxe; [|left; reflexivity].
      apply Z.eqb_neq in Hx. contradiction.
    + apply IH.
      * destruct Hu as [->|Hu]; [|exact Hu]. rewrite Z.eqb_refl in Hx. discriminate.
      * intros r Hr. apply Huniq. right. exact Hr.
Qed.

(** A user [GetByID] answers is a row of the table, under that identifier. *)
Lemma gorm_GetByID_In ilike (t : memdb.Table) (id : Z) (u : User) :
  repo.gorm_GetByID (memdb.engine ilike) t id = Ok u ->
  memdb.fault t = None /\ In u (memdb.rows t) /\ ID u = id.
Proof.
  unfold repo.gorm_GetByID. cbn [gorm.db_First memdb.engine]. unfold memdb.First.
  destruct (memdb.fault t) as [err|] eqn:Hfault.
  { destruct (errorsIs gorm_ErrRecordNotFound err); discriminate. }
  unfold memdb.select.
  destruct (List.filter _ (memdb.rows t)) as [|x xs] eqn:Hf; [discriminate|].
  intros H. inversion H; subst x. split; [reflexivity|].
  assert (Hin : In u (List.filter (memdb.holds ilike (gorm.PrimaryKey id)) (memdb.rows t))).
  { rewrite Hf. left. reflexivity. }
  apply List.filter_In in Hin. destruct Hin as [Hin Hid].
  split; [exact Hin|]. apply Z.eqb_eq. exact Hid.
Qed.

(** [Update] of a user read under [id], seen through the repository. *)
Lemma gorm_Update_after_GetByID ilike (t t' : memdb.Table) now (id : Z)
      (u user user' : User) :
  repo.gorm_GetByID (memdb.engine ilike) t id = Ok u ->
  ID user = ID u -> Email user = Email u ->
  repo.gorm_Update (memdb.engine ilike) t now user = (t', user', None) ->
  user' = set_UpdatedAt user now
  /\ repo.gorm_GetByID (memdb.engine ilike) t' id = Ok user'
  /\ repo.gorm_GetByEmail (memdb.engine ilike) t' (Email u) = Ok user'
  /\ (forall id', id' <> id ->
        repo.gorm_GetByID (memdb.engine ilike) t' id'
        = repo.gorm_GetByID (memdb.engine ilike) t id')
  /\ memdb.rows t' = map (fun r => if ID r =? id then user' else r) (memdb.rows t).
Proof.
  intros Hget Hid Hemail Hupdate.
  apply gorm_GetByID_In in Hget. destruct Hget as (Hfault & Hin & Hu).
  destruct (gorm_Update_stored _ _ _ _ _ _ _ Hfault Hin Hid Hemail Hupdate)
    as (Huser' & Hrows & Hfault' & Huniq).
  assert (Hid' : ID user' = ID u) by (rewrite Huser'; exact Hid).
  assert (Hemail' : Email user' = Email u) by (rewrite Huser'; exact Hemail).
  rewrite Hid in Hrows. rewrite Hemail, Hid in Huniq.
  split; [exact Huser'|]. subst id. split; [|split; [|split]].
  - rewrite store_facts.gorm_GetByID_memdb by assumption. rewrite Hrows.
    destruct (filter_replaced_hd _ _ _ Hin Hid') as [rest ->]. reflexivity.
  - rewrite store_facts.gorm_GetByEmail_memdb by assumption. rewrite Hrows.
    destruct (filter_replaced_email _ _ _ Hin Hid' Hemail' Huniq) as [rest ->]. reflexivity.
  - intros id' Hne. rewrite !store_facts.gorm_GetByID_memdb by assumption. rewrite Hrows.
    rewrite filter_replaced_other by assumption. reflexivity.
  - exact Hrows.
Qed.

(** The user [UpdateProfile] hands to [Update]. *)
Lemma UpdateProfile_cases {S : Type} (userRepo : UserRepository S) (s : S) now id req u :
  GetByID userRepo s id = Ok u ->
  (exists err, service.UpdateProfile userRepo s now id req = (s, Err err))
  \/ (exists name,
         name = match update_Name req with
                | Some name => gostrings.TrimSpace name
                | None => Name u
                end
         /\ (update_Name req <> None -> name <> "")
         /\ service.UpdateProfile userRepo s now id req
            = respond (Update userRepo s now (set_UpdatedAt (set_Name u name) now))).
Proof.
  intros Hget. unfold service.UpdateProfile. rewrite Hget.
  destruct (update_Name req) as [name|].
  - cbn [Name set_Name]. destruct (String.eqb (gostrings.TrimSpace name) "") eqn:Hname.
    + left. eexists. reflexivity.
    + right. eexists. split; [reflexivity|]. split.
      * intros _. apply String.eqb_neq. exact Hname.
      * reflexivity.
  - right. exists (Name u). split; [reflexivity|]. split; [congruence|].
    destruct u; reflexivity.
Qed.

(** X11.  On the relational reference store, a successful [UpdateProfile]
    changes the name of the user and nothing else of the account: the
    user then found under the identifier (and under the email) has the
    trimmed name of the request, which is not empty, or its old name when
    the request has none, and its identifier, email, password, role, active
    flag and creation time are as before, whatever role and active flag the
    request carries; the answer describes that user, and every other
    identifier is answered as before. *)
Theorem UpdateProfile_changes_the_name_only :
  forall ilike (t t' : memdb.Table) (now : time.Time) (id : Z)
         (req : UserUpdateRequest) (u : User) (resp : UserResponse),
    let r := repo.NewUserGormRepository (memdb.engine ilike) in
    GetByID r t id = Ok u ->
    service.UpdateProfile r t now id req = (t', Ok resp) ->
    exists u',
      GetByID r t' id = Ok u'
      /\ GetByEmail r t' (Email u) = Ok u'
      /\ resp = ToResponse u'
      /\ Name u' = match update_Name req with
                   | Some name => gostrings.TrimSpace name
                   | None => Name u
                   end
      /\ (update_Name req <> None -> Name u' <> "")
      /\ ID u' = ID u /\ Email u' = Email u /\ Password u' = Password u
      /\ Role u' = Role u /\ Active u' = Active u /\ CreatedAt u' = CreatedAt u
      /\ (forall id', id' <> id -> GetByID r t' id' = GetByID r t id').
Proof.
  intros ilike t t' now id req u resp r Hget Hupdate. subst r.
  cbn [GetByID GetByEmail repo.NewUserGormRepository] in *.
  destruct (UpdateProfile_cases (repo.NewUserGormRepository (memdb.engine ilike))
              t now id req u Hget) as [[err Herr]|(name & Hname & Hnonempty & Hrun)].
  { rewrite Herr in Hupdate. discriminate. }
  rewrite Hrun in Hupdate. cbn [Update repo.NewUserGormRepository] in Hupdate.
  destruct (repo.gorm_Update (memdb.engine ilike) t now
              (set_UpdatedAt (set_Name u name) now)) as [[t1 u1] [e|]] eqn:Hsave;
    cbn [respond] in Hupdate; [discriminate|].
  inversion Hupdate; subst t1 resp; clear Hupdate.
  destruct (gorm_Update_after_GetByID ilike t t' now id u
              (set_UpdatedAt (set_Name u name) now) u1 Hget eq_refl eq_refl Hsave)
    as (Hu1 & Hid & Hemail & Hother & _).
  exists u1. split; [exact Hid|]. split; [exact Hemail|]. split; [reflexivity|].
  subst u1. cbn. rewrite <- Hname.
  split; [reflexivity|]. split; [exact Hnonempty|].
  repeat (split; [reflexivity|]). exact Hother.
Qed.

Lemma UpdateProfile_changes_the_name_only_witness :
  let t := samples.table [samples.alice; samples.bob] in
  let req := {| update_Name := Some "  Alice Z ";
                update_Role := Some "admin";
                update_Active := Some false |} in
  exists u',
    GetByID samples.gormRepo (fst (service.UpdateProfile samples.gormRepo t 9000 1 req)) 1
    = Ok u'
    /\ Name u' = "Alice Z" /\ Role u' = "user" /\ Active u' = true
    /\ Password u' = Password samples.alice.
Proof.
  intros t req.
  assert (Hrun : service.UpdateProfile samples.gormRepo t 9000 1 req
                 = (fst (service.UpdateProfile samples.gormRepo t 9000 1 req),
                    Ok (ToResponse (set_UpdatedAt (set_Name samples.alice "Alice Z") 9000)))).
  { vm_compute. reflexivity. }
  destruct (UpdateProfile_changes_the_name_only samples.ilike t _ 9000 1 req samples.alice _
              eq_refl Hrun)
    as (u' & Hget & _ & _ & Hname & _ & _ & _ & Hpassword & Hrole & Hactive & _).
  exists u'. split; [exact Hget|]. split; [exact Hname|]. split; [exact Hrole|].
  split; [exact Hactive|exact Hpassword].
Defined.

(** ** What the service writes *)

(** The rows a statement leaves are rows that were there or carry the
    email, role and name of the user given to it. *)
Lemma memdb_Create_rows (t : memdb.Table) now (user r : User) :
  In r (memdb.rows (fst (fst (memdb.Create t now user)))) ->
  In r (memdb.rows t)
  \/ (Email r = Email user /\ Role r = Role user /\ Name r = Name user).
Proof.
  unfold memdb.Create. destruct (memdb.fault t); [auto|].
  destruct (existsb _ (memdb.rows t)); [auto|].
  destruct (existsb _ (memdb.rows t)); [auto|].
  cbn. intros Hr. apply in_app_or in Hr. destruct Hr as [Hr|[<-|[]]]; [auto|].
  right. repeat split.
Qed.

Lemma memdb_Save_rows (t : memdb.Table) now (user r : User) :
  In r (memdb.rows (fst (fst (memdb.Save t now user)))) ->
  In r (memdb.rows t)
  \/ (Email r = Email user /\ Role r = Role user /\ Name r = Name user).
Proof.
  unfold memdb.Save. destruct (memdb.fault t); [auto|].
  destruct (ID user =? 0); [apply memdb_Create_rows|].
  destruct (existsb _ (memdb.rows t)); [auto|].
  cbn. intros Hr. apply in_map_iff in Hr. destruct Hr as (x & Hx & Hin).
  destruct (ID x =? ID user); subst r; [|auto].
  right. repeat split.
Qed.

Lemma memdb_Delete_rows ilike (t : memdb.Table) (w : gorm.Where) (r : User) :
  In r (memdb.rows (fst (memdb.Delete ilike t w))) -> In r (memdb.rows t).
Proof.
  unfold memdb.Delete. destruct (memdb.fault t); [auto|].
  cbn. intros Hr. apply List.filter_In in Hr. tauto.
Qed.

Lemma gorm_Create_fst {T : Type} (db : gorm.DB T) (t : T) now (user : User) :
  fst (fst (repo.gorm_Create db t now user)) = fst (fst (gorm.db_Create db t now user)).
Proof.
  unfold repo.gorm_Create. destruct (gorm.db_Create db t now user) as [[t' user'] res].
  destruct (gorm.res_Error res) as [err|]; [|reflexivity].
  destruct (repo.isUniqueConstraintError (Some err)); reflexivity.
Qed.

Lemma gorm_Update_fst {T : Type} (db : gorm.DB T) (t : T) now (user : User) :
  fst (fst (repo.gorm_Update db t now user)) = fst (fst (gorm.db_Save db t now user)).
Proof.
  unfold repo.gorm_Update. destruct (gorm.db_Save db t now user) as [[t' user'] res].
  destruct (gorm.res_Error res) as [err|].
  - destruct (repo.isUniqueConstraintError (Some err)); reflexivity.
  - destruct (gorm.RowsAffected res =? 0); reflexivity.
Qed.

Lemma gorm_Delete_fst {T : Type} (db : gorm.DB T) (t : T) (id : Z) :
  fst (repo.gorm_Delete db t id) = fst (gorm.db_Delete db t (gorm.PrimaryKey id)).
Proof.
  unfold repo.gorm_Delete. destruct (gorm.db_Delete db t (gorm.PrimaryKey id)) as [t' res].
  destruct (gorm.res_Error res) as [err|]; [reflexivity|].
  destruct (gorm.RowsAffected res =? 0); reflexivity.
Qed.

Lemma wellFormed_like (u v : User) :
  wellFormed u -> Email v = Email u -> Role v = Role u -> Name v = Name u -> wellFormed v.
Proof. unfold wellFormed. intros H -> -> ->. exact H. Qed.

Lemma Forall_rows (P : User -> Prop) (rows rows' : list User) :
  Forall P rows -> (forall r, In r rows' -> In r rows \/ P r) -> Forall P rows'.
Proof.
  intros Hall Hsub. apply List.Forall_forall. intros r Hr.
  destruct (Hsub r Hr) as [Hin|HP]; [|exact HP].
  rewrite List.Forall_forall in Hall. auto.
Qed.

Lemma getDefaultRole_known (requestedRole : string) :
  service.getDefaultRole requestedRole = "user"
  \/ service.getDefaultRole requestedRole = "admin".
Proof.
  unfold service.getDefaultRole.
  destruct (String.eqb requestedRole "admin") eqn:Ha.
  - right. apply String.eqb_eq. exact Ha.
  - destruct (String.eqb requestedRole "user") eqn:Hu; cbn; [|auto].
    left. apply String.eqb_eq. exact Hu.
Qed.

(** The user [Register] creates is well formed. *)
Lemma registered_wellFormed (req : UserCreateRequest) now digest :
  service.validateCreateRequest req = None -> wellFormed (registered req now digest).
Proof.
  intros Hvalid. unfold wellFormed, registered. cbn.
  split; [symmetry; apply service_facts.normalize_idem|].
  split; [apply getDefaultRole_known|].
  split; [symmetry; apply service_facts.TrimSpace_idem|].
  unfold service.validateCreateRequest in Hvalid.
  destruct (String.eqb (gostrings.TrimSpace (create_Email req)) ""); [discriminate|].
  destruct (String.eqb (gostrings.TrimSpace (create_Name req)) "") eqn:Hname;
    [discriminate|].
  apply String.eqb_neq. exact Hname.
Qed.

(** The user [UpdateUser] hands to [Update]. *)
Lemma UpdateUser_cases {S : Type} (userRepo : UserRepository S) (s : S) now id req u :
  GetByID userRepo s id = Ok u ->
  (exists err, service.UpdateUser userRepo s now id req = (s, Err err))
  \/ (exists user,
         ID user = ID u /\ Email user = Email u /\ Password user = Password u
         /\ CreatedAt user = CreatedAt u
         /\ Name user = match update_Name req with
                        | Some name => gostrings.TrimSpace name
                        | None => Name u
                        end
         /\ (update_Name req <> None -> Name user <> "")
         /\ Role user = match update_Role req with
                        | Some role => role
                        | None => Role u
                        end
         /\ (update_Role req <> None -> Role user = "user" \/ Role user = "admin")
         /\ Active user = match update_Active req with
                          | Some active => active
                          | None => Active u
                          end
         /\ service.UpdateUser userRepo s now id req
            = respond (Update userRepo s now (set_UpdatedAt user now))).
Proof.
  intros Hget. unfold service.UpdateUser. rewrite Hget.
  destruct req as [name role active]. cbn [update_Name update_Role update_Active].
  assert (Hknown : forall r, negb (String.eqb r "user") && negb (String.eqb r "admin") = false ->
                             r = "user" \/ r = "admin").
  { intros r Hr. apply andb_false_iff in Hr.
    destruct Hr as [H|H]; apply negb_false_iff, String.eqb_eq in H; auto. }
  destruct name as [name|];
    [cbn [Name set_Name];
     destruct (String.eqb (gostrings.TrimSpace name) "") eqn:Hname;
     [left; eexists; reflexivity|apply String.eqb_neq in Hname]|];
    (destruct role as [role|];
     [destruct (negb (String.eqb role "user") && negb (String.eqb role "admin")) eqn:Hrole;
      [left; eexists; reflexivity|apply Hknown in Hrole]|]);
    right;
    match goal with
    | |- context [Update userRepo s now (set_UpdatedAt ?user now)] => exists user
    end;
    destruct active as [active|]; cbn;
    repeat split; try reflexivity; try congruence; try (intros _; assumption).
Qed.

Lemma fst_respond {S : Type} (r : S * User * option error) : fst (respond r) = fst (fst r).
Proof. destruct r as [[s u] [e|]]; reflexivity. Qed.

(** X12.  The service keeps the users of the relational reference store
    well formed: when every row has a normalized email, the role [user] or
    [admin], and a trimmed name that is not empty, then so has every row
    after [Register], [UpdateProfile], [UpdateUser] or [DeleteUser],
    whatever the request and whether the call succeeds or fails. *)
Theorem service_writes_well_formed_users :
  forall ilike (bc : Bcrypt) (t : memdb.Table),
    let r := repo.NewUserGormRepository (memdb.engine ilike) in
    Forall wellFormed (memdb.rows t) ->
    (forall now req,
        Forall wellFormed (memdb.rows (fst (service.Register r bc t now req))))
    /\ (forall now id req,
           Forall wellFormed (memdb.rows (fst (service.UpdateProfile r t now id req))))
    /\ (forall now id req,
           Forall wellFormed (memdb.rows (fst (service.UpdateUser r t now id req))))
    /\ (forall id, Forall wellFormed (memdb.rows (fst (service.DeleteUser r t id)))).
Proof.
  intros ilike bc t r Hall.
  assert (Hstored : forall id u, GetByID r t id = Ok u -> wellFormed u).
  { intros id u Hget. apply gorm_GetByID_In in Hget. destruct Hget as (_ & Hin & _).
    rewrite List.Forall_forall in Hall. auto. }
  split; [|split; [|split]].
  - intros now req.
    destruct (service_facts.Register_cases r bc t now req)
      as [[err ->]|(digest & Hvalid & _ & _ & ->)]; [exact Hall|].
    rewrite fst_respond. subst r. cbn [Create repo.NewUserGormRepository].
    rewrite gorm_Create_fst. cbn [gorm.db_Create memdb.engine].
    apply (Forall_rows _ _ _ Hall). intros x Hx.
    apply memdb_Create_rows in Hx. destruct Hx as [Hx|(He & Hr & Hn)]; [auto|].
    right. apply (wellFormed_like (registered req now digest)); auto.
    apply registered_wellFormed. exact Hvalid.
  - intros now id req. destruct (GetByID r t id) as [u|err] eqn:Hget.
    2:{ unfold service.UpdateProfile. rewrite Hget. exact Hall. }
    destruct (UpdateProfile_cases r t now id req u Hget)
      as [[err ->]|(name & Hname & Hnonempty & ->)]; [exact Hall|].
    rewrite fst_respond. subst r. cbn [Update repo.NewUserGormRepository].
    rewrite gorm_Update_fst. cbn [gorm.db_Save memdb.engine].
    apply (Forall_rows _ _ _ Hall). intros x Hx.
    apply memdb_Save_rows in Hx. destruct Hx as [Hx|(He & Hr & Hn)]; [auto|].
    right. destruct (Hstored id u Hget) as (Hue & Hur & Hun & Hune).
    unfold wellFormed. cbn in He, Hr, Hn. rewrite He, Hr, Hn.
    split; [exact Hue|]. split; [exact Hur|].
    rewrite Hname. destruct (update_Name req) as [n|].
    + split; [symmetry; apply service_facts.TrimSpace_idem|].
      rewrite <- Hname. apply Hnonempty. discriminate.
    + split; assumption.
  - intros now id req. destruct (GetByID r t id) as [u|err] eqn:Hget.
    2:{ unfold service.UpdateUser. rewrite Hget. exact Hall. }
    destruct (UpdateUser_cases r t now id req u Hget)
      as [[err ->]|(user & _ & Hemail & _ & _ & Hname & Hnonempty & Hrole & Hknown & _ & ->)];
      [exact Hall|].
    rewrite fst_respond. subst r. cbn [Update repo.NewUserGormRepository].
    rewrite gorm_Update_fst. cbn [gorm.db_Save memdb.engine].
    apply (Forall_rows _ _ _ Hall). intros x Hx.
    apply memdb_Save_rows in Hx. destruct Hx as [Hx|(He & Hr & Hn)]; [auto|].
    right. destruct (Hstored id u Hget) as (Hue & Hur & Hun & Hune).
    unfold wellFormed. cbn in He, Hr, Hn. rewrite He, Hr, Hn, Hemail.
    split; [exact Hue|]. split.
    + destruct (update_Role req) as [role|]; [apply Hknown; discriminate|].
      rewrite Hrole. exact Hur.
    + destruct (update_Name req) as [n|].
      * rewrite Hname. split; [symmetry; apply service_facts.TrimSpace_idem|].
        rewrite <- Hname. apply Hnonempty. discriminate.
      * rewrite Hname. split; assumption.
  - intros id. unfold service.DeleteUser. destruct (GetByID r t id); [|exact Hall].
    subst r. cbn [Delete repo.NewUserGormRepository]. rewrite gorm_Delete_fst.
    cbn [gorm.db_Delete memdb.engine].
    apply (Forall_rows _ _ _ Hall). intros x Hx. left.
    apply (memdb_Delete_rows ilike t _ x Hx).
Qed.

Lemma service_writes_well_formed_users_witness :
  let t := samples.table [samples.alice; samples.bob] in
  Forall wellFormed
    (memdb.rows (fst (service.UpdateUser samples.gormRepo t 9000 2
                        {| update_Name := Some " Robert B ";
                           update_Role := Some "admin";
                           update_Active := Some true |})))
  /\ Forall wellFormed
       (memdb.rows (fst (service.UpdateUser samples.gormRepo t 9000 2
                           {| update_Name := None;
                              update_Role := Some "root";
                              update_Active := None |}))).
Proof.
  intros t.
  assert (Hall : Forall wellFormed (memdb.rows t)).
  { repeat constructor; discriminate. }
  destruct (service_writes_well_formed_users samples.ilike samples.bcrypt t Hall)
    as (_ & _ & Hupdate & _).
  split; apply Hupdate.
Defined.

(** ** Logging in after a change *)

Lemma Login_found {S : Type} (userRepo : UserRepository S) (authService : AuthService)
      (bc : Bcrypt) (s : S) now (req : UserLoginRequest) (user : User) :
  service.validateLoginRequest req = None ->
  GetByEmail userRepo s (normalize (login_Email req)) = Ok user ->
  service.Login userRepo authService bc s now req
  = if negb (Active user) then Err deactivated
    else if negb (CheckPassword bc user (login_Password req)) then Err ErrInvalidPassword
    else match GenerateToken authService now user with
         | Err err => Err err
         | Ok token => Ok (token, ToResponse user)
         end.
Proof.
  intros Hvalid Hget. unfold service.Login. rewrite Hvalid.
  change (gostrings.ToLower (gostrings.TrimSpace (login_Email req)))
    with (normalize (login_Email req)).
  rewrite Hget. reflexivity.
Qed.

(** X13.  On the relational reference store, once [UpdateUser] has
    deactivated an account, a login to it is refused as forbidden, whatever
    the password, also the right one: for every request that passes
    validation and whose normalized email is the stored one, [Login]
    returns the error "Account is deactivated". *)
Theorem deactivated_user_cannot_login :
  forall ilike (authService : AuthService) (bc : Bcrypt) (t t' : memdb.Table)
         (now now' : time.Time) (id : Z) (req : UserUpdateRequest) (u : User)
         (resp : UserResponse) (login : UserLoginRequest),
    let r := repo.NewUserGormRepository (memdb.engine ilike) in
    GetByID r t id = Ok u ->
    update_Active req = Some false ->
    service.UpdateUser r t now id req = (t', Ok resp) ->
    service.validateLoginRequest login = None ->
    normalize (login_Email login) = Email u ->
    service.Login r authService bc t' now' login = Err deactivated
    /\ resp_Active resp = false.
Proof.
  intros ilike authService bc t t' now now' id req u resp login r
         Hget Hactive Hupdate Hvalid Hemail.
  destruct (UpdateUser_cases r t now id req u Hget)
    as [[err Herr]|(user & Hid & Hue & _ & _ & _ & _ & _ & _ & Hua & Hrun)].
  { rewrite Herr in Hupdate. discriminate. }
  rewrite Hrun in Hupdate. subst r. cbn [Update GetByID repo.NewUserGormRepository] in *.
  destruct (repo.gorm_Update (memdb.engine ilike) t now (set_UpdatedAt user now))
    as [[t1 u1] [e|]] eqn:Hsave; cbn [respond] in Hupdate; [discriminate|].
  inversion Hupdate; subst t1 resp; clear Hupdate.
  destruct (gorm_Update_after_GetByID ilike t t' now id u (set_UpdatedAt user now) u1
              Hget Hid Hue Hsave) as (Hu1 & _ & Hbyemail & _).
  assert (Hinactive : Active u1 = false).
  { rewrite Hu1. cbn. rewrite Hua, Hactive. reflexivity. }
  split; [|exact Hinactive].
  rewrite (Login_found _ _ _ _ _ _ u1 Hvalid).
  - rewrite Hinactive. reflexivity.
  - rewrite Hemail. exact Hbyemail.
Qed.

Lemma deactivated_user_cannot_login_witness :
  let t := samples.table [samples.alice; samples.bob] in
  let req := {| update_Name := None; update_Role := None; update_Active := Some false |} in
  service.Login samples.gormRepo samples.auth samples.bcrypt
    (fst (service.UpdateUser samples.gormRepo t 9000 1 req)) 9500
    {| login_Email := " Alice@Example.com"; login_Password := "password123" |}
  = Err deactivated.
Proof.
  intros t req.
  assert (Hrun : service.UpdateUser samples.gormRepo t 9000 1 req
                 = (fst (service.UpdateUser samples.gormRepo t 9000 1 req),
                    Ok (ToResponse (set_UpdatedAt (set_Active samples.alice false) 9000)))).
  { vm_compute. reflexivity. }
  destruct (deactivated_user_cannot_login samples.ilike samples.auth samples.bcrypt t _
              9000 9500 1 req samples.alice _
              {| login_Email := " Alice@Example.com"; login_Password := "password123" |}
              eq_refl eq_refl Hrun eq_refl eq_refl) as [Hlogin _].
  exact Hlogin.
Defined.

Lemma long_password_not_empty (password : string) :
  (gostrings.len password <? 8) = false -> String.eqb password "" = false.
Proof. destruct password; [discriminate|reflexivity]. Qed.

(** X14.  On the relational reference store, a user that has registered
    can log in: after a successful [Register], and with a [bcrypt] that
    accepts a password against its own digest, [Login] with the email and
    the password of the registration finds the account under the
    normalized email, active, holding the digest of the password and not
    the password, and fails at most for the signing of the token. *)
Theorem registered_user_can_login :
  forall ilike (authService : AuthService) (bc : Bcrypt) (t t' : memdb.Table)
         (now now' : time.Time) (req : UserCreateRequest) (resp : UserResponse),
    let r := repo.NewUserGormRepository (memdb.engine ilike) in
    (forall password digest,
        GenerateFromPassword bc password = Ok digest ->
        CompareHashAndPassword bc digest password = None) ->
    service.Register r bc t now req = (t', Ok resp) ->
    exists u,
      GetByEmail r t' (normalize (create_Email req)) = Ok u
      /\ resp = ToResponse u
      /\ Active u = true
      /\ GenerateFromPassword bc (create_Password req) = Ok (Password u)
      /\ service.Login r authService bc t' now'
           {| login_Email := create_Email req; login_Password := create_Password req |}
         = match GenerateToken authService now' u with
           | Err err => Err err
           | Ok token => Ok (token, resp)
           end.
Proof.
  intros ilike authService bc t t' now now' req resp r Hbcrypt Hregister.
  destruct (service_facts.Register_cases r bc t now req)
    as [[err Herr]|(digest & Hvalid & _ & Hdigest & Hrun)].
  { rewrite Herr in Hregister. discriminate. }
  rewrite Hrun in Hregister. subst r. cbn [Create GetByEmail repo.NewUserGormRepository] in *.
  destruct (repo.gorm_Create (memdb.engine ilike) t now (registered req now digest))
    as [[t1 u1] [e|]] eqn:Hcreate; cbn [respond] in Hregister; [discriminate|].
  inversion Hregister; subst t1 resp; clear Hregister.
  destruct (store_facts.gorm_Create_found _ _ _ _ _ _ Hcreate) as [Hbyemail _].
  apply store_facts.memdb_Create_inv in Hcreate.
  destruct Hcreate as (_ & _ & _ & _ & _ & Hpassword & _ & _ & Hactive & _).
  cbn [registered Email Password Active] in Hbyemail, Hpassword, Hactive.
  exists u1. split; [exact Hbyemail|]. split; [reflexivity|]. split; [exact Hactive|].
  split; [rewrite Hpassword; exact Hdigest|].
  assert (Hlogin : service.validateLoginRequest
                     {| login_Email := create_Email req;
                        login_Password := create_Password req |} = None).
  { unfold service.validateCreateRequest in Hvalid.
    unfold service.validateLoginRequest. cbn [login_Email login_Password].
    destruct (String.eqb (gostrings.TrimSpace (create_Email req)) ""); [discriminate|].
    destruct (String.eqb (gostrings.TrimSpace (create_Name req)) ""); [discriminate|].
    destruct (gostrings.len (gostrings.TrimSpace (create_Name req)) <? 2); [discriminate|].
    destruct (gostrings.len (create_Password req) <? 8) eqn:Hlen; [discriminate|].
    rewrite (long_password_not_empty _ Hlen). reflexivity. }
  rewrite (Login_found (repo.NewUserGormRepository (memdb.engine ilike)) authService bc
             t' now' _ u1 Hlogin Hbyemail).
  rewrite Hactive. cbn [negb login_Password]. unfold CheckPassword.
  rewrite Hpassword, (Hbcrypt _ _ Hdigest). reflexivity.
Qed.

Lemma registered_user_can_login_witness :
  let req := {| create_Email := " Dave@Example.com"; create_Password := "correct horse";
                create_Name := "Dave D"; create_Role := "" |} in
  let t' := fst (service.Register samples.gormRepo samples.bcrypt
                   (samples.table [samples.alice]) 7000 req) in
  exists resp,
    service.Login samples.gormRepo samples.auth samples.bcrypt t' 8000
      {| login_Email := " Dave@Example.com"; login_Password := "correct horse" |}
    = Ok ("signed:dave@example.com", resp)
    /\ resp_Email resp = "dave@example.com" /\ resp_Role resp = "user".
Proof.
  intros req t'.
  assert (Hbcrypt : forall password digest,
             GenerateFromPassword samples.bcrypt password = Ok digest ->
             CompareHashAndPassword samples.bcrypt digest password = None).
  { intros password digest. cbn.
    destruct (72 <? gostrings.len password); [discriminate|].
    intros H. inversion H. rewrite String.eqb_refl. reflexivity. }
  assert (Hregister : exists resp,
             service.Register samples.gormRepo samples.bcrypt
               (samples.table [samples.alice]) 7000 req = (t', Ok resp)
             /\ resp_Email resp = "dave@example.com" /\ resp_Role resp = "user").
  { eexists. split; [vm_compute; reflexivity|]. split; reflexivity. }
  destruct Hregister as (resp & Hregister & Hemail & Hrole).
  destruct (registered_user_can_login samples.ilike samples.auth samples.bcrypt
              (samples.table [samples.alice]) t' 7000 8000 req resp Hbcrypt Hregister)
    as (u & Hget & Hresp & _ & _ & Hlogin).
  exists resp. split; [|split; assumption].
  etransitivity; [exact Hlogin|].
  rewrite Hresp in Hemail. cbn in Hemail. cbn [Subject]. rewrite Hemail. reflexivity.
Defined.

Lemma NoDup_map_eq {A B : Type} (f : A -> B) (l : list A) (x y : A) :
  List.NoDup (map f l) -> In x l -> In y l -> f x = f y -> x = y.
Proof.
  induction l as [|a l IH]; [intros _ []|].
  cbn [map]. intros Hnd Hx Hy Hf. inversion Hnd as [|? ? Hnotin Hnd']; subst.
  destruct Hx as [->|Hx], Hy as [->|Hy]; auto.
  - exfalso. apply Hnotin. rewrite Hf. apply in_map. exact Hy.
  - exfalso. apply Hnotin. rewrite <- Hf. apply in_map. exact Hx.
Qed.

(** X15.  On the relational reference store (its emails distinct, as the
    unique index keeps them), [DeleteUser] of a user that is found
    succeeds and removes the account: afterwards the identifier and the
    email are answered [ErrUserNotFound], a login to the account fails like
    one with a wrong password, and every other identifier is answered as
    before. *)
Theorem deleted_user_is_gone :
  forall ilike (authService : AuthService) (bc : Bcrypt) (t : memdb.Table)
         (now : time.Time) (id : Z) (u : User) (login : UserLoginRequest),
    let r := repo.NewUserGormRepository (memdb.engine ilike) in
    List.NoDup (map Email (memdb.rows t)) ->
    GetByID r t id = Ok u ->
    snd (service.DeleteUser r t id) = None
    /\ service.GetUser r (fst (service.DeleteUser r t id)) id = Err ErrUserNotFound
    /\ (forall id', id' <> id ->
          service.GetUser r (fst (service.DeleteUser r t id)) id' = service.GetUser r t id')
    /\ GetByEmail r (fst (service.DeleteUser r t id)) (Email u) = Err ErrUserNotFound
    /\ (service.validateLoginRequest login = None ->
        normalize (login_Email login) = Email u ->
        service.Login r authService bc (fst (service.DeleteUser r t id)) now login
        = Err ErrInvalidPassword).
Proof.
  intros ilike authService bc t now id u login r Hnodup Hget.
  unfold service.DeleteUser. rewrite Hget. subst r.
  cbn [GetByID GetByEmail Delete repo.NewUserGormRepository] in *.
  pose proof (gorm_GetByID_In _ _ _ _ Hget) as (Hfault & Hin & Hid).
  rewrite store_facts.gorm_Delete_memdb by exact Hfault. cbn [fst snd].
  set (t' := memdb.with_rows t _ _).
  assert (Hfault' : memdb.fault t' = None) by exact Hfault.
  assert (Hbyemail : repo.gorm_GetByEmail (memdb.engine ilike) t' (Email u)
                     = Err ErrUserNotFound).
  { rewrite store_facts.gorm_GetByEmail_memdb by exact Hfault'.
    subst t'. cbn [memdb.rows memdb.with_rows].
    rewrite service_facts.filter_nil; [reflexivity|].
    intros x Hx. apply List.filter_In in Hx. destruct Hx as [Hx Hne].
    destruct (String.eqb (Email x) (Email u)) eqn:He; [|reflexivity].
    apply String.eqb_eq in He.
    rewrite (NoDup_map_eq Email _ x u Hnodup Hx Hin He), Hid, Z.eqb_refl in Hne.
    discriminate. }
  split; [|split; [|split; [|split]]].
  - rewrite store_facts.gorm_GetByID_memdb in Hget by exact Hfault.
    destruct (List.filter (fun r => ID r =? id) (memdb.rows t)); [discriminate|reflexivity].
  - unfold service.GetUser. cbn [GetByID repo.NewUserGormRepository].
    rewrite store_facts.gorm_GetByID_memdb by exact Hfault'.
    subst t'. cbn [memdb.rows memdb.with_rows].
    rewrite store_facts.filter_negb_nil. reflexivity.
  - intros id' Hne. unfold service.GetUser. cbn [GetByID repo.NewUserGormRepository].
    rewrite !store_facts.gorm_GetByID_memdb by assumption.
    subst t'. cbn [memdb.rows memdb.with_rows].
    rewrite store_facts.filter_filter_other; [reflexivity|].
    intros x Hx. apply Z.eqb_eq in Hx. apply negb_true_iff. apply Z.eqb_neq. lia.
  - exact Hbyemail.
  - intros Hvalid Hemail. unfold service.Login. rewrite Hvalid.
    change (gostrings.ToLower (gostrings.TrimSpace (login_Email login)))
      with (normalize (login_Email login)).
    rewrite Hemail. cbn [GetByEmail repo.NewUserGormRepository].
    rewrite Hbyemail. reflexivity.
Qed.

Lemma deleted_user_is_gone_witness :
  let t := samples.table [samples.alice; samples.bob] in
  let t' := fst (service.DeleteUser samples.gormRepo t 1) in
  service.GetUser samples.gormRepo t' 1 = Err ErrUserNotFound
  /\ service.GetUser samples.gormRepo t' 2 = Ok (ToResponse samples.bob)
  /\ service.Login samples.gormRepo samples.auth samples.bcrypt t' 9000
       {| login_Email := "alice@example.com"; login_Password := "password123" |}
     = Err ErrInvalidPassword.
Proof.
  intros t t'.
  assert (Hnodup : List.NoDup (map Email (memdb.rows t))).
  { repeat constructor; cbn; intuition discriminate. }
  destruct (deleted_user_is_gone samples.ilike samples.auth samples.bcrypt t 9000 1
              samples.alice
              {| login_Email := "alice@example.com"; login_Password := "password123" |}
              Hnodup eq_refl) as (_ & Hgone & Hother & _ & Hlogin).
  split; [exact Hgone|]. split.
  - etransitivity; [apply (Hother 2); discriminate|reflexivity].
  - apply Hlogin; reflexivity.
Defined.

(** X30.  On the relational reference store, a successful [UpdateUser]
    changes the fields the request names and no other: the user then found
    under the identifier (and under the email) has the trimmed name, the
    role and the active flag of the request where it gives one, and the old
    value where it gives none; a name it gives is not empty and a role it
    gives is "user" or "admin"; the identifier, email, password and creation
    time are as before; the answer describes that user, and every other
    identifier is answered as before. *)
Theorem UpdateUser_changes_the_requested_fields :
  forall ilike (t t' : memdb.Table) (now : time.Time) (id : Z)
         (req : UserUpdateRequest) (u : User) (resp : UserResponse),
    let r := repo.NewUserGormRepository (memdb.engine ilike) in
    GetByID r t id = Ok u ->
    service.UpdateUser r t now id req = (t', Ok resp) ->
    exists u',
      GetByID r t' id = Ok u'
      /\ GetByEmail r t' (Email u) = Ok u'
      /\ resp = ToResponse u'
      /\ Name u' = match update_Name req with
                   | Some name => gostrings.TrimSpace name
                   | None => Name u
                   end
      /\ Role u' = match update_Role req with
                   | Some role => role
                   | None => Role u
                   end
      /\ Active u' = match update_Active req with
                     | Some active => active
                     | None => Active u
                     end
      /\ (update_Name req <> None -> Name u' <> "")
      /\ (update_Role req <> None -> Role u' = "user" \/ Role u' = "admin")
      /\ ID u' = ID u /\ Email u' = Email u /\ Password u' = Password u
      /\ CreatedAt u' = CreatedAt u /\ UpdatedAt u' = now
      /\ (forall id', id' <> id -> GetByID r t' id' = GetByID r t id').
Proof.
  intros ilike t t' now id req u resp r Hget Hupdate. subst r.
  cbn [GetByID GetByEmail repo.NewUserGormRepository] in *.
  destruct (UpdateUser_cases (repo.NewUserGormRepository (memdb.engine ilike))
              t now id req u Hget)
    as [[err Herr]|(user & Hid & Hemail & Hpassword & Hcreated & Hname & Hnonempty
                    & Hrole & Hknown & Hactive & Hrun)].
  { rewrite Herr in Hupdate. discriminate. }
  rewrite Hrun in Hupdate. cbn [Update repo.NewUserGormRepository] in Hupdate.
  destruct (repo.gorm_Update (memdb.engine ilike) t now (set_UpdatedAt user now))
    as [[t1 u1] [e|]] eqn:Hsave; cbn [respond] in Hupdate; [discriminate|].
  inversion Hupdate; subst t1 resp; clear Hupdate.
  destruct (gorm_Update_after_GetByID ilike t t' now id u (set_UpdatedAt user now) u1
              Hget Hid Hemail Hsave) as (Hu1 & Hfound & Hbyemail & Hother & _).
  exists u1. split; [exact Hfound|]. split; [exact Hbyemail|]. split; [reflexivity|].
  subst u1. destruct user; cbn in *.
  repeat (split; [assumption || reflexivity|]). exact Hother.
Qed.

Lemma UpdateUser_changes_the_requested_fields_witness :
  let t := samples.table [samples.alice; samples.bob] in
  let req := {| update_Name := None;
                update_Role := Some "admin";
                update_Active := Some false |} in
  exists u',
    GetByID samples.gormRepo (fst (service.UpdateUser samples.gormRepo t 9000 1 req)) 1
    = Ok u'
    /\ Name u' = Name samples.alice /\ Role u' = "admin" /\ Active u' = false
    /\ Password u' = Password samples.alice.
Proof.
  intros t req.
  assert (Hrun : service.UpdateUser samples.gormRepo t 9000 1 req
                 = (fst (service.UpdateUser samples.gormRepo t 9000 1 req),
                    Ok (ToResponse
                          (set_UpdatedAt
                             (set_Active (set_Role samples.alice "admin") false) 9000)))).
  { vm_compute. reflexivity. }
  destruct (UpdateUser_changes_the_requested_fields samples.ilike t _ 9000 1 req
              samples.alice _ eq_refl Hrun)
    as (u' & Hget & _ & _ & Hname & Hrole & Hactive & _ & _ & _ & _ & Hpassword & _).
  exists u'. split; [exact Hget|]. split; [exact Hname|]. split; [exact Hrole|].
  split; [exact Hactive|exact Hpassword].
Defined.

End user_facts.
(* ================================================================== *)
(** * The migration runner and the seeders *)
(* ================================================================== *)

Module runner_facts.
Import domain migration notions.

(** ** The order of versions is a total order *)

Lemma ascii_compare_Lt_trans (a b c : ascii) :
  Ascii.compare a b = Lt -> Ascii.compare b c = Lt -> Ascii.compare a c = Lt.
Proof.
  unfold Ascii.compare. rewrite !N.compare_lt_iff. lia.
Qed.

Lemma compare_Lt_trans (a b c : string) :
  String.compare a b = Lt -> String.compare b c = Lt -> String.compare a c = Lt.
Proof.
  revert b c. induction a as [|x a IH]; intros [|y b] [|z c]; simpl; try discriminate; auto.
  destruct (Ascii.compare x y) eqn:Hxy; try discriminate.
  - apply Ascii.compare_eq_iff in Hxy. subst y.
    destruct (Ascii.compare x z); try discriminate; auto. apply IH.
  - intros _. destruct (Ascii.compare y z) eqn:Hyz; try discriminate.
    + apply Ascii.compare_eq_iff in Hyz. subst z. rewrite Hxy. reflexivity.
    + rewrite (ascii_compare_Lt_trans _ _ _ Hxy Hyz). reflexivity.
Qed.

Lemma ltb_false_trans (a b c : string) :
  String.ltb b a = false -> String.ltb c b = false -> String.ltb c a = false.
Proof.
  unfold String.ltb. intros Hba Hcb.
  destruct (String.compare c a) eqn:Hca; try reflexivity. exfalso.
  destruct (String.compare b a) eqn:Hba'; try discriminate.
  - apply String.compare_eq_iff in Hba'. subst b. rewrite Hca in Hcb. discriminate.
  - destruct (String.compare c b) eqn:Hcb'; try discriminate.
    + apply String.compare_eq_iff in Hcb'. subst c. congruence.
    + rewrite (String.compare_antisym b a) in Hba'.
      rewrite (String.compare_antisym c b) in Hcb'.
      destruct (String.compare a b) eqn:Hab; try discriminate.
      destruct (String.compare b c) eqn:Hbc; try discriminate.
      pose proof (compare_Lt_trans _ _ _ Hab Hbc) as Hac.
      rewrite (String.compare_antisym c a), Hac in Hca. discriminate.
Qed.

Lemma ltb_irrefl (a : string) : String.ltb a a = false.
Proof.
  unfold String.ltb. pose proof (String.compare_antisym a a) as H.
  destruct (String.compare a a); try reflexivity. discriminate.
Qed.

Lemma ltb_false_antisym (a b : string) :
  String.ltb a b = false -> String.ltb b a = false -> a = b.
Proof.
  unfold String.ltb. rewrite (String.compare_antisym b a).
  destruct (String.compare a b) eqn:Hab; try discriminate.
  intros _ _. apply String.compare_eq_iff. exact Hab.
Qed.

Lemma filter_Permutation {A : Type} (p : A -> bool) (l l' : list A) :
  Permutation l l' -> Permutation (List.filter p l) (List.filter p l').
Proof.
  induction 1 as [|x l l' _ IH|x y l|l l' l'' _ IH1 _ IH2]; simpl.
  - constructor.
  - destruct (p x); [constructor|]; exact IH.
  - destruct (p x), (p y); try reflexivity. apply perm_swap.
  - etransitivity; eassumption.
Qed.

Section Runner.
Context {Schema : Type}.
Implicit Types (c : Connection Schema) (l : list (Migration Schema)) (m : Migrator Schema).

(** A sorted list is ordered from its head to every later element. *)
Lemma Sorted_hd_le (x : Migration Schema) l (y : Migration Schema) :
  Sorted (gosort.ordered less) (x :: l) -> In y l -> String.ltb (Version y) (Version x) = false.
Proof.
  revert x. induction l as [|z l IH]; intros x Hs Hy; [destruct Hy|].
  inversion Hs as [|? ? Hs' Hhd]; subst.
  inversion Hhd as [|? ? Hxz]; subst. unfold gosort.ordered, less in Hxz.
  destruct Hy as [->|Hy]; [exact Hxz|].
  apply (ltb_false_trans _ (Version z)); [exact Hxz|]. apply IH; assumption.
Qed.

(** Migrations with distinct versions have one sorted order. *)
Lemma Sorted_unique l l' :
  Sorted (gosort.ordered less) l -> Sorted (gosort.ordered less) l' ->
  Permutation l l' -> List.NoDup (map Version l) -> l = l'.
Proof.
  revert l'. induction l as [|x l IH]; intros l' Hs Hs' Hperm Hnodup.
  - apply Permutation_nil in Hperm. congruence.
  - destruct l' as [|y l'].
    { apply Permutation_sym, Permutation_nil in Hperm. discriminate. }
    assert (Hxy : x = y).
    { assert (Hx : In x (y :: l')) by (apply (Permutation_in _ Hperm); left; reflexivity).
      assert (Hy : In y (x :: l))
        by (apply (Permutation_in _ (Permutation_sym Hperm)); left; reflexivity).
      destruct Hx as [Hx|Hx]; [congruence|].
      destruct Hy as [Hy|Hy]; [congruence|].
      apply (user_facts.NoDup_map_eq Version (x :: l)); auto.
      - left. reflexivity.
      - right. exact Hy.
      - apply ltb_false_antisym.
        + apply (Sorted_hd_le y l' x Hs' Hx).
        + apply (Sorted_hd_le x l y Hs Hy). }
    subst y. f_equal. apply IH.
    + inversion Hs; assumption.
    + inversion Hs'; assumption.
    + apply (Permutation_cons_inv Hperm).
    + inversion Hnodup; assumption.
Qed.

Lemma less_asym (a b : Migration Schema) : less a b = true -> less b a = false.
Proof. apply migration_facts.ltb_asym. Qed.

(** X16.  The order in which the migrations are registered does not
    matter: two migrators on the same database whose registered migrations
    are the same up to their order, with distinct versions, run the same
    forward actions in the same order, and end with the same database, log
    and error. *)
Theorem Migrate_ignores_registration_order :
  forall (m m' : Migrator Schema) (now : time.Time),
    db m' = db m ->
    Permutation (migrations m) (migrations m') ->
    List.NoDup (map Version (migrations m)) ->
    Migrate m' now = Migrate m now.
Proof.
  intros m m' now Hdb Hperm Hnodup.
  assert (Hsorted : gosort.Slice less (migrations m') = gosort.Slice less (migrations m)).
  { symmetry. apply Sorted_unique.
    - apply sort_facts.Slice_Sorted. exact less_asym.
    - apply sort_facts.Slice_Sorted. exact less_asym.
    - rewrite sort_facts.Slice_Permutation, sort_facts.Slice_Permutation. exact Hperm.
    - apply (Permutation_NoDup (l := map Version (migrations m))); [|exact Hnodup].
      apply Permutation_map, Permutation_sym, sort_facts.Slice_Permutation. }
  unfold Migrate. rewrite Hsorted, Hdb. reflexivity.
Qed.

(** ** What a successful run has done *)

Lemma registered_migrator (registered : list (Migration Schema)) c :
  fold_left AddMigration registered (NewMigrator c) = {| db := c; migrations := registered |}.
Proof.
  unfold NewMigrator.
  assert (H : forall acc, fold_left AddMigration registered {| db := c; migrations := acc |}
                          = {| db := c; migrations := (acc ++ registered)%list |}).
  { induction registered as [|x l IH]; intros acc; simpl.
    - rewrite List.app_nil_r. reflexivity.
    - unfold AddMigration at 2. simpl. rewrite IH, <- List.app_assoc. reflexivity. }
  apply H.
Qed.

(** The lookup in the map of executed versions is the search of the
    ledger. *)
Lemma executed_pending c executed (mig : Migration Schema) :
  getExecutedMigrations c = Ok executed ->
  match executed !! Version mig with Some _ => false | None => true end
  = pending (ledger c) mig.
Proof.
  intros Hexec. unfold pending.
  pose proof (migration_facts.executed_spec c executed (Version mig) Hexec) as Hspec.
  destruct (executed !! Version mig) as [b|] eqn:Hlookup.
  - assert (Hin : In (Version mig) (versions (ledger c))) by (apply Hspec; eauto).
    symmetry. apply negb_false_iff. apply existsb_exists.
    exists (Version mig). split; [exact Hin|apply String.eqb_refl].
  - symmetry. apply negb_true_iff.
    destruct (existsb _ (versions (ledger c))) eqn:Hex; [|reflexivity].
    apply existsb_exists in Hex. destruct Hex as (v & Hv & Heq).
    apply String.eqb_eq in Heq. subst v.
    apply Hspec in Hv. destruct Hv as [x Hx]. congruence.
Qed.

Lemma runPending_applied executed now l : forall c c' log,
  runPending executed c now l = (c', log, None) ->
  let todo := List.filter (fun mig => match executed !! Version mig with
                                      | Some _ => false
                                      | None => true
                                      end) l in
  schema c' = applied todo (schema c)
  /\ concat (map ran log) = map Version todo
  /\ versions (ledger c') = (versions (ledger c) ++ map Version todo)%list.
Proof.
  induction l as [|mig rest IH]; intros c c' log; simpl.
  - intros H. inversion H; subst. rewrite List.app_nil_r. repeat split.
  - destruct (executed !! Version mig) as [b|].
    + destruct (runPending executed c now rest) as [[c1 log1] err1] eqn:Hrest.
      intros H. inversion H; subst. apply IH in Hrest. exact Hrest.
    + destruct (Up mig (schema c)) as [s1 [err|]] eqn:Hup; [discriminate|].
      destruct (recordMigration (with_schema c s1) now mig) as [c2 [err|]] eqn:Hrec;
        [discriminate|].
      destruct (runPending executed c2 now rest) as [[c3 log3] err3] eqn:Hrest.
      intros H. inversion H; subst. apply IH in Hrest. cbv zeta in Hrest.
      destruct Hrest as (Hschema & Hran & Hledger).
      apply migration_facts.recordMigration_ok in Hrec.
      destruct Hrec as (Hversions & _ & _ & _ & Hs2).
      cbn [map concat ran app]. unfold applied in *. cbn [fold_left].
      rewrite Hup. cbn [fst]. rewrite Hschema, Hs2, Hran, Hledger, Hversions.
      cbn [schema with_schema ledger]. rewrite <- List.app_assoc. repeat split.
Qed.

Lemma Migrate_applies_pending_sorted (m m' : Migrator Schema) now (log : list Event) :
  Migrate m now = (m', log, None) ->
  let todo := List.filter (pending (ledger (db m))) (gosort.Slice less (migrations m)) in
  schema (db m') = applied todo (schema (db m))
  /\ concat (map ran log) = map Version todo
  /\ versions (ledger (db m')) = (versions (ledger (db m)) ++ map Version todo)%list.
Proof.
  unfold Migrate.
  destruct (ensureMigrationTracking (db m)); [discriminate|].
  destruct (getExecutedMigrations (db m)) as [executed|] eqn:Hexec; [|discriminate].
  destruct (runPending executed (db m) now (gosort.Slice less (migrations m)))
    as [[c' log'] err] eqn:Hrun.
  intros H. inversion H; subst. cbn [db].
  apply runPending_applied in Hrun. cbv zeta in Hrun |- *.
  rewrite (List.filter_ext _ (pending (ledger (db m)))) in Hrun; [exact Hrun|].
  intros mig. apply executed_pending. exact Hexec.
Qed.

(** X17.  A run of [Migrate] that ends without error has executed the
    forward actions of exactly the registered migrations whose version the
    ledger did not hold, each once, in ascending order of version: the
    rest of the database is what these actions leave one after the other,
    the log shows them as run in that order, and the ledger is the ledger
    before the run followed by their versions. *)
Theorem Migrate_applies_pending_in_order :
  forall (m m' : Migrator Schema) (now : time.Time) (log : list Event),
    Migrate m now = (m', log, None) ->
    let todo := List.filter (pending (ledger (db m))) (gosort.Slice less (migrations m)) in
    schema (db m') = applied todo (schema (db m))
    /\ concat (map ran log) = map Version todo
    /\ versions (ledger (db m')) = (versions (ledger (db m)) ++ map Version todo)%list.
Proof.
  intros m m' now log. apply Migrate_applies_pending_sorted.
Qed.

Lemma recordMigration_new c now (mig : Migration Schema) :
  GORM c || Mongo c = true ->
  existsb (fun r => String.eqb (rec_version r) (Version mig)) (ledger c) = false ->
  recordMigration c now mig
  = ({| GORM := GORM c; Mongo := Mongo c;
        ledger := (ledger c ++ [{| rec_version := Version mig;
                                   rec_description := Description mig;
                                   executed_at := now |}])%list;
        schema := schema c |}, None).
Proof. intros Hconn Hnew. unfold recordMigration. rewrite Hconn, Hnew. reflexivity. Qed.

Lemma recordMigration_dup c now (mig : Migration Schema) :
  GORM c || Mongo c = true ->
  existsb (fun r => String.eqb (rec_version r) (Version mig)) (ledger c) = true ->
  exists cause, recordMigration c now mig = (c, Some cause).
Proof.
  intros Hconn Hdup. unfold recordMigration. rewrite Hconn, Hdup. eexists. reflexivity.
Qed.

(** X18.  [Migrate] does not notice two registered migrations with the
    same version.  When the ledger does not hold it, the forward actions of
    both run, one after the other, since the run looks versions up in the
    ledger as it was at the start; the second cannot be recorded, and the
    run ends with the error "failed to record migration", the version once
    in the ledger and both actions applied. *)
Theorem Migrate_runs_a_duplicate_version_twice :
  forall c (now : time.Time) (a b : Migration Schema) (sa sb : Schema),
    GORM c || Mongo c = true ->
    Version a = Version b ->
    pending (ledger c) a = true ->
    Up a (schema c) = (sa, None) ->
    Up b sa = (sb, None) ->
    exists m' cause,
      Migrate {| db := c; migrations := [a; b] |} now
      = (m', [Running (Version a) (Description a); Completed (Version a);
              Running (Version b) (Description b)],
         Some (failedRecord (Version b) cause))
      /\ schema (db m') = sb
      /\ versions (ledger (db m')) = (versions (ledger c) ++ [Version a])%list.
Proof.
  intros c now a b sa sb Hconn Hversion Hpending Hupa Hupb.
  assert (Htracking : ensureMigrationTracking c = None).
  { unfold ensureMigrationTracking. destruct (GORM c), (Mongo c); try reflexivity.
    discriminate. }
  destruct (migration_facts.tracking_executed c Htracking) as [executed Hexec].
  assert (Hnew : executed !! Version a = None).
  { pose proof (executed_pending c executed a Hexec) as H. rewrite Hpending in H.
    destruct (executed !! Version a); [discriminate|reflexivity]. }
  assert (Hnotin : existsb (fun r => String.eqb (rec_version r) (Version a)) (ledger c)
                   = false).
  { unfold pending in Hpending. apply negb_true_iff in Hpending.
    destruct (existsb _ (ledger c)) eqn:Hex; [|reflexivity].
    apply existsb_exists in Hex. destruct Hex as (r & Hr & Heq).
    assert (Hin : existsb (String.eqb (Version a)) (versions (ledger c)) = true).
    { apply existsb_exists. exists (rec_version r). split; [apply in_map; exact Hr|].
      rewrite String.eqb_sym. exact Heq. }
    congruence. }
  unfold Migrate. cbn [db migrations].
  assert (Hsorted : gosort.Slice less [a; b] = [a; b]).
  { cbn. unfold less. rewrite Hversion, ltb_irrefl. reflexivity. }
  rewrite Hsorted, Htracking, Hexec. cbn [runPending].
  assert (Hnew' : executed !! Version b = None) by (rewrite <- Hversion; exact Hnew).
  rewrite Hnew, Hupa.
  rewrite (recordMigration_new (with_schema c sa) now a Hconn Hnotin).
  rewrite Hnew'. cbn [schema with_schema ledger GORM Mongo]. rewrite Hupb.
  match goal with
  | |- context [recordMigration ?c2 now b] =>
      destruct (recordMigration_dup c2 now b) as [cause Hdup]
  end.
  { exact Hconn. }
  { unfold with_schema. cbn [ledger]. rewrite existsb_app. cbn [existsb rec_version].
    rewrite Hversion, String.eqb_refl. apply orb_true_r. }
  rewrite Hdup. eexists _, cause. split; [reflexivity|].
  cbn. unfold versions. rewrite map_app. split; reflexivity.
Qed.

(** ** Seeding *)

Lemma Seed_log c (seeders : list (Seeder Schema)) (env : string) :
  forall c' log err,
    Seed c seeders env = (c', log, err) ->
    ledger c' = ledger c /\ GORM c' = GORM c /\ Mongo c' = Mongo c
    /\ (exists k, concat (map started log) = firstn k (map Name (enabled env seeders)))
    /\ (err = None ->
        concat (map started log) = map Name (enabled env seeders)
        /\ schema c' = seededBy (enabled env seeders) (schema c))
    /\ (forall e, err = Some e ->
          exists pre seeder cause,
            In seeder (enabled env seeders)
            /\ concat (map started log) = (pre ++ [Name seeder])%list
            /\ e = failedSeeder (Name seeder) cause).
Proof.
  revert c. induction seeders as [|seeder rest IH]; intros c c' log err; simpl.
  - intros H. inversion H; subst.
    split; [reflexivity|]. split; [reflexivity|]. split; [reflexivity|].
    split; [exists 0%nat; reflexivity|].
    split; [intros _; split; reflexivity|]. intros e He. discriminate.
  - unfold enabled. cbn [List.filter]. fold (enabled env rest).
    destruct (ShouldRun seeder env) eqn:Hshould; cbn [negb].
    + destruct (Run seeder (schema c)) as [s1 [cause|]] eqn:Hrun.
      * intros H. inversion H; subst. cbn.
        split; [reflexivity|]. split; [reflexivity|]. split; [reflexivity|].
        split; [exists 1%nat; reflexivity|].
        split; [intros He; discriminate|].
        intros e He. inversion He; subst. exists [], seeder, cause.
        split; [left; reflexivity|]. split; reflexivity.
      * destruct (Seed (with_schema c s1) rest env) as [[c1 log1] err1] eqn:Hrest.
        intros H. inversion H; subst. apply IH in Hrest.
        destruct Hrest as (Hl & Hg & Hm & (k & Hk) & Hok & Hfail).
        cbn [map concat started app].
        split; [exact Hl|]. split; [exact Hg|]. split; [exact Hm|].
        split; [exists (S k); cbn; rewrite Hk; reflexivity|]. split.
        -- intros He. destruct (Hok He) as [Hnames Hschema].
           split; [cbn; rewrite Hnames; reflexivity|].
           unfold seededBy in *. cbn [fold_left]. rewrite Hrun. exact Hschema.
        -- intros e He. destruct (Hfail e He) as (pre & sd & cause & Hin & Hlog & Hcause).
           exists (Name seeder :: pre), sd, cause.
           split; [right; exact Hin|]. split; [cbn; rewrite Hlog; reflexivity|exact Hcause].
    + destruct (Seed c rest env) as [[c1 log1] err1] eqn:Hrest.
      intros H. inversion H; subst. apply IH in Hrest.
      destruct Hrest as (Hl & Hg & Hm & Hk & Hok & Hfail).
      cbn [map concat started app].
      split; [exact Hl|]. split; [exact Hg|]. split; [exact Hm|].
      split; [exact Hk|]. split; [exact Hok|exact Hfail].
Qed.

(** X19.  [Seed] runs the seeders whose [ShouldRun] accepts the
    environment, and no other, in the order of their registration, and
    stops at the first that fails: the seeders its log shows as started are
    a prefix of them; without error they all ran and the rest of the
    database is what they leave one after the other; an error is the
    failure of the last seeder started, wrapped with its name.  The ledger
    is never touched. *)
Theorem Seed_runs_the_enabled_seeders :
  forall c (seeders : list (Seeder Schema)) (env : string),
    let '(c', log, err) := Seed c seeders env in
    ledger c' = ledger c
    /\ (exists k, concat (map started log) = firstn k (map Name (enabled env seeders)))
    /\ (err = None ->
        concat (map started log) = map Name (enabled env seeders)
        /\ schema c' = seededBy (enabled env seeders) (schema c))
    /\ (forall e, err = Some e ->
          exists pre seeder cause,
            In seeder (enabled env seeders)
            /\ concat (map started log) = (pre ++ [Name seeder])%list
            /\ e = failedSeeder (Name seeder) cause).
Proof.
  intros c seeders env.
  destruct (Seed c seeders env) as [[c' log] err] eqn:Hseed.
  destruct (Seed_log _ _ _ _ _ _ Hseed) as (Hl & _ & _ & Hk & Hok & Hfail).
  auto.
Qed.

(** X20.  [RunMigrations] seeds only a database it has migrated: when
    [Migrate] fails, its error is returned and no seeder has run; when it
    succeeds, the seeders enabled for the environment run on the migrated
    database, and the ledger is the one [Migrate] left. *)
Theorem RunMigrations_seeds_after_migrating :
  forall (registered : list (Migration Schema)) (seeders : list (Seeder Schema))
         c (now : time.Time) (env : string),
    let '(m', log, failure) := Migrate {| db := c; migrations := registered |} now in
    let '(c', log', seeded, err) := RunMigrations registered seeders c now env in
    log' = log
    /\ ledger c' = ledger (db m')
    /\ (forall e, failure = Some e -> err = Some e /\ seeded = [] /\ c' = db m')
    /\ (failure = None ->
        (c', seeded, err) = Seed (db m') seeders env
        /\ exists k, concat (map started seeded) = firstn k (map Name (enabled env seeders))).
Proof.
  intros registered seeders c now env. unfold RunMigrations.
  rewrite registered_migrator.
  destruct (Migrate {| db := c; migrations := registered |} now) as [[m' log] [e|]].
  - split; [reflexivity|]. split; [reflexivity|]. split.
    + intros e' He. inversion He. split; [reflexivity|]. split; reflexivity.
    + intros He. discriminate.
  - destruct (Seed (db m') seeders env) as [[c' seeded] err] eqn:Hseed.
    destruct (Seed_log _ _ _ _ _ _ Hseed) as (Hl & _ & _ & Hk & _ & _).
    split; [reflexivity|]. split; [exact Hl|]. split.
    + intros e He. discriminate.
    + intros _. split; [reflexivity|exact Hk].
Qed.

(** ** The check of the command *)

(** X21.  [checkPendingMigrations] reports what [Migrate] would run: when
    a run of [Migrate] over the registered migrations ends without error,
    the versions the check reported as pending before it are, up to their
    order, the versions whose forward action the run executed, and the
    check after the run reports none. *)
Theorem checkPendingMigrations_agrees_with_Migrate :
  forall (registered : list (Migration Schema)) c (now : time.Time)
         (m' : Migrator Schema) (log : list Event),
    Migrate {| db := c; migrations := registered |} now = (m', log, None) ->
    exists reported,
      cmd_migrate.checkPendingMigrations registered c = Ok reported
      /\ Permutation (map fst reported) (concat (map ran log))
      /\ cmd_migrate.checkPendingMigrations registered (db m') = Ok [].
Proof.
  intros registered c now m' log Hrun.
  pose proof (Migrate_applies_pending_sorted _ _ _ _ Hrun) as Happlied.
  cbn [db migrations] in Happlied. destruct Happlied as (_ & Hran & Hledger).
  revert Hrun. unfold Migrate. cbn [db migrations].
  unfold cmd_migrate.checkPendingMigrations. rewrite !registered_migrator. cbn [db migrations].
  destruct (ensureMigrationTracking c) eqn:Htracking; [discriminate|].
  destruct (getExecutedMigrations c) as [executed|] eqn:Hexec; [|discriminate].
  destruct (runPending executed c now (gosort.Slice less registered))
    as [[c' log'] err] eqn:Hpending.
  intros H. inversion H; subst. cbn [db] in *.
  destruct (migration_facts.runPending_ledger _ _ _ _ _ _ _ Hpending) as (_ & _ & Hg & Hm).
  assert (Htracking' : ensureMigrationTracking c' = None).
  { unfold ensureMigrationTracking in *. rewrite Hg, Hm. exact Htracking. }
  destruct (migration_facts.tracking_executed c' Htracking') as [executed' Hexec'].
  rewrite Htracking', Hexec'.
  eexists. split; [reflexivity|]. split.
  - rewrite Hran, map_map. cbn [fst].
    rewrite (List.filter_ext _ (pending (ledger c)))
      by (intros mig; apply executed_pending; exact Hexec).
    apply Permutation_map. apply filter_Permutation.
    apply Permutation_sym, sort_facts.Slice_Permutation.
  - rewrite service_facts.filter_nil; [reflexivity|].
    intros mig Hmig. rewrite (executed_pending c' executed' mig Hexec').
    unfold pending. apply negb_false_iff. apply existsb_exists.
    exists (Version mig). split; [|apply String.eqb_refl].
    apply (migration_facts.runPending_covers _ _ _ _ _ _ Hpending).
    + intros v Hv. apply (migration_facts.executed_spec c executed v Hexec). exact Hv.
    + apply sort_facts.Slice_In. exact Hmig.
Qed.

End Runner.

Lemma Migrate_ignores_registration_order_witness :
  Migrate (samples.migrator [samples.addUserAvatar; samples.createUsers]) 1%Z
  = Migrate (samples.migrator [samples.createUsers; samples.addUserAvatar]) 1%Z.
Proof.
  apply (Migrate_ignores_registration_order
           (samples.migrator [samples.createUsers; samples.addUserAvatar])
           (samples.migrator [samples.addUserAvatar; samples.createUsers]) 1%Z eq_refl).
  - apply perm_swap.
  - repeat constructor; cbn; intuition discriminate.
Defined.

Lemma Migrate_applies_pending_in_order_witness :
  let run := Migrate (samples.migrator [samples.addUserAvatar; samples.createUsers]) 1%Z in
  schema (db (fst (fst run))) = ["users"; "users.avatar"]
  /\ concat (map ran (snd (fst run))) = ["20240815120000"; "20240815130000"].
Proof.
  intros run.
  assert (Hrun : run = (fst (fst run), snd (fst run), None)) by (vm_compute; reflexivity).
  destruct (Migrate_applies_pending_in_order _ _ _ _ Hrun) as (Hschema & Hran & _).
  split; [exact Hschema|exact Hran].
Defined.

Lemma Migrate_runs_a_duplicate_version_twice_witness :
  exists m' cause,
    Migrate (samples.migrator [samples.createUsers; samples.createUsers]) 1%Z
    = (m', [Running "20240815120000" "Create users table/collection";
            Completed "20240815120000";
            Running "20240815120000" "Create users table/collection"],
       Some (failedRecord "20240815120000" cause))
    /\ schema (db m') = ["users"; "users"]
    /\ versions (ledger (db m')) = ["20240815120000"].
Proof.
  destruct (Migrate_runs_a_duplicate_version_twice samples.emptyDatabase 1%Z
              samples.createUsers samples.createUsers ["users"] ["users"; "users"]
              eq_refl eq_refl eq_refl eq_refl eq_refl)
    as (m' & cause & Hrun & Hschema & Hledger).
  exists m', cause. split; [exact Hrun|]. split; [exact Hschema|exact Hledger].
Defined.

Lemma checkPendingMigrations_agrees_with_Migrate_witness :
  let registered := [samples.addUserAvatar; samples.createUsers] in
  let run := Migrate (samples.migrator registered) 1%Z in
  cmd_migrate.checkPendingMigrations registered samples.emptyDatabase
  = Ok [("20240815130000", "Add avatar field to users");
        ("20240815120000", "Create users table/collection")]
  /\ cmd_migrate.checkPendingMigrations registered (db (fst (fst run))) = Ok [].
Proof.
  intros registered run.
  assert (Hrun : run = (fst (fst run), snd (fst run), None)) by (vm_compute; reflexivity).
  destruct (checkPendingMigrations_agrees_with_Migrate registered samples.emptyDatabase
              1%Z _ _ Hrun) as (reported & Hbefore & _ & Hafter).
  split; [reflexivity|exact Hafter].
Defined.

(** ** The seeders of the users *)

Lemma memdb_Create_success (t t' : memdb.Table) now (user user' : User) res :
  memdb.Create t now user = (t', user', res) ->
  gorm.res_Error res = None ->
  memdb.fault t = None /\ memdb.fault t' = None
  /\ Email user' = Email user
  /\ memdb.rows t' = (memdb.rows t ++ [user'])%list.
Proof.
  unfold memdb.Create. destruct (memdb.fault t) as [err|] eqn:Hfault.
  { intros H. inversion H; subst. discriminate. }
  destruct (existsb _ (memdb.rows t)); [intros H; inversion H; subst; discriminate|].
  destruct (existsb _ (memdb.rows t)); [intros H; inversion H; subst; discriminate|].
  intros H _. inversion H; subst. cbn. rewrite Hfault. repeat split.
Qed.

Lemma memdb_Create_failure (t t' : memdb.Table) now (user user' : User) res err :
  memdb.Create t now user = (t', user', res) ->
  gorm.res_Error res = Some err -> t' = t.
Proof.
  unfold memdb.Create. destruct (memdb.fault t).
  { intros H. inversion H; reflexivity. }
  destruct (existsb _ (memdb.rows t)); [intros H; inversion H; reflexivity|].
  destruct (existsb _ (memdb.rows t)); [intros H; inversion H; reflexivity|].
  intros H. inversion H; subst. discriminate.
Qed.

Lemma memdb_First_email ilike (t : memdb.Table) (email : string) (r : User) :
  memdb.fault t = None -> In r (memdb.rows t) -> Email r = email ->
  exists u, memdb.First ilike t (gorm.EmailEq email) = Ok u.
Proof.
  intros Hfault Hin Hemail. unfold memdb.First, memdb.select. rewrite Hfault.
  destruct (List.filter _ (memdb.rows t)) as [|u us] eqn:Hf; [|eauto].
  exfalso.
  assert (Hr : In r (List.filter (memdb.holds ilike (gorm.EmailEq email)) (memdb.rows t))).
  { apply List.filter_In. split; [exact Hin|]. cbn. rewrite Hemail. apply String.eqb_refl. }
  rewrite Hf in Hr. destruct Hr.
Qed.

Lemma memdb_First_found ilike (t : memdb.Table) (email : string) (u : User) :
  memdb.First ilike t (gorm.EmailEq email) = Ok u ->
  memdb.fault t = None /\ In u (memdb.rows t) /\ Email u = email.
Proof.
  unfold memdb.First, memdb.select. destruct (memdb.fault t); [discriminate|].
  destruct (List.filter _ (memdb.rows t)) as [|x xs] eqn:Hf; [discriminate|].
  intros H. inversion H; subst x. split; [reflexivity|].
  assert (Hin : In u (List.filter (memdb.holds ilike (gorm.EmailEq email)) (memdb.rows t))).
  { rewrite Hf. left. reflexivity. }
  apply List.filter_In in Hin. destruct Hin as [Hin Hheld].
  split; [exact Hin|]. apply String.eqb_eq. exact Hheld.
Qed.

Lemma test_seedSQL_fault ilike now (users : list User) :
  forall (t t' : memdb.Table),
    seeders.test_seedSQL (memdb.engine ilike) t now users = (t', None) ->
    memdb.fault t = None -> memdb.fault t' = None.
Proof.
  induction users as [|x xs IH]; intros t t'; cbn [seeders.test_seedSQL].
  - intros H. inversion H; subst. auto.
  - cbn [gorm.db_First gorm.db_Create memdb.engine].
    destruct (memdb.First ilike t _); [apply IH|].
    destruct (negb _); [discriminate|].
    destruct (memdb.Create t now x) as [[t1 x1] res] eqn:Hcreate.
    destruct (gorm.res_Error res) eqn:Hres; [discriminate|].
    intros Hxs Hfault. apply (IH _ _ Hxs).
    apply (memdb_Create_success _ _ _ _ _ _ Hcreate Hres).
Qed.

(** Whatever its outcome, [seedSQL] only adds rows. *)
Lemma test_seedSQL_grows ilike now (users : list User) :
  forall (t : memdb.Table),
    exists added,
      memdb.rows (fst (seeders.test_seedSQL (memdb.engine ilike) t now users))
      = (memdb.rows t ++ added)%list.
Proof.
  induction users as [|x xs IH]; intros t; cbn [seeders.test_seedSQL].
  - exists []. rewrite List.app_nil_r. reflexivity.
  - cbn [gorm.db_First gorm.db_Create memdb.engine].
    destruct (memdb.First ilike t _); [apply IH|].
    destruct (negb _); [exists []; rewrite List.app_nil_r; reflexivity|].
    destruct (memdb.Create t now x) as [[t1 x1] res] eqn:Hcreate.
    destruct (gorm.res_Error res) as [err|] eqn:Hres.
    + rewrite (memdb_Create_failure _ _ _ _ _ _ _ Hcreate Hres).
      exists []. rewrite List.app_nil_r. reflexivity.
    + destruct (memdb_Create_success _ _ _ _ _ _ Hcreate Hres) as (_ & _ & _ & Hrows).
      destruct (IH t1) as [added Hadded].
      exists ([x1] ++ added)%list. rewrite Hadded, Hrows, <- List.app_assoc. reflexivity.
Qed.

(** A successful run of [seedSQL] leaves every email of the users in the
    table, so that a later run for users with these emails finds them all. *)
Lemma test_seedSQL_again ilike now now' (users : list User) :
  forall (t t' : memdb.Table),
    seeders.test_seedSQL (memdb.engine ilike) t now users = (t', None) ->
    (exists added, memdb.rows t' = (memdb.rows t ++ added)%list)
    /\ (forall users', map Email users' = map Email users ->
          seeders.test_seedSQL (memdb.engine ilike) t' now' users' = (t', None)).
Proof.
  induction users as [|user rest IH]; intros t t'; cbn [seeders.test_seedSQL].
  - intros H. inversion H; subst. split; [exists []; rewrite List.app_nil_r; reflexivity|].
    intros [|u' rest'] Hemails; [reflexivity|discriminate].
  - cbn [gorm.db_First gorm.db_Create memdb.engine].
    destruct (memdb.First ilike t (gorm.EmailEq (Email user))) as [found|err] eqn:Hfirst.
    + intros Hrest. destruct (IH _ _ Hrest) as [[added Hadded] Hagain].
      split; [exists added; exact Hadded|].
      intros [|u' rest'] Hemails; [discriminate|]. inversion Hemails as [[Hemail Hrest']].
      cbn [seeders.test_seedSQL gorm.db_First memdb.engine].
      apply memdb_First_found in Hfirst. destruct Hfirst as (Hfault & Hin & Hfound).
      pose proof (test_seedSQL_fault _ _ _ _ _ Hrest Hfault) as Hfault'.
      destruct (memdb_First_email ilike t' (Email u') found Hfault') as [u Hu].
      { rewrite Hadded. apply in_or_app. left. exact Hin. }
      { congruence. }
      rewrite Hu. apply Hagain. exact Hrest'.
    + destruct (negb (isLib gorm_ErrRecordNotFound err)); [discriminate|].
      destruct (memdb.Create t now user) as [[t1 user1] res] eqn:Hcreate.
      destruct (gorm.res_Error res) eqn:Hres; [discriminate|].
      intros Hrest. destruct (IH _ _ Hrest) as [[added Hadded] Hagain].
      destruct (memdb_Create_success _ _ _ _ _ _ Hcreate Hres)
        as (Hfault & Hfault1 & Hemail1 & Hrows1).
      split.
      { exists ([user1] ++ added)%list. rewrite Hadded, Hrows1, <- List.app_assoc.
        reflexivity. }
      intros [|u' rest'] Hemails; [discriminate|]. inversion Hemails as [[Hemail Hrest']].
      cbn [seeders.test_seedSQL gorm.db_First memdb.engine].
      pose proof (test_seedSQL_fault _ _ _ _ _ Hrest Hfault1) as Hfault'.
      destruct (memdb_First_email ilike t' (Email u') user1 Hfault') as [u Hu].
      { rewrite Hadded, Hrows1. apply in_or_app. left. apply in_or_app. right.
        left. reflexivity. }
      { congruence. }
      rewrite Hu. apply Hagain. exact Hrest'.
Qed.

Lemma hashAll_emails (bc : Bcrypt) (users hashed : list User) :
  seeders.hashAll bc users = Ok hashed -> map Email hashed = map Email users.
Proof.
  revert hashed. induction users as [|u us IH]; intros hashed; cbn [seeders.hashAll].
  - intros H. inversion H. reflexivity.
  - unfold HashPassword. destruct (GenerateFromPassword bc (Password u)); [|discriminate].
    destruct (seeders.hashAll bc us) as [rest|]; [|discriminate].
    intros H. inversion H. cbn. rewrite (IH rest eq_refl). reflexivity.
Qed.

Lemma hashAll_passwords (bc : Bcrypt) (users users' hashed : list User) :
  map Password users' = map Password users ->
  seeders.hashAll bc users = Ok hashed ->
  exists hashed', seeders.hashAll bc users' = Ok hashed'.
Proof.
  revert users' hashed. induction users as [|u us IH]; intros [|u' us'] hashed Hp;
    try discriminate; cbn [seeders.hashAll].
  - eauto.
  - inversion Hp as [[Hpu Hpus]]. unfold HashPassword. rewrite Hpu.
    destruct (GenerateFromPassword bc (Password u)); [|discriminate].
    destruct (seeders.hashAll bc us) as [rest|] eqn:Hrest; [|discriminate].
    intros _. destruct (IH us' rest Hpus eq_refl) as [rest' ->]. eauto.
Qed.

(** X22.  On the relational reference store the seeders insert once and
    overwrite nothing: whatever its outcome, a run of [AdminUserSeeder] or
    of [TestUsersSeeder] leaves the rows that were there as they were and
    only adds rows behind them, and a run that succeeded, repeated at any
    later time, succeeds again and changes nothing. *)
Theorem seeders_insert_once :
  forall ilike (bc : Bcrypt) (now now' : time.Time) (t : memdb.Table),
    let gormDB := memdb.engine ilike in
    (forall t', seeders.AdminUserSeeder_Run gormDB bc now t = (t', None) ->
                seeders.AdminUserSeeder_Run gormDB bc now' t' = (t', None))
    /\ (forall t', seeders.TestUsersSeeder_Run gormDB bc now t = (t', None) ->
                   seeders.TestUsersSeeder_Run gormDB bc now' t' = (t', None))
    /\ (exists added,
           memdb.rows (fst (seeders.AdminUserSeeder_Run gormDB bc now t))
           = (memdb.rows t ++ added)%list)
    /\ (exists added,
           memdb.rows (fst (seeders.TestUsersSeeder_Run gormDB bc now t))
           = (memdb.rows t ++ added)%list).
Proof.
  intros ilike bc now now' t gormDB. subst gormDB.
  assert (Hkeep : exists added : list User, memdb.rows t = (memdb.rows t ++ added)%list).
  { exists []. rewrite List.app_nil_r. reflexivity. }
  split; [|split; [|split]].
  - intros t'. unfold seeders.AdminUserSeeder_Run, HashPassword, seeders.adminUser.
    cbn [Password].
    destruct (GenerateFromPassword bc "admin123456") as [digest|]; [|discriminate].
    unfold seeders.admin_seedSQL. cbn [Email gorm.db_First gorm.db_Create memdb.engine].
    destruct (memdb.First ilike t (gorm.EmailEq "admin@example.com")) as [found|err]
      eqn:Hfirst.
    + intros H. inversion H; subst. rewrite Hfirst. reflexivity.
    + destruct (negb (isLib gorm_ErrRecordNotFound err)); [discriminate|].
      destruct (memdb.Create t now _) as [[t1 user1] res] eqn:Hcreate.
      intros H. inversion H as [[Ht Hres]]. subst t1.
      destruct (memdb_Create_success _ _ _ _ _ _ Hcreate Hres)
        as (_ & Hfault' & Hemail & Hrows).
      destruct (memdb_First_email ilike t' "admin@example.com" user1 Hfault') as [u ->].
      * rewrite Hrows. apply in_or_app. right. left. reflexivity.
      * exact Hemail.
      * reflexivity.
  - intros t'. unfold seeders.TestUsersSeeder_Run.
    destruct (seeders.hashAll bc (seeders.testUsers now)) as [hashed|] eqn:Hhash;
      [|discriminate].
    intros Hseed.
    destruct (hashAll_passwords bc (seeders.testUsers now) (seeders.testUsers now') hashed
                eq_refl Hhash) as [hashed' Hhash'].
    rewrite Hhash'.
    apply (test_seedSQL_again ilike now now' hashed t t' Hseed).
    rewrite (hashAll_emails _ _ _ Hhash), (hashAll_emails _ _ _ Hhash'). reflexivity.
  - unfold seeders.AdminUserSeeder_Run, HashPassword.
    destruct (GenerateFromPassword bc _) as [digest|]; [|exact Hkeep].
    unfold seeders.admin_seedSQL. cbn [gorm.db_First gorm.db_Create memdb.engine].
    destruct (memdb.First ilike t _) as [found|err]; [exact Hkeep|].
    destruct (negb (isLib gorm_ErrRecordNotFound err)); [exact Hkeep|].
    destruct (memdb.Create t now _) as [[t1 user1] res] eqn:Hcreate.
    destruct (gorm.res_Error res) as [e|] eqn:Hres.
    + rewrite (memdb_Create_failure _ _ _ _ _ _ _ Hcreate Hres). exact Hkeep.
    + destruct (memdb_Create_success _ _ _ _ _ _ Hcreate Hres) as (_ & _ & _ & Hrows).
      exists [user1]. exact Hrows.
  - unfold seeders.TestUsersSeeder_Run.
    destruct (seeders.hashAll bc (seeders.testUsers now)) as [hashed|]; [|exact Hkeep].
    apply test_seedSQL_grows.
Qed.

End runner_facts.
(* ================================================================== *)
(** * The middleware *)
(* ================================================================== *)

Module http_facts.
Import domain notions.
Local Open Scope Z_scope.

(** ** The bearer token *)

Lemma prefix_drop (p s : string) :
  String.prefix p s = true -> s = (p ++ gostrings.drop (String.length p) s)%string.
Proof.
  revert s. induction p as [|a p IH]; intros [|b s]; simpl; try reflexivity;
    try discriminate.
  destruct (Ascii.ascii_dec a b) as [->|]; [|discriminate].
  intros H.
  change (String b s = String b (p ++ gostrings.drop (String.length p) s)%string).
  f_equal. apply IH. exact H.
Qed.

Lemma prefix_append (p t : string) : String.prefix p (p ++ t)%string = true.
Proof.
  induction p as [|a p IH].
  - destruct t; reflexivity.
  - change (String.prefix (String a p) (String a (p ++ t)%string) = true). simpl.
    destruct (Ascii.ascii_dec a a); [exact IH|contradiction].
Qed.

Lemma drop_append (p t : string) : gostrings.drop (String.length p) (p ++ t)%string = t.
Proof.
  induction p as [|a p IH]; [reflexivity|].
  change (gostrings.drop (S (String.length p)) (String a (p ++ t)%string) = t).
  simpl. exact IH.
Qed.

(** X23.  The two copies of the token extraction, [extractToken] and
    [ExtractToken], agree on every request.  The token is what follows the
    prefix "Bearer " of the [Authorization] header, and every token that is
    not empty comes from a header of this form; any other header, also
    "bearer" in another case, gives the empty token. *)
Theorem extractToken_bearer :
  forall (c : gin.Context),
    middleware.ExtractToken c = middleware.extractToken c
    /\ (forall token, gin.Authorization c = ("Bearer " ++ token)%string ->
                      middleware.extractToken c = token)
    /\ (middleware.extractToken c <> "" ->
        gin.Authorization c = ("Bearer " ++ middleware.extractToken c)%string)
    /\ (gostrings.HasPrefix (gin.Authorization c) "Bearer " = false ->
        middleware.extractToken c = "").
Proof.
  intros c. unfold middleware.ExtractToken, middleware.extractToken,
              gostrings.CutPrefix, gostrings.TrimPrefix.
  split; [|split; [|split]].
  - destruct (String.eqb (gin.Authorization c) ""); [reflexivity|].
    destruct (gostrings.HasPrefix (gin.Authorization c) "Bearer "); reflexivity.
  - intros token ->. unfold gostrings.HasPrefix. rewrite prefix_append, drop_append.
    reflexivity.
  - destruct (String.eqb (gin.Authorization c) ""); [congruence|].
    destruct (gostrings.HasPrefix (gin.Authorization c) "Bearer ") eqn:Hp; [|congruence].
    intros _. apply (prefix_drop "Bearer "). exact Hp.
  - intros ->. destruct (String.eqb (gin.Authorization c) ""); reflexivity.
Qed.

(** ** The chain of handlers *)

(** The loop of [Next] runs no handler when [index] is past its place. *)
Lemma run_past (handlers : list gin.HandlerFunc) (pos : Z) (c : gin.Context) :
  gin.index c <> pos -> gin.run handlers pos c = c.
Proof.
  intros Hne. destruct handlers as [|h rest]; [reflexivity|]. simpl.
  destruct (gin.index c =? pos) eqn:Heq; [|reflexivity].
  apply Z.eqb_eq in Heq. contradiction.
Qed.

Lemma IsAborted_Abort (c : gin.Context) : gin.IsAborted (gin.Abort c) = true.
Proof. reflexivity. Qed.

(** The answer of [RequireAuth] to a request it refuses. *)
Lemma RequireAuth_refuses (authService : AuthService) now Next (c : gin.Context) :
  middleware.extractToken c = ""
  \/ (exists err, ValidateToken authService now (middleware.extractToken c) = Err err) ->
  exists e,
    middleware.RequireAuth authService now Next c
    = gin.Abort (gin.JSON c StatusUnauthorized (gin.ErrorResponse e)).
Proof.
  unfold middleware.RequireAuth. intros [Hempty|[err Herr]].
  - rewrite Hempty. cbn. eauto.
  - destruct (String.eqb (middleware.extractToken c) ""); [eauto|].
    rewrite Herr. destruct (asError err); eauto.
Qed.

(** X24.  A request without a bearer token, or with a token the service
    does not validate, does not get past [RequireAuth]: whatever handlers
    [rest] stand behind it in the chain, none of them runs; the context
    holds the answer 401 with an error, is aborted, and carries no claims.
    The same request does not get past [RequireAdmin]. *)
Theorem RequireAuth_stops_the_chain :
  forall (authService : AuthService) (now : time.Time) (rest : list gin.HandlerFunc)
         (pos : Z) (c : gin.Context),
    gin.index c = pos ->
    pos + 1 < gin.abortIndex ->
    middleware.extractToken c = ""
    \/ (exists err, ValidateToken authService now (middleware.extractToken c) = Err err) ->
    exists e,
      let refusal :=
        gin.with_index (gin.JSON c StatusUnauthorized (gin.ErrorResponse e))
          (gin.abortIndex + 1) in
      gin.run (middleware.RequireAuth authService now :: rest) pos c = refusal
      /\ gin.run (middleware.RequireAdmin authService now :: rest) pos c = refusal
      /\ gin.IsAborted refusal = true
      /\ gin.Keys refusal = gin.Keys c.
Proof.
  intros authService now rest pos c Hindex Hpos Hrefused.
  destruct (RequireAuth_refuses authService now
              (fun c => gin.run rest (pos + 1) (gin.with_index c (gin.index c + 1))) c
              Hrefused) as [e He].
  exists e. cbv zeta. cbn [gin.run]. rewrite Hindex, Z.eqb_refl.
  unfold middleware.RequireAdmin. rewrite He, IsAborted_Abort.
  rewrite run_past by (cbn; unfold gin.abortIndex in *; lia).
  split; [reflexivity|]. split; [reflexivity|]. split; reflexivity.
Qed.

Lemma RequireAuth_stops_the_chain_witness :
  let c := {| gin.Authorization := "bearer alice.token"; gin.Keys := ∅; gin.index := 0;
              gin.written := [] |} in
  exists e,
    gin.run [middleware.RequireAdmin samples.auth 0; samples.listHandler] 0 c
    = gin.with_index (gin.JSON c StatusUnauthorized (gin.ErrorResponse e))
        (gin.abortIndex + 1).
Proof.
  intros c.
  destruct (RequireAuth_stops_the_chain samples.auth 0 [samples.listHandler] 0 c
              eq_refl eq_refl (or_introl eq_refl)) as (e & _ & Hadmin & _).
  exists e. exact Hadmin.
Defined.

(** The loop of [Next] at a handler that is to run. *)
Lemma run_enter (h : gin.HandlerFunc) (rest : list gin.HandlerFunc) (pos : Z)
      (c : gin.Context) :
  gin.index c = pos ->
  gin.run (h :: rest) pos c
  = gin.run rest (pos + 1)
      (gin.with_index (h (gin.Next rest pos) c) (gin.index (h (gin.Next rest pos) c) + 1)).
Proof. intros Hindex. cbn [gin.run]. rewrite Hindex, Z.eqb_refl. reflexivity. Qed.

(** [RequireAuth] on a request whose token the service validates. *)
Lemma RequireAuth_accepts (authService : AuthService) now Next (c : gin.Context) claims :
  middleware.extractToken c <> "" ->
  ValidateToken authService now (middleware.extractToken c) = Ok claims ->
  middleware.RequireAuth authService now Next c = Next (authenticated claims c).
Proof.
  intros Htoken Hvalid. unfold middleware.RequireAuth.
  apply String.eqb_neq in Htoken. rewrite Htoken, Hvalid. reflexivity.
Qed.

(** X25.  [RequireAdmin] looks at the role only after the handlers behind
    it have run.  It calls [RequireAuth], which ends with [c.Next()]: for a
    request whose token the service validates, the handler [h] of the route
    runs on the context that carries the claims, whatever the role is; for
    the role [admin] the chain ends there, for any other role the answer
    403 and the abort follow what the handler has already done. *)
Theorem RequireAdmin_runs_the_handler_first :
  forall (authService : AuthService) (now : time.Time) (h : gin.Context -> gin.Context)
         (pos : Z) (c : gin.Context) (claims : JWTClaims),
    gin.index c = pos ->
    pos + 2 < gin.abortIndex ->
    middleware.extractToken c <> "" ->
    ValidateToken authService now (middleware.extractToken c) = Ok claims ->
    (forall x, gin.index (h x) = gin.index x) ->
    (forall x, gin.Get (h x) middleware.RoleContextKey
               = gin.Get x middleware.RoleContextKey) ->
    let handled := h (gin.with_index (authenticated claims c) (pos + 1)) in
    gin.run [middleware.RequireAdmin authService now; fun _ => h] pos c
    = if String.eqb (claim_Role claims) "admin"
      then gin.with_index handled (pos + 4)
      else gin.with_index
             (gin.JSON handled StatusForbidden (gin.ErrorResponse (deref VarForbidden)))
             (gin.abortIndex + 1).
Proof.
  intros authService now h pos c claims Hindex Hpos Htoken Hvalid Hh Hrole handled.
  rewrite (run_enter _ _ _ _ Hindex).
  unfold middleware.RequireAdmin.
  rewrite (RequireAuth_accepts _ _ _ _ claims Htoken Hvalid).
  assert (Hhandled : gin.index handled = pos + 1) by (subst handled; rewrite Hh; reflexivity).
  assert (Hserved : gin.Next [fun _ => h] pos (authenticated claims c)
                    = gin.with_index handled (pos + 2)).
  { unfold gin.Next.
    replace (gin.index (authenticated claims c) + 1) with (pos + 1)
      by (change (gin.index (authenticated claims c)) with (gin.index c); lia).
    rewrite run_enter by reflexivity. fold handled. cbn [gin.run].
    rewrite Hhandled. f_equal. lia. }
  rewrite Hserved.
  assert (Hnot : gin.IsAborted (gin.with_index handled (pos + 2)) = false).
  { unfold gin.IsAborted, gin.abortIndex in *. cbn. apply Z.leb_gt. lia. }
  rewrite Hnot.
  assert (Hget : gin.Get (gin.with_index handled (pos + 2)) middleware.RoleContextKey
                 = Some (gin.AString (claim_Role claims))).
  { transitivity (gin.Get handled middleware.RoleContextKey); [reflexivity|].
    subst handled. rewrite Hrole. unfold gin.Get, authenticated. cbn.
    apply lookup_insert_eq. }
  rewrite Hget.
  destruct (String.eqb (claim_Role claims) "admin"); cbn [negb].
  - unfold gin.Next.
    rewrite (run_past _ (pos + 1)
               (gin.with_index (gin.with_index handled (pos + 2))
                  (gin.index (gin.with_index handled (pos + 2)) + 1)))
      by (cbn; lia).
    rewrite run_past by (cbn; lia).
    unfold gin.with_index. cbn. f_equal. lia.
  - rewrite run_past by (cbn; unfold gin.abortIndex in *; lia). reflexivity.
Qed.

Lemma RequireAdmin_runs_the_handler_first_witness :
  gin.written
    (gin.handleHTTPRequest
       [middleware.RequireAdmin samples.auth 0; samples.listHandler] samples.aliceRequest)
  = [(200, gin.SuccessResponse "users");
     (StatusForbidden, gin.ErrorResponse (deref VarForbidden))].
Proof.
  pose proof (RequireAdmin_runs_the_handler_first samples.auth 0
                (samples.listHandler (fun c => c)) 0 samples.aliceRequest samples.aliceClaims
                eq_refl eq_refl ltac:(discriminate) eq_refl
                (fun _ => eq_refl) (fun _ => eq_refl)) as H.
  cbv zeta in H.
  change (gin.handleHTTPRequest
            [middleware.RequireAdmin samples.auth 0; samples.listHandler]
            samples.aliceRequest)
    with (gin.run [middleware.RequireAdmin samples.auth 0;
                   fun _ => samples.listHandler (fun c => c)] 0 samples.aliceRequest).
  rewrite H. reflexivity.
Defined.

End http_facts.
(* ================================================================== *)
(** * Pages and other helpers *)
(* ================================================================== *)

Module utils_facts.
Import domain notions.
Local Open Scope Z_scope.

(** ** Numbers of pages *)

Lemma wrap_small (z : Z) : goint.minInt <= z <= goint.maxInt -> goint.wrap z = z.
Proof.
  unfold goint.wrap, goint.minInt, goint.maxInt. intros Hz.
  rewrite Z.mod_small; lia.
Qed.

(** The number of pages [(total + limit - 1) / limit] for a positive
    [limit], without overflow: the least number of pages that hold [total]
    rows. *)
Lemma pages_ceiling (total limit : Z) :
  0 < limit -> 0 <= total -> total + limit <= goint.maxInt ->
  exists pages,
    goint.div (goint.sub (goint.add total limit) 1) limit = goint.Returned pages
    /\ (total = 0 -> pages = 0)
    /\ (0 < total -> 0 < pages /\ (pages - 1) * limit < total)
    /\ total <= pages * limit.
Proof.
  intros Hlimit Htotal Hmax.
  unfold goint.div, goint.sub, goint.add.
  assert (Hrange : goint.minInt <= 0 /\ goint.maxInt = 2 ^ 63 - 1).
  { unfold goint.minInt, goint.maxInt. split; [lia|reflexivity]. }
  destruct Hrange as [Hmin Hmaxv].
  rewrite (wrap_small (total + limit)) by lia.
  rewrite (wrap_small (total + limit - 1)) by lia.
  replace (limit =? 0) with false by (symmetry; apply Z.eqb_neq; lia).
  rewrite Z.quot_div_nonneg by lia.
  set (q := (total + limit - 1) / limit).
  assert (Hq : limit * q <= total + limit - 1 < limit * (q + 1)).
  { subst q. pose proof (Z.mul_div_le (total + limit - 1) limit Hlimit).
    pose proof (Z.mul_succ_div_gt (total + limit - 1) limit Hlimit). lia. }
  assert (Hq0 : 0 <= q) by (subst q; apply Z.div_pos; lia).
  assert (Hqmax : q <= total + limit - 1) by nia.
  rewrite (wrap_small q) by lia.
  exists q. split; [reflexivity|]. split; [intros ->; nia|]. split; [intros Hpos|]; nia.
Qed.

(** X26.  [GetMeta] counts the pages by a division by the limit of the
    request, which nothing has checked: with the limit 0 it panics,
    whatever the total.  [Paginate] puts 10 in the place of a limit below 1
    and returns for every input.  For a request with a page and a limit of
    at least 1 (and numbers that do not overflow) both give the offset
    [(page - 1) * limit] and the same number of pages, the least that hold
    [total] rows. *)
Theorem page_counts :
  forall (p : PaginationRequest) (total : Z),
    (Limit p = 0 -> exists reason, GetMeta p total = goint.Panicked reason)
    /\ (exists r, utils.Paginate (Page p) (Limit p) total = goint.Returned r)
    /\ (1 <= Page p -> 0 < Limit p -> 0 <= total ->
        total + Limit p <= goint.maxInt -> (Page p - 1) * Limit p <= goint.maxInt ->
        exists meta,
          GetMeta p total = goint.Returned meta
          /\ utils.Paginate (Page p) (Limit p) total
             = goint.Returned (meta_Offset meta, meta_Pages meta)
          /\ meta_Offset meta = (Page p - 1) * Limit p
          /\ meta_Offset meta = GetOffset p
          /\ (total = 0 -> meta_Pages meta = 0)
          /\ (0 < total -> 0 < meta_Pages meta
                           /\ (meta_Pages meta - 1) * Limit p < total)
          /\ total <= meta_Pages meta * Limit p).
Proof.
  intros p total. split; [|split].
  - intros Hzero. unfold GetMeta, goint.div. rewrite Hzero. cbn. eauto.
  - unfold utils.Paginate, goint.div.
    destruct ((if Limit p <? 1 then 10 else Limit p) =? 0) eqn:Hz; [|eauto].
    exfalso. destruct (Limit p <? 1) eqn:Hl; [discriminate|].
    apply Z.ltb_ge in Hl. apply Z.eqb_eq in Hz. lia.
  - intros Hpage Hlimit Htotal Hmax Hoffset.
    destruct (pages_ceiling total (Limit p) Hlimit Htotal Hmax)
      as (pages & Hdiv & Hzero & Hpos & Hcover).
    assert (Hoff : GetOffset p = (Page p - 1) * Limit p).
    { unfold GetOffset, goint.mul, goint.sub.
      assert (Hmaxv : goint.maxInt = 2 ^ 63 - 1 /\ goint.minInt = - 2 ^ 63)
        by (split; reflexivity).
      rewrite (wrap_small (Page p - 1)) by nia. apply wrap_small. nia. }
    unfold GetMeta, utils.Paginate. rewrite Hdiv.
    replace (Page p <? 1) with false by (symmetry; apply Z.ltb_ge; lia).
    replace (Limit p <? 1) with false by (symmetry; apply Z.ltb_ge; lia).
    rewrite Hdiv. eexists. split; [reflexivity|]. cbn [meta_Offset meta_Pages].
    split; [unfold GetOffset; reflexivity|].
    split; [exact Hoff|]. split; [reflexivity|].
    split; [exact Hzero|]. split; [exact Hpos|exact Hcover].
Qed.

(** ** Slices *)

Section Slices.
Context `{Countable T}.

(** The state of the loop of [UniqueSlice] after the items [l]. *)
Lemma UniqueSlice_loop (l : list T) :
  let state :=
    fold_left
      (fun '(keys, result) item =>
         if bool_decide (item ∈ keys) then (keys, result)
         else ({[item]} ∪ keys, (result ++ [item])%list))
      l ((∅ : gset T), []) in
  (forall x, x ∈ fst state <-> In x (snd state))
  /\ (forall x, In x (snd state) <-> In x l)
  /\ List.NoDup (snd state)
  /\ (List.NoDup l -> snd state = l).
Proof.
  induction l as [|x l IH] using rev_ind.
  - cbn. split; [intros x; split; [set_solver|intros []]|].
    split; [tauto|]. split; [constructor|reflexivity].
  - rewrite fold_left_app. cbn [fold_left]. cbv zeta in IH.
    destruct (fold_left _ l (∅, [])) as [keys result].
    cbn [fst snd] in IH. destruct IH as (Hkeys & Hmembers & Hnodup & Hfix).
    destruct (bool_decide (x ∈ keys)) eqn:Hseen; cbn [fst snd].
    + apply bool_decide_eq_true in Hseen.
      split; [exact Hkeys|]. split; [|split; [exact Hnodup|]].
      * intros y. rewrite Hmembers, in_app_iff. cbn.
        split; [auto|]. intros [Hy|[<-|[]]]; [exact Hy|].
        apply Hmembers, Hkeys. exact Hseen.
      * intros Hnd. exfalso. apply List.NoDup_remove_2 in Hnd.
        rewrite List.app_nil_r in Hnd. apply Hnd, Hmembers, Hkeys. exact Hseen.
    + apply bool_decide_eq_false in Hseen.
      split; [|split; [|split]].
      * intros y. rewrite in_app_iff, <- Hkeys, elem_of_union, elem_of_singleton.
        cbn. intuition congruence.
      * intros y. rewrite !in_app_iff, Hmembers. tauto.
      * apply List.NoDup_app; [exact Hnodup|repeat constructor; intros []|].
        intros y Hy [<-|[]]. apply Hseen, Hkeys. exact Hy.
      * intros Hnd. apply List.NoDup_remove_1 in Hnd. rewrite List.app_nil_r in Hnd.
        rewrite (Hfix Hnd). reflexivity.
Qed.

(** X27.  [UniqueSlice] returns the items of the slice without
    repetition, each at the place of its first occurrence: the result has
    no item twice, it has the items of the slice and no other, an item that
    comes behind the slice is added at the end when it is new and dropped
    when it is not, and a slice without repetition is returned as it is. *)
Theorem UniqueSlice_first_occurrences :
  forall (slice : list T) (item : T),
    List.NoDup (utils.UniqueSlice slice)
    /\ (forall x, In x (utils.UniqueSlice slice) <-> In x slice)
    /\ utils.UniqueSlice (slice ++ [item])
       = (if utils.SliceContains slice item then utils.UniqueSlice slice
          else utils.UniqueSlice slice ++ [item])%list
    /\ (List.NoDup slice -> utils.UniqueSlice slice = slice)
    /\ utils.UniqueSlice (utils.UniqueSlice slice) = utils.UniqueSlice slice.
Proof.
  intros slice item. unfold utils.UniqueSlice.
  pose proof (UniqueSlice_loop slice) as Hloop. cbv zeta in Hloop.
  destruct Hloop as (Hkeys & Hmembers & Hnodup & Hfix).
  split; [exact Hnodup|]. split; [exact Hmembers|]. split; [|split; [exact Hfix|]].
  - rewrite fold_left_app. cbn [fold_left].
    destruct (fold_left _ slice (∅, [])) as [keys result]. cbn [fst snd] in *.
    assert (Hsame : bool_decide (item ∈ keys) = utils.SliceContains slice item).
    { unfold utils.SliceContains.
      destruct (existsb _ slice) eqn:Hex.
      - apply bool_decide_eq_true. apply existsb_exists in Hex.
        destruct Hex as (v & Hv & Heq). apply bool_decide_eq_true in Heq. subst v.
        apply Hkeys, Hmembers. exact Hv.
      - apply bool_decide_eq_false. intros Hin.
        assert (Htrue : existsb (fun v => bool_decide (v = item)) slice = true).
        { apply existsb_exists. exists item. split; [apply Hmembers, Hkeys; exact Hin|].
          apply bool_decide_eq_true. reflexivity. }
        congruence. }
    rewrite Hsame. destruct (utils.SliceContains slice item); reflexivity.
  - pose proof (UniqueSlice_loop
                  (snd (fold_left
                          (fun '(keys, result) item =>
                             if bool_decide (item ∈ keys) then (keys, result)
                             else ({[item]} ∪ keys, (result ++ [item])%list))
                          slice ((∅ : gset T), [])))) as Hagain.
    cbv zeta in Hagain. destruct Hagain as (_ & _ & _ & Hagain).
    apply Hagain. exact Hnodup.
Qed.

End Slices.

(** ** [Retry] *)

Section Retry.
Context {St : Type}.
Variables (attempts : Z) (delay : time.Duration) (fn : St -> St * option error).

(** The loop of [Retry] with [n] rounds left. *)
Lemma retry_rounds (n : nat) :
  forall (i : Z) (s : St) (calls : Z) (slept : time.Duration) (err : option error),
    i + Z.of_nat n = attempts ->
    let '(s', calls', slept', err') :=
      utils.retry n i attempts delay fn s calls slept err in
    match n with
    | O => (s', calls', slept', err') = (s, calls, slept, err)
    | S _ =>
        calls + 1 <= calls' <= calls + Z.of_nat n
        /\ slept' = slept + (calls' - calls - 1) * delay
        /\ (err' <> None -> calls' = calls + Z.of_nat n)
        /\ exists s0, fn s0 = (s', err')
    end.
Proof.
  induction n as [|n IH]; intros i s calls slept err Hleft; [reflexivity|].
  cbn [utils.retry]. destruct (fn s) as [s1 [e|]] eqn:Hcall.
  - specialize (IH (i + 1) s1 (calls + 1)
                   (if i <? attempts - 1 then slept + delay else slept) (Some e)).
    destruct (utils.retry n (i + 1) attempts delay fn s1 (calls + 1) _ (Some e))
      as [[[s' calls'] slept'] err'].
    specialize (IH ltac:(lia)). destruct n as [|n].
    + replace (i <? attempts - 1) with false in IH
        by (symmetry; apply Z.ltb_ge; lia).
      injection IH as -> -> -> ->.
      split; [lia|]. split; [lia|]. split; [lia|]. exists s. exact Hcall.
    + replace (i <? attempts - 1) with true in IH
        by (symmetry; apply Z.ltb_lt; lia).
      destruct IH as (Hcalls & Hslept & Hall & Hlast).
      split; [lia|]. split; [lia|]. split; [intros Herr; specialize (Hall Herr); lia|].
      exact Hlast.
  - split; [lia|]. split; [lia|]. split; [intros Herr; congruence|].
    exists s. exact Hcall.
Qed.

(** X28.  [Retry] with a number of attempts of 0 or less does not call
    the function and returns no error.  With a positive number it calls the
    function at least once and at most [attempts] times, sleeps [delay]
    between two calls and not after the last, returns an error only when
    every attempt was used, and returns what the last call returned. *)
Theorem Retry_calls_and_sleeps :
  forall (s : St),
    let '(s', calls, slept, err) := utils.Retry attempts delay fn s in
    (attempts <= 0 -> s' = s /\ calls = 0 /\ slept = 0 /\ err = None)
    /\ (0 < attempts ->
        1 <= calls <= attempts
        /\ slept = (calls - 1) * delay
        /\ (err <> None -> calls = attempts)
        /\ exists s0, fn s0 = (s', err)).
Proof.
  intros s. unfold utils.Retry.
  destruct (Z.to_nat attempts) as [|n] eqn:Hn.
  - cbn [utils.retry]. split; [intros _; repeat split|intros Hpos; lia].
  - pose proof (retry_rounds (S n) 0 s 0 0 None ltac:(lia)) as Hrounds.
    destruct (utils.retry (S n) 0 attempts delay fn s 0 0 None)
      as [[[s' calls] slept] err].
    destruct Hrounds as (Hcalls & Hslept & Hall & Hlast).
    split; [intros Hle; lia|]. intros _.
    split; [lia|]. split; [lia|]. split; [intros Herr; specialize (Hall Herr); lia|].
    exact Hlast.
Qed.

End Retry.

(** ** [TruncateString] *)

Lemma substring_head (n : nat) :
  forall s : string,
    (n <= String.length s)%nat ->
    String.length (String.substring 0 n s) = n
    /\ String.prefix (String.substring 0 n s) s = true.
Proof.
  induction n as [|n IH]; intros [|a s] Hn; cbn in Hn; try lia.
  - split; reflexivity.
  - split; reflexivity.
  - destruct (IH s ltac:(lia)) as [Hlen Hpre].
    cbn [String.substring String.length String.prefix]. rewrite Hlen, Hpre.
    destruct (Ascii.ascii_dec a a); [split; reflexivity|congruence].
Qed.

Lemma len_append (s t : string) :
  gostrings.len (s ++ t) = gostrings.len s + gostrings.len t.
Proof.
  unfold gostrings.len. induction s as [|a s IH]; [reflexivity|].
  change (String a s ++ t)%string with (String a (s ++ t)).
  cbn [String.length]. unfold gostrings.len in IH. lia.
Qed.

(** X29.  [TruncateString] returns a string that fits in [length] as it
    is.  Of a longer string it returns the first [length] bytes followed by
    three dots, [length + 3] bytes in all, which is more than the string had
    when fewer than three bytes were cut.  With a negative [length] it
    panics, whatever the string. *)
Theorem TruncateString_cases :
  forall (str : string) (length : Z),
    (gostrings.len str <= length -> utils.TruncateString str length = goint.Returned str)
    /\ (0 <= length < gostrings.len str ->
        exists head,
          utils.TruncateString str length = goint.Returned (head ++ "...")
          /\ gostrings.HasPrefix str head = true
          /\ gostrings.len head = length
          /\ gostrings.len (head ++ "...") = length + 3)
    /\ (length < 0 -> exists reason, utils.TruncateString str length = goint.Panicked reason).
Proof.
  intros str length. unfold utils.TruncateString, utils.sliceTo.
  assert (Hlen : 0 <= gostrings.len str) by (unfold gostrings.len; lia).
  split; [|split].
  - intros Hfits. replace (gostrings.len str <=? length) with true
      by (symmetry; apply Z.leb_le; exact Hfits). reflexivity.
  - intros [Hlow Hhigh].
    replace (gostrings.len str <=? length) with false by (symmetry; apply Z.leb_gt; lia).
    replace (length <? 0) with false by (symmetry; apply Z.ltb_ge; lia).
    replace (gostrings.len str <? length) with false by (symmetry; apply Z.ltb_ge; lia).
    cbn [orb].
    destruct (substring_head (Z.to_nat length) str) as [Hhead Hpre].
    { unfold gostrings.len in Hhigh. lia. }
    eexists. split; [reflexivity|]. split; [exact Hpre|].
    assert (Hl : gostrings.len (String.substring 0 (Z.to_nat length) str) = length).
    { unfold gostrings.len. rewrite Hhead. lia. }
    split; [exact Hl|]. rewrite len_append, Hl. reflexivity.
  - intros Hneg.
    replace (gostrings.len str <=? length) with false by (symmetry; apply Z.leb_gt; lia).
    replace (length <? 0) with true by (symmetry; apply Z.ltb_lt; lia).
    cbn [orb]. eauto.
Qed.

End utils_facts.
